(** * IsoCode agent runtime: a verified model of the engine's pure core

    This development embeds, function by function, the parts of the IsoCode
    server that decide its context budgeting, tool-result truncation, path
    confinement and step-loop control:

    - [server/context-manager.js]: [estimateTokens], [estimateMessagesTokens],
      [smartTruncate], [truncateToolResult], [trimForContextWindow],
      [compactConversation];
    - [server/tools.js]: [getWorkspaceRoot], [resolvePath], [withPermission]
      and the file tools of [runTool];
    - [server/agent.js]: [resolvePathInWorkspace] and the ReAct loop of
      [runAgent];
    - [server/index.js]: the [/stop-agent] handler.

    JavaScript numbers are IEEE-754 binary64 values; the arithmetic that the
    code performs on them ([x * 0.7], [len / 3.5], ...) is modelled by an
    integer-level rounding model ([Module F64]) that is cross-checked against
    the kernel's primitive floats.  JavaScript strings are modelled by
    [string], one [ascii] per code unit. *)

From Stdlib Require Import ZArith Lia Ascii String List Bool.
From Stdlib Require Import Floats.
From stdpp Require Import base list strings gmap pretty.

Local Open Scope Z_scope.

(** ** Binary64 arithmetic *)

Module F64.

(** A finite binary64 value [mant * 2 ^ expo].  Only the operations the
    server uses are modelled, on magnitudes far from overflow and from the
    subnormal range. *)
Record t := mk { mant : Z; expo : Z }.

Definition prec : Z := 53.

(** Round [m * 2 ^ e] to 53 significant bits, to nearest, ties to even. *)
Definition rne (m e : Z) : t :=
  let a := Z.abs m in
  let bits := Z.log2 a + 1 in
  if bits <=? prec then mk m e
  else
    let sh := bits - prec in
    let q := Z.shiftr a sh in
    let r := a mod 2 ^ sh in
    let half := 2 ^ (sh - 1) in
    let q' := if (half <? r) || ((r =? half) && Z.odd q) then q + 1 else q in
    mk (Z.sgn m * q') (e + sh).

Definition of_Z (z : Z) : t := rne z 0.

Definition mul (x y : t) : t := rne (mant x * mant y) (expo x + expo y).

(** Correctly rounded quotient: the integer quotient is computed with at
    least 55 bits and a sticky bit, then rounded. *)
Definition div (x y : t) : t :=
  let s := Z.sgn (mant x) * Z.sgn (mant y) in
  let a := Z.abs (mant x) in
  let b := Z.abs (mant y) in
  if (a =? 0) || (b =? 0) then mk 0 0
  else
    let k := Z.max 0 (56 + Z.log2 b - Z.log2 a) in
    let n := a * 2 ^ k in
    let q := n / b in
    let sticky := if n mod b =? 0 then 0 else 1 in
    rne (s * (2 * q + sticky)) (expo x - expo y - k - 1).

(** [Math.floor] and [Math.ceil], as integers. *)
Definition floor (x : t) : Z :=
  if 0 <=? expo x then mant x * 2 ^ expo x else mant x / 2 ^ (- expo x).

Definition ceil (x : t) : Z :=
  if 0 <=? expo x then mant x * 2 ^ expo x else - ((- mant x) / 2 ^ (- expo x)).

(** [x < y] on numbers. *)
Definition ltb (x y : t) : bool :=
  let e := Z.min (expo x) (expo y) in
  mant x * 2 ^ (expo x - e) <? mant y * 2 ^ (expo y - e).

(** Decimal literals of the source: the nearest binary64 value. *)
Definition c0_7 : t := div (of_Z 7) (of_Z 10).
Definition c0_2 : t := div (of_Z 2) (of_Z 10).
Definition c0_5 : t := div (of_Z 5) (of_Z 10).
Definition c0_75 : t := div (of_Z 75) (of_Z 100).
Definition c3_5 : t := div (of_Z 35) (of_Z 10).

(** The same operations on the kernel's primitive floats, used to check the
    model on sample inputs. *)
Definition prim_of_Z (z : Z) : float :=
  if z <? 0 then PrimFloat.opp (PrimFloat.of_uint63 (Uint63.of_Z (- z)))
  else PrimFloat.of_uint63 (Uint63.of_Z z).

Definition prim_floor (f : float) : Z :=
  match Prim2SF f with
  | S754_finite s m e =>
      let z := if s then Z.neg m else Z.pos m in
      if 0 <=? e then z * 2 ^ e else z / 2 ^ (- e)
  | _ => 0
  end.

Definition prim_ceil (f : float) : Z :=
  match Prim2SF f with
  | S754_finite s m e =>
      let z := if s then Z.neg m else Z.pos m in
      if 0 <=? e then z * 2 ^ e else - ((- z) / 2 ^ (- e))
  | _ => 0
  end.

End F64.

(** ** JavaScript strings *)

Module Js.

Definition nl : string := String "010"%char "".

Definition len (s : string) : Z := Z.of_nat (String.length s).

Fixpoint take (n : nat) (s : string) : string :=
  match n, s with
  | S n', String a s' => String a (take n' s')
  | _, _ => ""
  end.

Fixpoint drop (n : nat) (s : string) : string :=
  match n, s with
  | S n', String _ s' => drop n' s'
  | _, _ => s
  end.

(** Relative index of [String.prototype.slice]: negative counts from the
    end, and the result is clamped to [0 .. len]. *)
Definition slice_index (l i : Z) : Z :=
  if i <? 0 then Z.max 0 (l + i) else Z.min i l.

(** [s.slice(b, e)]. *)
Definition slice (s : string) (b e : Z) : string :=
  let from := slice_index (len s) b in
  let to := slice_index (len s) e in
  take (Z.to_nat (to - from)) (drop (Z.to_nat from) s).

(** [s.slice(b)]. *)
Definition slice_from (s : string) (b : Z) : string := slice s b (len s).

(** [s.startsWith(p)]. *)
Definition startsWith (s p : string) : bool := String.prefix p s.

(** [s.includes(p)]. *)
Fixpoint includes (s p : string) : bool :=
  String.prefix p s ||
  match s with
  | "" => false
  | String _ s' => includes s' p
  end.

(** [s.replace(p, r)] for a string pattern: the first occurrence only. *)
Fixpoint replace_first (s p r : string) : string :=
  if String.prefix p s then r +:+ drop (String.length p) s
  else match s with
       | "" => ""
       | String a s' => String a (replace_first s' p r)
       end.

(** [s.split(c)] for a one-character separator. *)
Fixpoint split (c : ascii) (s : string) : list string :=
  match s with
  | "" => [""]
  | String a s' =>
      if Ascii.eqb a c then "" :: split c s'
      else match split c s' with
           | [] => [String a ""]
           | w :: ws => String a w :: ws
           end
  end.

(** [xs.join(sep)]. *)
Definition join (sep : string) (xs : list string) : string := String.concat sep xs.

(** A double quote, and a word between double quotes. *)
Definition dq : string := String "034" "".
Definition quoted (s : string) : string := dq +:+ s +:+ dq.

(** [String(n)] and template interpolation of an integer. *)
Definition of_int (n : Z) : string := pretty n.

(** [s.replace(/^\/+/, '')]. *)
Fixpoint strip_leading_slashes (s : string) : string :=
  match s with
  | String "/" s' => strip_leading_slashes s'
  | _ => s
  end.

End Js.

(** ** JSON values, [JSON.stringify] *)

#[warning="-register-all"]
Inductive json :=
| JNull
| JBool (b : bool)
| JNum (n : Z)
| JStr (s : string)
| JArr (xs : list json)
| JObj (fields : list (string * json)).

Module Json.

Definition hex_digit (n : N) : ascii :=
  ascii_of_N (if (n <? 10)%N then 48 + n else 87 + n).

(** One code unit inside a JSON string literal. *)
Definition escape_char (a : ascii) : string :=
  let n := N_of_ascii a in
  if (n =? 34)%N then String "\" (String "034" "")
  else if (n =? 92)%N then String "\" (String "\" "")
  else if (n =? 8)%N then String "\" "b"
  else if (n =? 12)%N then String "\" "f"
  else if (n =? 10)%N then String "\" "n"
  else if (n =? 13)%N then String "\" "r"
  else if (n =? 9)%N then String "\" "t"
  else if (n <? 32)%N then
    String "\" ("u00" +:+ String (hex_digit (n / 16)) (String (hex_digit (n mod 16)) ""))
  else String a "".

Fixpoint escape (s : string) : string :=
  match s with
  | "" => ""
  | String a s' => escape_char a +:+ escape s'
  end.

Definition quote (s : string) : string :=
  String "034" (escape s +:+ String "034" "").

Fixpoint stringify (j : json) : string :=
  match j with
  | JNull => "null"
  | JBool true => "true"
  | JBool false => "false"
  | JNum n => Js.of_int n
  | JStr s => quote s
  | JArr xs => "[" +:+ Js.join "," (map stringify xs) +:+ "]"
  | JObj fs =>
      "{" +:+ Js.join "," (map (fun kv => quote (fst kv) +:+ ":" +:+ stringify (snd kv)) fs) +:+ "}"
  end.

(** [String(x)] and template interpolation of a value. *)
Fixpoint to_string (j : json) : string :=
  match j with
  | JNull => "null"
  | JBool true => "true"
  | JBool false => "false"
  | JNum n => Js.of_int n
  | JStr s => s
  | JArr xs => Js.join "," (map (fun x => match x with JNull => "" | _ => to_string x end) xs)
  | JObj _ => "[object Object]"
  end.

(** Truthiness of a value ([!x] is its negation). *)
Definition truthy (j : json) : bool :=
  match j with
  | JNull => false
  | JBool b => b
  | JNum n => negb (n =? 0)
  | JStr s => negb (String.eqb s "")
  | JArr _ | JObj _ => true
  end.

(** [o.k] on the own properties of an object. *)
Fixpoint get (k : string) (fs : list (string * json)) : option json :=
  match fs with
  | [] => None
  | (k', v) :: fs' => if String.eqb k' k then Some v else get k fs'
  end.

(** [o.k = v]: overwrite in place, or append a new property. *)
Fixpoint set (k : string) (v : json) (fs : list (string * json)) : list (string * json) :=
  match fs with
  | [] => [(k, v)]
  | (k', v') :: fs' => if String.eqb k' k then (k, v) :: fs' else (k', v') :: set k v fs'
  end.

(** [{ ...x }] for a value of type 'object': the own properties of an
    object, and the index properties of an array. *)
Definition spread (j : json) : option (list (string * json)) :=
  match j with
  | JObj fs => Some fs
  | JArr xs => Some (imap (fun i x => (Js.of_int (Z.of_nat i), x)) xs)
  | _ => None
  end.

End Json.

(** ** Messages *)

Inductive Role := System | User | Assistant | Tool.

Definition role_name (r : Role) : string :=
  match r with
  | System => "system"
  | User => "user"
  | Assistant => "assistant"
  | Tool => "tool"
  end.

Definition is_user (r : Role) : bool :=
  match r with User => true | _ => false end.


(** A conversation message.  The engine only ever pushes messages whose
    content is a string (objects are serialised with [JSON.stringify] before
    they are pushed), so [content] is a string. *)
Record Message := mkMessage { role : Role; content : string }.

(** ** [server/context-manager.js] *)

Module ContextManager.

Definition CHARS_PER_TOKEN : F64.t := F64.c3_5.

(** [estimateTokens(text)]: [Math.ceil(String(text).length / CHARS_PER_TOKEN)],
    and 0 for the empty string. *)
Definition estimateTokens (text : string) : Z :=
  if String.eqb text "" then 0
  else F64.ceil (F64.div (F64.of_Z (Js.len text)) CHARS_PER_TOKEN).

Definition estimateMessagesTokens (messages : list Message) : Z :=
  fold_left
    (fun total m => total + 4 + estimateTokens (role_name (role m)) + estimateTokens (content m))
    messages 0.

Definition headSize (maxChars : Z) : Z := F64.floor (F64.mul (F64.of_Z maxChars) F64.c0_7).
Definition tailSize (maxChars : Z) : Z := F64.floor (F64.mul (F64.of_Z maxChars) F64.c0_2).

(** The separator of [smartTruncate]. *)
Definition omission (omitted : Z) : string :=
  Js.nl +:+ Js.nl +:+ "... [" +:+ Js.of_int omitted +:+ " characters omitted] ..." +:+ Js.nl +:+ Js.nl.

Definition smartTruncate (text : string) (maxChars : Z) : string :=
  if String.eqb text "" then ""
  else if Js.len text <=? maxChars then text
  else
    let head := Js.slice text 0 (headSize maxChars) in
    let tail := Js.slice_from text (- tailSize maxChars) in
    let omitted := Js.len text - headSize maxChars - tailSize maxChars in
    head +:+ omission omitted +:+ tail.

Definition MAX_TOOL_RESULT_CHARS : Z := 3000.
Definition MAX_FILE_CONTENT_CHARS : Z := 4000.

(** The field-by-field steps of [truncateToolResult] on the clone. *)
Definition truncate_string_field (k : string) (limit : Z) (clone : list (string * json)) : list (string * json) :=
  match Json.get k clone with
  | Some (JStr c) => if limit <? Js.len c then Json.set k (JStr (smartTruncate c limit)) clone else clone
  | _ => clone
  end.

Definition truncate_files (clone : list (string * json)) : list (string * json) :=
  match Json.get "files" clone with
  | Some (JArr files) =>
      if 80 <? Z.of_nat (length files) then
        let total := Z.of_nat (length files) in
        Json.set "files"
          (JArr (firstn 80 files ++ [JStr ("... and " +:+ Js.of_int (total - 80) +:+ " more files")]))
          clone
      else clone
  | _ => clone
  end.

Definition truncate_matches (clone : list (string * json)) : list (string * json) :=
  match Json.get "matches" clone with
  | Some (JArr matches) =>
      if 30 <? Z.of_nat (length matches) then
        let total := Z.of_nat (length matches) in
        Json.set "truncated" (JStr ("Showing 30 of " +:+ Js.of_int total +:+ " matches"))
          (Json.set "matches" (JArr (firstn 30 matches)) clone)
      else clone
  | _ => clone
  end.

Definition truncate_fields (clone : list (string * json)) : list (string * json) :=
  truncate_matches
    (truncate_files
       (truncate_string_field "stderr" 1000
          (truncate_string_field "stdout" 2000
             (truncate_string_field "content" MAX_FILE_CONTENT_CHARS clone)))).

Definition truncateToolResult (result : json) : json :=
  if negb (Json.truthy result) then result
  else
    let s := match result with JStr t => t | _ => Json.stringify result end in
    if Js.len s <=? MAX_TOOL_RESULT_CHARS then result
    else
      match Json.spread result with
      | Some fields =>
          let clone := truncate_fields fields in
          let out := Json.stringify (JObj clone) in
          if Js.len out <=? MAX_TOOL_RESULT_CHARS + 500 then JObj clone
          else JStr (smartTruncate out MAX_TOOL_RESULT_CHARS)
      | None => JStr (smartTruncate s MAX_TOOL_RESULT_CHARS)
      end.

(** The backwards loop of [trimForContextWindow]: [newest_first] is what is
    left of [rest] to visit, newest message first; the result is [kept]. *)
Fixpoint trim_loop (available : Z) (newest_first : list Message) (usedTokens : Z)
    (kept : list Message) : list Message :=
  match newest_first with
  | [] => kept
  | m :: older =>
      let tokens := estimateTokens (content m) + 4 in
      if usedTokens + tokens <=? available then
        trim_loop available older (usedTokens + tokens) (m :: kept)
      else if usedTokens + 100 <=? available then
        let remainingChars :=
          F64.floor (F64.mul (F64.of_Z (available - usedTokens - 20)) CHARS_PER_TOKEN) in
        if 200 <? remainingChars then
          mkMessage (role m) (smartTruncate (content m) remainingChars) :: kept
        else kept
      else kept
  end.

(** The count the loop keeps in [usedTokens]: the content tokens of the
    messages, four more for each. *)
Definition content_tokens (msgs : list Message) : Z :=
  fold_right (fun m total => estimateTokens (content m) + 4 + total) 0 msgs.

Definition trimForContextWindow (messages : list Message) (maxTokens : Z) : list Message :=
  if Z.of_nat (length messages) <=? 2 then messages
  else
    match messages with
    | [] => messages
    | system :: rest =>
        let budget := if maxTokens =? 0 then 6000 else maxTokens in
        let systemTokens := estimateTokens (content system) in
        let available := budget - systemTokens - 1024 in
        if available <=? 0 then
          let maxChars := F64.floor (F64.mul (F64.mul (F64.of_Z budget) CHARS_PER_TOKEN) F64.c0_5) in
          [mkMessage (role system) (smartTruncate (content system) maxChars); List.last rest system]
        else system :: trim_loop available (rev rest) 0 []
    end.

(** What [callLLM] resolves to: a string, or an object with a [content]
    field (and tool calls) when the provider answered with native tool
    calls. *)
Inductive LlmReply :=
| ReplyText (text : string)
| ReplyObject (content : option string).

(** The dash of the summary header is one code unit outside ASCII; it is
    kept as one character. *)
Definition em_dash : string := String "151" "".

(** [summary?.content || String(summary)] for a reply that is not a string. *)
Definition summary_text (r : LlmReply) : string :=
  match r with
  | ReplyText t => t
  | ReplyObject (Some c) => if String.eqb c "" then "[object Object]" else c
  | ReplyObject None => "[object Object]"
  end.

(** The user message sent to the model by [compactConversation]. *)
Definition summaryInput (toCompact : list Message) : string :=
  Js.join Js.nl
    (map (fun m => "[" +:+ role_name (role m) +:+ "]: " +:+ Js.slice (content m) 0 500) toCompact).

(** The summary used when the call fails. *)
Definition fallback_summary (toCompact : list Message) : string :=
  "Previous conversation (" +:+ Js.of_int (Z.of_nat (length toCompact)) +:+ " messages compacted): "
  +:+ Js.join "; "
        (map (fun m => Js.slice (content m) 0 100)
             (filter (fun m => is_user (role m)) toCompact)).

Record Compaction := mkCompaction {
  messages : list Message;
  compacted : bool;
  removedCount : option Z
}.

(** [compactConversation(messages, model)].  [llm] is the outcome of the one
    call to the model: [Some r] when it resolved to [r], [None] when it
    threw. *)
Definition compactConversation (msgs : list Message) (llm : option LlmReply) : Compaction :=
  if Z.of_nat (length msgs) <=? 3 then mkCompaction msgs false None
  else
    match msgs with
    | [] => mkCompaction msgs false None
    | system :: rest =>
        let keepCount := Nat.min 4 (length rest) in
        let toCompact := firstn (length rest - keepCount) rest in
        let toKeep := skipn (length rest - keepCount) rest in
        if Z.of_nat (length toCompact) <? 2 then mkCompaction msgs false None
        else
          let summaryStr :=
            match llm with
            | Some r => summary_text r
            | None => fallback_summary toCompact
            end in
          let compactedMessage :=
            mkMessage Assistant
              (Json.stringify
                 (JObj [("type", JStr "observation");
                        ("content",
                         JStr ("[Conversation summary " +:+ em_dash +:+ " "
                               +:+ Js.of_int (Z.of_nat (length toCompact))
                               +:+ " older messages compacted]" +:+ Js.nl +:+ summaryStr))])) in
          mkCompaction (system :: compactedMessage :: toKeep) true
                       (Some (Z.of_nat (length toCompact)))
    end.

(** [shouldAutoCompact(messages, maxTokens)]. *)
Definition shouldAutoCompact (msgs : list Message) (maxTokens : Z) : bool :=
  let tokens := estimateMessagesTokens msgs in
  let threshold := F64.mul (F64.of_Z (if maxTokens =? 0 then 6000 else maxTokens)) F64.c0_75 in
  F64.ltb threshold (F64.of_Z tokens).

End ContextManager.

(** ** Results of code that may throw *)

Inductive result (A : Type) :=
| Ok (value : A)
| Throw (message : string).
Arguments Ok {A} value.
Arguments Throw {A} message.

(** ** [path] (POSIX) *)

Module Path.

Definition sep : string := "/".

Definition isAbsolute (p : string) : bool :=
  match p with
  | String "/" _ => true
  | _ => false
  end.

(** The right-to-left scan of [path.resolve]: [pending] holds the arguments
    still to visit, last argument first; the scan stops at the first absolute
    one and falls back on the working directory. *)
Fixpoint resolve_scan (cwd : string) (pending : list string) (resolvedPath : string) : string :=
  match pending with
  | [] => cwd +:+ "/" +:+ resolvedPath
  | p :: earlier =>
      if String.eqb p "" then resolve_scan cwd earlier resolvedPath
      else if isAbsolute p then p +:+ "/" +:+ resolvedPath
      else resolve_scan cwd earlier (p +:+ "/" +:+ resolvedPath)
  end.

(** [normalizeString] for an absolute path: empty and [.] segments are
    dropped, [..] removes the segment before it (and is dropped at the root).
    [stack] holds the segments kept so far, last one first. *)
Fixpoint normalize_segments (stack : list string) (segments : list string) : list string :=
  match segments with
  | [] => rev stack
  | seg :: rest =>
      if String.eqb seg "" || String.eqb seg "." then normalize_segments stack rest
      else if String.eqb seg ".." then normalize_segments (tl stack) rest
      else normalize_segments (seg :: stack) rest
  end.

(** [path.resolve(...paths)] in a process whose working directory is [cwd]
    (an absolute path). *)
Definition resolve (cwd : string) (paths : list string) : string :=
  "/" +:+ Js.join "/" (normalize_segments [] (Js.split "/" (resolve_scan cwd (rev paths) ""))).

(** The segments of an absolute path. *)
Definition segments (p : string) : list string := normalize_segments [] (Js.split "/" p).

Fixpoint is_prefix (xs ys : list string) : bool :=
  match xs, ys with
  | [], _ => true
  | x :: xs', y :: ys' => String.eqb x y && is_prefix xs' ys'
  | _ :: _, [] => false
  end.

(** [p] is [root] or lies below it: the segments of [root] begin those of [p]. *)
Definition within (root p : string) : bool := is_prefix (segments root) (segments p).

(** A segment that [normalize_segments] pushes as it is, and one that in
    addition holds no separator. *)
Definition plain (seg : string) : bool :=
  negb (String.eqb seg "" || String.eqb seg "." || String.eqb seg "..").

Definition kept (seg : string) : Prop := plain seg = true /\ Js.split "/" seg = [seg].

End Path.

(** ** [server/tools.js] *)

Module Tools.

(** The file system is a finite map from absolute paths to file contents. *)

(** The context object passed to [runTool]; an absent or non-string
    [workspaceRoot] is the empty string. *)
Record Ctx := mkCtx { workspaceRoot : string; autoMode : bool }.

Section WithProcess.

(** [process.cwd()], the permission table [config.PERMISSIONS], [applyPatch]
    of the [diff] package ([None] is its [false]), and the tools this model
    does not open (search, shell, git, lint, browser, memory, MCP). *)
Variable cwd : string.
Variable PERMISSIONS : gmap string string.
Variable applyPatch : string -> string -> option string.
Variable other_tool : string -> list (string * json) -> Ctx -> gmap string string -> gmap string string * result json.

Definition getWorkspaceRoot (ctx : Ctx) : string :=
  if negb (String.eqb (workspaceRoot ctx) "") then Path.resolve cwd [workspaceRoot ctx]
  else cwd.

Definition resolvePath (filePath : string) (root : string) : result string :=
  let resolved := Path.resolve cwd [root; filePath] in
  let normalizedRoot := Path.resolve cwd [root] in
  if negb (Js.startsWith resolved normalizedRoot) then
    Throw ("Security Error: Path traversal detected. Access denied to " +:+ filePath)
  else Ok resolved.

Definition withPermission {A} (toolName : string) (actionFn : unit -> result A) (ctx : Ctx) : result A :=
  let policy := default "always" (PERMISSIONS !! toolName) in
  if String.eqb policy "never" then
    Throw ("Permission denied: tool " +:+ Js.quoted toolName +:+ " is disabled by policy.")
  else if autoMode ctx then actionFn tt
  else if String.eqb policy "ask" then
    Throw ("Permission required for " +:+ Js.quoted toolName
           +:+ " in normal mode. Enable agent mode or set permission to always.")
  else actionFn tt.

(** [args.k] for an argument the tool schema declares as a string. *)
Definition string_arg (k : string) (args : list (string * json)) : option string :=
  match Json.get k args with
  | Some (JStr v) => Some v
  | _ => None
  end.

(** [args.k] for an argument the tool schema declares as a number; an absent
    argument reads as 0, which the code cannot tell from absent. *)
Definition number_arg (k : string) (args : list (string * json)) : Z :=
  match Json.get k args with
  | Some (JNum n) => n
  | _ => 0
  end.

(** [path.resolve] throws on an argument that is not a string. *)
Definition path_arg (k : string) (args : list (string * json)) (root : string) : result string :=
  match string_arg k args with
  | Some p => resolvePath p root
  | None => Throw "The path argument must be of type string"
  end.

(** [fsp.readFile(p, 'utf8')]. *)
Definition readFile (fs : gmap string string) (p : string) : result string :=
  match fs !! p with
  | Some c => Ok c
  | None => Throw ("ENOENT: no such file or directory, open '" +:+ p +:+ "'")
  end.

(** [xs.slice(b, e)] on an array. *)
Definition array_slice {A} (xs : list A) (b e : Z) : list A :=
  let l := Z.of_nat (length xs) in
  let from := Js.slice_index l b in
  let to := Js.slice_index l e in
  firstn (Z.to_nat (to - from)) (skipn (Z.to_nat from) xs).

(** [slice.map((l, i) => `${start + i + 1}|${l}`).join('\n')]. *)
Definition numbered (start : Z) (slice : list string) : string :=
  Js.join Js.nl (imap (fun i l => Js.of_int (start + Z.of_nat i + 1) +:+ "|" +:+ l) slice).

Definition MAX_LINES_AUTO : Z := 200.

(** The body of the [read_file] tool once the path is resolved. *)
Definition read_file_body (args : list (string * json)) (fs : gmap string string) (targetPath : string) : json :=
  let file := default JNull (Json.get "path" args) in
  match readFile fs targetPath with
  | Throw msg =>
      JObj [("error", JStr ("Cannot read " +:+ default "undefined" (string_arg "path" args) +:+ ": " +:+ msg))]
  | Ok content =>
      let lines := Js.split "010" content in
      let totalLines := Z.of_nat (length lines) in
      let offset := number_arg "offset" args in
      let limit := number_arg "limit" args in
      if negb (offset =? 0) || negb (limit =? 0) then
        let start := Z.max 0 ((if offset =? 0 then 1 else offset) - 1) in
        let end_ := if negb (limit =? 0) then start + limit
                    else Z.min totalLines (start + MAX_LINES_AUTO) in
        let slice := array_slice lines start end_ in
        JObj [("file", file); ("content", JStr (numbered start slice)); ("totalLines", JNum totalLines);
              ("showing", JStr (Js.of_int (start + 1) +:+ "-" +:+ Js.of_int (start + Z.of_nat (length slice))))]
      else if MAX_LINES_AUTO <? totalLines then
        let slice := array_slice lines 0 MAX_LINES_AUTO in
        JObj [("file", file); ("content", JStr (numbered 0 slice)); ("totalLines", JNum totalLines);
              ("showing", JStr ("1-" +:+ Js.of_int MAX_LINES_AUTO));
              ("note", JStr ("File has " +:+ Js.of_int totalLines +:+ " lines. Showing first "
                             +:+ Js.of_int MAX_LINES_AUTO +:+ ". Use offset/limit args to read more."))]
      else
        JObj [("file", file); ("content", JStr (numbered 0 lines)); ("totalLines", JNum totalLines)]
  end.

(** [runTool(tool, args, ctx)] on a file system: the new file system and
    what the returned promise settles to. *)
Definition runTool (tool : string) (args : list (string * json)) (ctx : Ctx) (fs : gmap string string)
    : gmap string string * result json :=
  let WORKSPACE_ROOT := getWorkspaceRoot ctx in
  if String.eqb tool "apply_diff" then
    match path_arg "filePath" args WORKSPACE_ROOT with
    | Throw msg => (fs, Throw msg)
    | Ok abs =>
        let original := default "" (fs !! abs) in
        match applyPatch original (default "" (string_arg "diff" args)) with
        | None => (fs, Throw ("Failed to apply diff " +:+ ContextManager.em_dash +:+ " the patch does not match the current file content."))
        | Some patched =>
            (<[abs := patched]> fs,
             Ok (JObj [("ok", JBool true);
                       ("message", JStr ("Diff applied to " +:+ default "" (string_arg "filePath" args)))]))
        end
    end
  else if String.eqb tool "read_file" then
    match withPermission "read_file"
            (fun _ => match path_arg "path" args WORKSPACE_ROOT with
                      | Throw msg => Throw msg
                      | Ok targetPath => Ok (read_file_body args fs targetPath)
                      end) ctx with
    | Throw msg => (fs, Throw msg)
    | Ok r => (fs, Ok r)
    end
  else if String.eqb tool "write_file" then
    match withPermission "write_file"
            (fun _ => match path_arg "path" args WORKSPACE_ROOT with
                      | Throw msg => Throw msg
                      | Ok targetPath =>
                          Ok (<[targetPath := default "" (string_arg "content" args)]> fs,
                              JObj [("ok", JBool true);
                                    ("message", JStr ("Wrote " +:+ default "" (string_arg "path" args)))])
                      end) ctx with
    | Throw msg => (fs, Throw msg)
    | Ok (fs', r) => (fs', Ok r)
    end
  else if String.eqb tool "replace_in_file" then
    match withPermission "replace_in_file"
            (fun _ => match path_arg "path" args WORKSPACE_ROOT with
                      | Throw msg => Throw msg
                      | Ok targetPath =>
                          let p := default "" (string_arg "path" args) in
                          match readFile fs targetPath with
                          | Throw msg => Ok (fs, JObj [("error", JStr ("Error modifying " +:+ p +:+ ": " +:+ msg))])
                          | Ok content =>
                              let search := default "" (string_arg "search" args) in
                              let replace := default "" (string_arg "replace" args) in
                              if negb (Js.includes content search) then
                                Ok (fs, JObj [("ok", JBool false);
                                              ("error", JStr ("Search string not found in " +:+ p
                                                              +:+ ". Make sure the search text matches exactly."))])
                              else
                                Ok (<[targetPath := Js.replace_first content search replace]> fs,
                                    JObj [("ok", JBool true);
                                          ("message", JStr ("Replaced content in " +:+ p))])
                          end
                      end) ctx with
    | Throw msg => (fs, Throw msg)
    | Ok (fs', r) => (fs', Ok r)
    end
  else other_tool tool args ctx fs.

End WithProcess.

End Tools.

(** ** [server/agent.js] *)

Module Agent.

(** The pending diff of a session: [{ filePath, diff }]. *)
Record PendingDiff := mkPendingDiff { pd_filePath : string; pd_diff : string }.

(** The session object kept in [activeAgents]. *)
Record State := mkState {
  step : Z;
  model : option string;
  agentPlus : bool;
  sessionId : string;
  workspaceRoot : string;
  messages : list Message;
  pendingDiff : option PendingDiff;
  retryCount : Z;
  currentPlan : option string;
  completedTasks : Z;
  totalTasks : Z;
  consecutiveFinals : Z;
  compactCount : Z;
  consecutiveStepsWithoutAction : Z;
  stopRequested : bool;
  swarmDisabled : bool
}.

(** Field updates of the session object. *)
Definition set_step (v : Z) (st : State) : State :=
  mkState v (model st) (agentPlus st) (sessionId st) (workspaceRoot st) (messages st) (pendingDiff st) (retryCount st) (currentPlan st) (completedTasks st) (totalTasks st) (consecutiveFinals st) (compactCount st) (consecutiveStepsWithoutAction st) (stopRequested st) (swarmDisabled st).

Definition set_model (v : option string) (st : State) : State :=
  mkState (step st) v (agentPlus st) (sessionId st) (workspaceRoot st) (messages st) (pendingDiff st) (retryCount st) (currentPlan st) (completedTasks st) (totalTasks st) (consecutiveFinals st) (compactCount st) (consecutiveStepsWithoutAction st) (stopRequested st) (swarmDisabled st).

Definition set_messages (v : list Message) (st : State) : State :=
  mkState (step st) (model st) (agentPlus st) (sessionId st) (workspaceRoot st) v (pendingDiff st) (retryCount st) (currentPlan st) (completedTasks st) (totalTasks st) (consecutiveFinals st) (compactCount st) (consecutiveStepsWithoutAction st) (stopRequested st) (swarmDisabled st).

Definition set_pendingDiff (v : option PendingDiff) (st : State) : State :=
  mkState (step st) (model st) (agentPlus st) (sessionId st) (workspaceRoot st) (messages st) v (retryCount st) (currentPlan st) (completedTasks st) (totalTasks st) (consecutiveFinals st) (compactCount st) (consecutiveStepsWithoutAction st) (stopRequested st) (swarmDisabled st).

Definition set_retryCount (v : Z) (st : State) : State :=
  mkState (step st) (model st) (agentPlus st) (sessionId st) (workspaceRoot st) (messages st) (pendingDiff st) v (currentPlan st) (completedTasks st) (totalTasks st) (consecutiveFinals st) (compactCount st) (consecutiveStepsWithoutAction st) (stopRequested st) (swarmDisabled st).

Definition set_currentPlan (v : option string) (st : State) : State :=
  mkState (step st) (model st) (agentPlus st) (sessionId st) (workspaceRoot st) (messages st) (pendingDiff st) (retryCount st) v (completedTasks st) (totalTasks st) (consecutiveFinals st) (compactCount st) (consecutiveStepsWithoutAction st) (stopRequested st) (swarmDisabled st).

Definition set_completedTasks (v : Z) (st : State) : State :=
  mkState (step st) (model st) (agentPlus st) (sessionId st) (workspaceRoot st) (messages st) (pendingDiff st) (retryCount st) (currentPlan st) v (totalTasks st) (consecutiveFinals st) (compactCount st) (consecutiveStepsWithoutAction st) (stopRequested st) (swarmDisabled st).

Definition set_totalTasks (v : Z) (st : State) : State :=
  mkState (step st) (model st) (agentPlus st) (sessionId st) (workspaceRoot st) (messages st) (pendingDiff st) (retryCount st) (currentPlan st) (completedTasks st) v (consecutiveFinals st) (compactCount st) (consecutiveStepsWithoutAction st) (stopRequested st) (swarmDisabled st).

Definition set_consecutiveFinals (v : Z) (st : State) : State :=
  mkState (step st) (model st) (agentPlus st) (sessionId st) (workspaceRoot st) (messages st) (pendingDiff st) (retryCount st) (currentPlan st) (completedTasks st) (totalTasks st) v (compactCount st) (consecutiveStepsWithoutAction st) (stopRequested st) (swarmDisabled st).

Definition set_compactCount (v : Z) (st : State) : State :=
  mkState (step st) (model st) (agentPlus st) (sessionId st) (workspaceRoot st) (messages st) (pendingDiff st) (retryCount st) (currentPlan st) (completedTasks st) (totalTasks st) (consecutiveFinals st) v (consecutiveStepsWithoutAction st) (stopRequested st) (swarmDisabled st).

Definition set_consecutiveStepsWithoutAction (v : Z) (st : State) : State :=
  mkState (step st) (model st) (agentPlus st) (sessionId st) (workspaceRoot st) (messages st) (pendingDiff st) (retryCount st) (currentPlan st) (completedTasks st) (totalTasks st) (consecutiveFinals st) (compactCount st) v (stopRequested st) (swarmDisabled st).

Definition set_stopRequested (v : bool) (st : State) : State :=
  mkState (step st) (model st) (agentPlus st) (sessionId st) (workspaceRoot st) (messages st) (pendingDiff st) (retryCount st) (currentPlan st) (completedTasks st) (totalTasks st) (consecutiveFinals st) (compactCount st) (consecutiveStepsWithoutAction st) v (swarmDisabled st).

Definition set_swarmDisabled (v : bool) (st : State) : State :=
  mkState (step st) (model st) (agentPlus st) (sessionId st) (workspaceRoot st) (messages st) (pendingDiff st) (retryCount st) (currentPlan st) (completedTasks st) (totalTasks st) (consecutiveFinals st) (compactCount st) (consecutiveStepsWithoutAction st) (stopRequested st) v.


(** A delegated subtask: [{ task, model }]. *)
Record SwarmTask := mkSwarmTask { task : string; task_model : option string }.

(** The directive parsed from one reply of the model.  [delegate] carries
    the [tasks] array (empty when the field is not a non-empty array);
    [unknown] is any other value of [type]. *)
Inductive Directive :=
| thought (content : string)
| action (tool : string) (args : list (string * json))
| diff_request (filePath diff : string)
| delegate (tasks : list SwarmTask)
| final (content : string)
| unknown (type : string).

(** The objects handed to [send], by their [type]. *)
Inductive Event :=
| SentThought (content : string)
| SentAction (tool : string) (args : list (string * json))
| SentObservation (content : json)
| SentFinal (content : string)
| SentDiffRequest (filePath diff sessionId : string)
| SentDelegate (tasks : list SwarmTask)
| SentUnknown (type : string).

(** Writes of the engine to its own storage under [.isocode/]: a
    checkpoint, a conversation record ([saveConversation] of [store.js]), a
    session summary ([saveSessionSummary]); and a swarm run. *)
Inductive Effect :=
| SavedCheckpoint (sessionId : string) (step : Z)
| SavedConversation (name : string)
| SavedSummary (sessionId : string)
| RanSwarm (sessionId : string) (tasks : list SwarmTask).

(** What one call of [callLLM] in the loop led to, after the reply went
    through [extractAgentJson], [parseWrappedAction] and
    [salvageNonJsonResponse]. *)
Inductive LlmOutcome :=
| LlmFailed (details : string)
| LlmToolCalls (calls : list (string * list (string * json)))
| LlmDirective (d : Directive)
| LlmPlainText (text : string)
| LlmNothing.

(** Requests the server handles while a run awaits the model. *)
Inductive Request :=
| StopAgent (sessionId : string)
| ClearSession (sessionId : string).

(** What the environment contributes to one iteration of the loop: the
    outcome of the summary call (used when the step compacts), the outcome
    of the summary call of the auto-save (used when the step ends the run),
    the outcome of the model call, the requests handled meanwhile, and the
    outcome of a swarm ([Throw reason] when [runSwarmWorkers] throws). *)
Record Turn := mkTurn {
  summary_reply : option ContextManager.LlmReply;
  autosave_reply : option ContextManager.LlmReply;
  llm : LlmOutcome;
  requests : list Request;
  swarm : result string
}.

(** The process: session objects by identity, the registry [activeAgents]
    from session ids to those objects, the workspace files (the engine's own
    storage under [.isocode/] apart), the events sent, and the engine's
    writes to that storage: a checkpoint or a saved conversation is a file
    written under [.isocode/], and appears in [effects], not in [fs]. *)
Record World := mkWorld {
  objects : gmap nat State;
  activeAgents : gmap string nat;
  fs : gmap string string;
  sent : list Event;
  effects : list Effect
}.

Definition set_objects (v : gmap nat State) (w : World) : World :=
  mkWorld v (activeAgents w) (fs w) (sent w) (effects w).
Definition set_activeAgents (v : gmap string nat) (w : World) : World :=
  mkWorld (objects w) v (fs w) (sent w) (effects w).
Definition set_fs (v : gmap string string) (w : World) : World :=
  mkWorld (objects w) (activeAgents w) v (sent w) (effects w).
Definition send (e : Event) (w : World) : World :=
  mkWorld (objects w) (activeAgents w) (fs w) (sent w ++ [e]) (effects w).
Definition record (e : Effect) (w : World) : World :=
  mkWorld (objects w) (activeAgents w) (fs w) (sent w) (effects w ++ [e]).

(** Update of the session object at address [a]. *)
Definition update (a : nat) (f : State -> State) (w : World) : World :=
  set_objects (alter f a (objects w)) w.

(** [state.messages.push(m)]. *)
Definition push (m : Message) (st : State) : State := set_messages (messages st ++ [m]) st.

(** [server/index.js], [POST /stop-agent]: whether a session was found. *)
Definition stop_agent (sessionId : string) (w : World) : World * bool :=
  match activeAgents w !! sessionId with
  | Some a => (update a (set_stopRequested true) w, true)
  | None => (w, false)
  end.

(** [server/index.js], [POST /clear-session]. *)
Definition clear_session (sessionId : string) (w : World) : World :=
  set_activeAgents (delete sessionId (activeAgents w)) w.

Definition handle (r : Request) (w : World) : World :=
  match r with
  | StopAgent sid => fst (stop_agent sid w)
  | ClearSession sid => clear_session sid w
  end.

Definition NO_PROGRESS_LIMIT : Z := 10.

Definition swarm_task_json (t : SwarmTask) : json :=
  JObj (("task", JStr (task t)) ::
        match task_model t with Some m => [("model", JStr m)] | None => [] end).

(** The directive as the object that is sent and serialised, for a reply in
    normal form: the keys below in this order and no others, and the tasks
    of a [delegate] given as objects.  The engine serialises the parsed reply
    itself, so for a reply in another form the text of the recorded
    assistant message differs from the one given here. *)
Definition directive_json (d : Directive) : json :=
  match d with
  | thought c => JObj [("type", JStr "thought"); ("content", JStr c)]
  | action t args => JObj [("type", JStr "action"); ("tool", JStr t); ("args", JObj args)]
  | diff_request f d => JObj [("type", JStr "diff_request"); ("filePath", JStr f); ("diff", JStr d)]
  | delegate ts => JObj [("type", JStr "delegate"); ("tasks", JArr (map swarm_task_json ts))]
  | final c => JObj [("type", JStr "final"); ("content", JStr c)]
  | unknown t => JObj [("type", JStr t)]
  end.

(** [send(parsed)], and [send({ ...parsed, sessionId })] for a diff request. *)
Definition event_of (sid : string) (d : Directive) : Event :=
  match d with
  | thought c => SentThought c
  | action t args => SentAction t args
  | diff_request f d => SentDiffRequest f d sid
  | delegate ts => SentDelegate ts
  | final c => SentFinal c
  | unknown t => SentUnknown t
  end.

(** *** Plan tracking *)

Definition is_digit (c : ascii) : bool :=
  let n := N_of_ascii c in ((48 <=? n)%N && (n <=? 57)%N).

Fixpoint skip_digits (s : string) : string :=
  match s with
  | String c s' => if is_digit c then skip_digits s' else s
  | "" => ""
  end.

(** [/^\d+\.\s/] at the start of [s]. *)
Definition numbered_here (s : string) : bool :=
  match s with
  | String c _ =>
      is_digit c &&
      match skip_digits s with
      | String "." (String b _) => Ascii.is_space b
      | _ => false
      end
  | "" => false
  end.

Definition is_line_terminator (c : ascii) : bool :=
  let n := N_of_ascii c in ((n =? 10)%N || (n =? 13)%N).

(** [(content.match(/^\d+\.\s/gm) || []).length]: the lines that start
    with a number, a dot and a blank. *)
Fixpoint count_numbered (at_line_start : bool) (s : string) : Z :=
  match s with
  | "" => 0
  | String c s' =>
      (if at_line_start && numbered_here s then 1 else 0) + count_numbered (is_line_terminator c) s'
  end.

Definition track_plan (content : string) (st : State) : State :=
  let st1 :=
    if Js.includes content "PLAN:" || Js.includes content ("PLAN" +:+ Js.nl) || numbered_here content then
      let st' := set_currentPlan (Some (Js.slice content 0 500)) st in
      let taskCount := count_numbered true content in
      if 0 <? taskCount then set_totalTasks taskCount st' else st'
    else st in
  if Js.includes content "PROGRESS:" || Js.includes content "Completed task" then
    set_completedTasks (completedTasks st1 + 1) st1
  else st1.

(** *** The loop of [runAgent] *)

Inductive Flow := Continue | Return.

Inductive ToolFlow := ToolStop | ToolContinue.

Inductive Status := Finished | AwaitingModel.

Section Engine.

(** [CONTEXT_BUDGET] and [SWARM_MAX_WORKERS] of the configuration;
    [runTool] of [server/tools.js]; and [executeToolAction], which runs one
    action for the session at an address: it may push messages, send events,
    touch the files and record a pending diff, and answers 'stop' or
    'continue'. *)
Variable CONTEXT_BUDGET : Z.
Variable SWARM_MAX_WORKERS : Z.
Variable runTool :
  string -> list (string * json) -> Tools.Ctx -> gmap string string -> gmap string string * result json.
Variable executeToolAction : string -> list (string * json) -> nat -> World -> World * ToolFlow.

(** [saveContextCheckpoint(state, resolvedModel)]: nothing without a
    workspace root; otherwise the checkpoint file
    [<workspaceRoot>/.isocode/checkpoints/<sessionId>.md] is written.  That
    write is recorded as the effect [SavedCheckpoint]: [fs] holds the
    workspace files apart from the engine's own storage under [.isocode/],
    and does not show it. *)
Definition saveContextCheckpoint (st : State) (w : World) : World :=
  if String.eqb (workspaceRoot st) "" then w
  else record (SavedCheckpoint (sessionId st) (step st)) w.

(** [autoSaveWithSummary(sessionId, messages, resolvedModel, state.model)]:
    the conversation is saved; beyond six messages it is compacted ([llm] is
    the outcome of that summary call), the compacted copy is saved, and the
    first message that mentions "summary" is persisted as the session
    summary. *)
Definition autoSaveWithSummary (llm : option ContextManager.LlmReply) (st : State) (w : World)
    : World :=
  let w1 := record (SavedConversation (sessionId st)) w in
  if 6 <? Z.of_nat (length (messages st)) then
    let r := ContextManager.compactConversation (messages st) llm in
    if ContextManager.compacted r then
      let w2 := record (SavedConversation (sessionId st +:+ "_compact")) w1 in
      match find (fun m => Js.includes (content m) "summary") (ContextManager.messages r) with
      | Some _ => record (SavedSummary (sessionId st)) w2
      | None => w2
      end
    else w1
  else w1.

(** [state = ...] becomes visible through every reference to the object. *)
Definition store (a : nat) (st : State) (w : World) : World :=
  set_objects (<[a := st]> (objects w)) w.

(** [applyResult?.error] after [runTool('apply_diff', ...)] under
    [try]/[catch]: the error text, if any. *)
Definition apply_pending (f d : string) (st : State) (w : World) : World * option string :=
  let '(fs', r) :=
    runTool "apply_diff" [("filePath", JStr f); ("diff", JStr d)]
            (Tools.mkCtx (workspaceRoot st) true) (fs w) in
  match r with
  | Throw msg => (set_fs fs' w, Some ("Error: " +:+ msg))
  | Ok (JObj fields) =>
      (set_fs fs' w,
       match Json.get "error" fields with
       | Some j => if Json.truthy j then Some (Json.to_string j) else None
       | None => None
       end)
  | Ok _ => (set_fs fs' w, None)
  end.

Definition observation_message (text : string) : Message :=
  mkMessage Assistant (Json.stringify (JObj [("type", JStr "observation"); ("content", JStr text)])).

Definition ACT_NOW : string :=
  "You have been thinking without acting. Remember: a thought must always be followed by an action. Your next response MUST be {"
  +:+ Js.quoted "type" +:+ ":" +:+ Js.quoted "action" +:+ "," +:+ Js.quoted "tool" +:+ ":"
  +:+ Js.quoted "<tool_name>" +:+ "," +:+ Js.quoted "args" +:+ ":{...}}. Take action now.".

Definition USE_JSON : string :=
  "You must respond with valid JSON. Use {" +:+ Js.quoted "type" +:+ ":" +:+ Js.quoted "action" +:+ ","
  +:+ Js.quoted "tool" +:+ ":" +:+ Js.quoted "tool_name" +:+ "," +:+ Js.quoted "args"
  +:+ ":{}} to take action, or {" +:+ Js.quoted "type" +:+ ":" +:+ Js.quoted "thought" +:+ ","
  +:+ Js.quoted "content" +:+ ":" +:+ Js.quoted "..." +:+ "} to reason. Do NOT output plain text.".

Definition DELEGATION_DISABLED : string :=
  "Delegation is disabled (swarm failed earlier, e.g. memory/hardware). Complete the remaining tasks yourself in single-agent mode. Do NOT emit delegate again; use actions and thoughts only.".

(** Auto-compaction at the head of a step. *)
Definition auto_compact (t : Turn) (st : State) (w : World) : State * World :=
  if (compactCount st <? 3) && ContextManager.shouldAutoCompact (messages st) CONTEXT_BUDGET then
    let r := ContextManager.compactConversation (messages st) (summary_reply t) in
    if ContextManager.compacted r then
      let st' := set_compactCount (compactCount st + 1) (set_messages (ContextManager.messages r) st) in
      (st', saveContextCheckpoint st' w)
    else (st, w)
  else (st, w).

Definition periodic_checkpoint (st : State) (w : World) : World :=
  if (0 <? step st) && (step st mod 8 =? 0) then saveContextCheckpoint st w else w.

(** The native tool calls of one reply, in order. *)
Fixpoint run_tool_calls (calls : list (string * list (string * json))) (a : nat) (w : World)
    : World * Flow :=
  match calls with
  | [] => (w, Continue)
  | (name, args) :: rest =>
      let w1 := send (SentAction name args) w in
      let w2 := update a (push (mkMessage Assistant (Json.stringify (directive_json (action name args))))) w1 in
      match executeToolAction name args a w2 with
      | (w3, ToolStop) => (w3, Return)
      | (w3, ToolContinue) => run_tool_calls rest a w3
      end
  end.

Definition swarm_summary (combined : string) : string :=
  Js.slice combined 0 500 +:+ (if 500 <? Js.len combined then "..." else "").

(** The [delegate] branch of an Agent+ session. *)
Definition delegate_to_swarm (t : Turn) (tasks : list SwarmTask) (serialised : Message)
    (a : nat) (st : State) (w : World) : World * Flow :=
  let st1 := push serialised st in
  if swarmDisabled st1 then
    let st2 := push (mkMessage User DELEGATION_DISABLED) st1 in
    (send (SentThought "Continuing in single-agent mode (delegation disabled).")
          (store a (set_consecutiveStepsWithoutAction 0 st2) w), Continue)
  else
    let maxWorkers := Z.max 1 (Z.min 5 (if SWARM_MAX_WORKERS =? 0 then 2 else SWARM_MAX_WORKERS)) in
    let w1 := send (SentThought ("Swarm: delegating " +:+ Js.of_int (Z.of_nat (length tasks))
                                 +:+ " subtask(s) (max " +:+ Js.of_int maxWorkers +:+ " in parallel).")) w in
    let w2 := record (RanSwarm (sessionId st1) tasks) w1 in
    match swarm t with
    | Ok combined =>
        let st2 := push (mkMessage Tool (Json.stringify
                           (JObj [("type", JStr "observation");
                                  ("content", JStr ("Swarm results:" +:+ Js.nl +:+ Js.nl +:+ combined))]))) st1 in
        (send (SentObservation (JObj [("swarm", JBool true);
                                      ("results", JNum (Z.of_nat (length tasks)));
                                      ("summary", JStr (swarm_summary combined))]))
              (store a (set_consecutiveStepsWithoutAction 0 st2) w2), Continue)
    | Throw reason =>
        let fallbackMsg := "Swarm failed (" +:+ reason +:+ "). Switching to single-agent mode for the rest of this run. Continue with your plan using actions and thoughts; do NOT use delegate again." in
        let st2 := push (mkMessage Tool (Json.stringify
                           (JObj [("type", JStr "observation"); ("content", JStr fallbackMsg)])))
                        (set_swarmDisabled true st1) in
        (send (SentThought "Swarm failed; continuing in single-agent mode.")
           (send (SentObservation (JObj [("swarm", JBool false); ("error", JStr reason);
                                         ("fallback", JBool true)]))
              (store a (set_consecutiveStepsWithoutAction 0 st2) w2)), Continue)
    end.

(** The nudge pushed, and the thought sent, when the model says it is done
    while planned tasks remain. *)
Definition TASKS_REMAIN (completed total : Z) : string :=
  "You said you're done, but you've only completed " +:+ Js.of_int completed +:+ "/"
  +:+ Js.of_int total
  +:+ " planned tasks. Please continue with the remaining tasks. Do NOT emit final until ALL tasks are complete.".

Definition CONTINUING (completed total : Z) : string :=
  "Continuing... (" +:+ Js.of_int completed +:+ "/" +:+ Js.of_int total +:+ " tasks done)".

(** The handling of a parsed [final]. *)
Definition handle_final (t : Turn) (a : nat) (st1 : State) (w1 : World) : World * Flow :=
  let st2 := set_consecutiveFinals (consecutiveFinals st1 + 1) st1 in
  if (0 <? totalTasks st2) && (completedTasks st2 <? totalTasks st2) && (consecutiveFinals st2 <=? 2) then
    let st3 := push (mkMessage User (TASKS_REMAIN (completedTasks st2) (totalTasks st2))) st2 in
    (send (SentThought (CONTINUING (completedTasks st2) (totalTasks st2))) (store a st3 w1), Continue)
  else
    let w2 := autoSaveWithSummary (autosave_reply t) st2
                (saveContextCheckpoint st2 (store a st2 w1)) in
    (set_activeAgents (delete (sessionId st2) (activeAgents w2)) w2, Return).

(** The handling of a parsed [diff_request]. *)
Definition handle_diff_request (f df : string) (a : nat) (st1 : State) (w1 : World) : World * Flow :=
  let st2 := set_pendingDiff (Some (mkPendingDiff f df)) (set_consecutiveStepsWithoutAction 0 st1) in
  if agentPlus st2 then
    let '(w2, err) := apply_pending f df st2 w1 in
    let st3 := push (observation_message
                       match err with
                       | Some e => "Auto-applied diff failed: " +:+ e +:+ ". Try a different approach."
                       | None => "Diff auto-applied successfully (Agent+ mode). Continue with the next task."
                       end)
                    (set_pendingDiff None st2) in
    (send (SentObservation (JObj [("autoApplied", JBool true);
                                  ("success", JBool match err with Some _ => false | None => true end)]))
          (store a st3 w2), Continue)
  else (store a st2 w1, Return).

(** The end of a step that made neither a tool call nor a diff. *)
Definition thought_only (a : nat) (st1 : State) (w1 : World) : World * Flow :=
  let st2 := set_consecutiveStepsWithoutAction (consecutiveStepsWithoutAction st1 + 1)
               (set_consecutiveFinals 0 st1) in
  let st3 := if 2 <=? consecutiveStepsWithoutAction st2 then push (mkMessage User ACT_NOW) st2 else st2 in
  (store a st3 w1, Continue).

(** The step once a directive has been parsed. *)
Definition dispatch (t : Turn) (d : Directive) (a : nat) (st0 : State) (w : World) : World * Flow :=
  let st := match d with thought c => track_plan c st0 | _ => st0 end in
  let serialised := mkMessage Assistant (Json.stringify (directive_json d)) in
  match d, agentPlus st with
  | delegate (_ :: _ as tasks), true => delegate_to_swarm t tasks serialised a st w
  | _, _ =>
      let w1 := send (event_of (sessionId st) d) w in
      let st1 := push serialised st in
      match d with
      | final _ => handle_final t a st1 w1
      | diff_request f df => handle_diff_request f df a st1 w1
      | action name args =>
          let st2 := set_consecutiveStepsWithoutAction 0 (set_consecutiveFinals 0 st1) in
          match executeToolAction name args a (store a st2 w1) with
          | (w2, ToolStop) => (w2, Return)
          | (w2, ToolContinue) => (w2, Continue)
          end
      | _ => thought_only a st1 w1
      end
  end.

(** The failure branch of the model call. *)
Definition llm_failed (details : string) (resolvedModel : option string) (a : nat) (st : State)
    (w : World) : World * Flow :=
  if (retryCount st <? 2) && negb (Js.includes details "not found")
     && negb (Js.includes details "does not exist") then
    let st1 := set_retryCount (retryCount st + 1) st in
    (send (SentThought ("Retrying (attempt " +:+ Js.of_int (retryCount st1 + 1) +:+ ")..."))
          (store a st1 w), Continue)
  else
    let hint :=
      if Js.includes details "not found" then
        Js.nl +:+ Js.nl +:+ "Model " +:+ Js.quoted (default "default" resolvedModel)
        +:+ " not available. Pull it: ollama pull " +:+ default "<model>" resolvedModel
      else "" in
    (send (SentFinal ("LLM call failed: " +:+ details +:+ hint)) (saveContextCheckpoint st w), Return).

(** One iteration of the loop, after the checks at its head: compaction,
    the periodic checkpoint, the model call (during which the server may
    handle other requests), and the dispatch of the reply. *)
Definition iteration (t : Turn) (resolvedModel : option string) (a : nat) (st0 : State) (w0 : World)
    : World * Flow :=
  let '(st1, w1) := auto_compact t st0 w0 in
  let w2 := periodic_checkpoint st1 w1 in
  let w3 := fold_left (fun w r => handle r w) (requests t) (store a st1 w2) in
  let st := default st1 (objects w3 !! a) in
  match llm t with
  | LlmFailed details => llm_failed details resolvedModel a st w3
  | LlmToolCalls calls =>
      run_tool_calls calls a
        (store a (set_consecutiveStepsWithoutAction 0 (set_retryCount 0 st)) w3)
  | LlmDirective d => dispatch t d a (set_retryCount 0 st) w3
  | LlmPlainText text =>
      (store a (push (mkMessage User USE_JSON)
                  (push (mkMessage Assistant text) (set_retryCount 0 st))) w3, Continue)
  | LlmNothing =>
      (send (SentFinal "No response from model.") (store a (set_retryCount 0 st) w3), Return)
  end.

(** The [for] loop of [runAgent] for the session object at address [a].
    Each iteration consumes one turn of the environment; the loop reports
    [AwaitingModel] when the turns run out before the run ends.  [closing]
    is the outcome of the summary call of the auto-save made when the step
    cap is reached. *)
Fixpoint run_loop (closing : option ContextManager.LlmReply) (turns : list Turn)
    (resolvedModel : option string) (maxSteps : Z) (a : nat) (w : World) : World * Status :=
  match objects w !! a with
  | None => (w, Finished)
  | Some st =>
      if step st <? maxSteps then
        if stopRequested st then
          (store a (set_stopRequested false st)
             (send (SentFinal "Agent stopped by user.") (saveContextCheckpoint st w)), Finished)
        else if NO_PROGRESS_LIMIT <=? consecutiveStepsWithoutAction st then
          (send (SentFinal "Stopped: no further actions after several steps. Send a follow-up to continue.")
                (saveContextCheckpoint st w), Finished)
        else
          match turns with
          | [] => (w, AwaitingModel)
          | t :: later =>
              match iteration t resolvedModel a st w with
              | (w', Return) => (w', Finished)
              | (w', Continue) =>
                  run_loop closing later resolvedModel maxSteps a
                    (update a (fun s => set_step (step s + 1) s) w')
              end
          end
      else
        (send (SentFinal "Stopped after many steps to avoid long runs. Send a follow-up to continue.")
              (autoSaveWithSummary closing st (saveContextCheckpoint st w)), Finished)
  end.

(** [x || y] on optional strings: the empty string is falsy. *)
Definition or_else (x y : option string) : option string :=
  match x with
  | Some v => if String.eqb v "" then y else x
  | None => y
  end.

(** The arguments of [runAgent]; [send] is the sink of the world. *)
Record RunArgs := mkRunArgs {
  arg_sessionId : string;
  arg_message : string;
  arg_decision : option string;
  arg_model : option string;
  arg_agentPlus : bool;
  arg_workspaceRoot : string;
  arg_maxSteps : Z
}.

(** What session creation gathers from the workspace: the rendered system
    prompt with the project context appended, and the auto-gathered context
    appended to the first user message. *)
Record Startup := mkStartup { systemContent : string; autoCtx : string }.

(** The pending diff is applied or dropped, and the outcome is pushed. *)
Definition resume_with_decision (decision : string) (pd : PendingDiff) (a : nat) (st : State)
    (w : World) : World :=
  if String.eqb decision "approve" then
    let '(w1, err) := apply_pending (pd_filePath pd) (pd_diff pd) st w in
    store a (set_pendingDiff None
               (push (observation_message
                        match err with
                        | Some e => "Failed to apply diff: " +:+ e +:+ ". Try a different approach."
                        | None => "User APPROVED. Diff applied successfully. Continue with the next task in your plan."
                        end) st)) w1
  else
    store a (set_pendingDiff None
               (push (observation_message "User REJECTED the diff. Try a different approach or ask for clarification. Continue with the next task.") st)) w.

(** [runAgent({ sessionId, message, decision, model, agentPlus,
    workspaceRoot, send, maxSteps })] in a process whose working directory is
    [cwd]. *)
Definition runAgent (cwd : string) (args : RunArgs) (startup : Startup)
    (closing : option ContextManager.LlmReply) (turns : list Turn) (w : World) : World * Status :=
  let sid := arg_sessionId args in
  let found :=
    match activeAgents w !! sid with
    | Some a => match objects w !! a with Some st => Some (a, st) | None => None end
    | None => None
    end in
  let decided := or_else (arg_decision args) None in
  match found, arg_decision args, decided with
  | None, Some _, _ =>
      (send (SentFinal "No active agent session to resume. Start a new request.") w, Finished)
  | Some (a, st), _, Some dec =>
      match pendingDiff st with
      | None =>
          (send (SentFinal "No pending diff to approve or reject. Send a new message to continue.") w,
           Finished)
      | Some pd =>
          let w1 := resume_with_decision dec pd a st w in
          let w2 := update a (fun s =>
                      let s1 := match or_else (arg_model args) None with
                                | Some m => set_model (Some m) s
                                | None => s
                                end in
                      if String.eqb (arg_message args) "" then s1
                      else push (mkMessage User (arg_message args)) s1) w1 in
          let w3 := update a (fun s => set_consecutiveStepsWithoutAction 0
                                         (set_consecutiveFinals 0 (set_step 0 s))) w2 in
          run_loop closing turns (or_else (arg_model args) (or_else (model st) None))
            (arg_maxSteps args) a w3
      end
  | Some (a, st), _, None =>
      let w2 := update a (fun s =>
                  let s1 := match or_else (arg_model args) None with
                            | Some m => set_model (Some m) s
                            | None => s
                            end in
                  if String.eqb (arg_message args) "" then s1
                  else push (mkMessage User (arg_message args)) s1) w in
      let w3 := update a (fun s => set_consecutiveStepsWithoutAction 0
                                     (set_consecutiveFinals 0 (set_step 0 s))) w2 in
      run_loop closing turns (or_else (arg_model args) (or_else (model st) None))
        (arg_maxSteps args) a w3
  | None, None, _ =>
      let wsRoot := if String.eqb (arg_workspaceRoot args) "" then cwd else arg_workspaceRoot args in
      let userContent := arg_message args +:+ autoCtx startup in
      let st :=
        mkState 0 (or_else (arg_model args) None) (arg_agentPlus args) sid wsRoot
                [mkMessage System (systemContent startup); mkMessage User userContent]
                None 0 None 0 0 0 0 0 false false in
      let a := fresh (dom (objects w)) in
      let w1 := set_activeAgents (<[sid := a]> (activeAgents w)) (store a st w) in
      run_loop closing turns (or_else (arg_model args) None) (arg_maxSteps args) a w1
  end.

End Engine.

(** [resolvePathInWorkspace(workspaceRoot, filePath)] in a process whose
    working directory is [cwd]; an absent [workspaceRoot] is the empty
    string. *)
Definition resolvePathInWorkspace (cwd : string) (workspaceRoot filePath : string) : result string :=
  let root := Path.resolve cwd [if String.eqb workspaceRoot "" then cwd else workspaceRoot] in
  let resolved := Path.resolve cwd [root; Js.strip_leading_slashes filePath] in
  let normalizedRoot := root +:+ Path.sep in
  if negb (String.eqb resolved root) && negb (Js.startsWith resolved normalizedRoot) then
    Throw ("Security: path outside workspace denied for: " +:+ filePath)
  else Ok resolved.

End Agent.

(** ** A concrete process

    The configuration the server starts with ([server/config.js]), and a
    process to run the scenarios of the properties below on. *)

Module Scenario.

(** [config.PERMISSIONS] by default. *)
Definition PERMISSIONS : gmap string string :=
  {[ "run_shell" := "ask"; "write_file" := "ask"; "replace_in_file" := "ask" ]}.

(** No patch applies, and the tools outside the model answer [null]. *)
Definition applyPatch (original diff : string) : option string := None.

Definition other_tool (tool : string) (args : list (string * json)) (ctx : Tools.Ctx)
    (fs : gmap string string) : gmap string string * result json := (fs, Ok JNull).

(** The server runs in [/srv]. *)
Definition cwd : string := "/srv".

Definition runTool := Tools.runTool cwd PERMISSIONS applyPatch other_tool.

(** A tool runner for the engine: the action runs through [runTool] in auto
    mode, the observation is pushed and sent, and the run goes on. *)
Definition executeToolAction (tool : string) (args : list (string * json)) (a : nat)
    (w : Agent.World) : Agent.World * Agent.ToolFlow :=
  match Agent.objects w !! a with
  | None => (w, Agent.ToolContinue)
  | Some st =>
      let '(fs', r) := runTool tool args (Tools.mkCtx (Agent.workspaceRoot st) true) (Agent.fs w) in
      let observation :=
        match r with
        | Ok j => j
        | Throw msg => JObj [("error", JStr ("Error: " +:+ msg))]
        end in
      (Agent.send (Agent.SentObservation observation)
         (Agent.update a
            (Agent.push (mkMessage Tool (Json.stringify (ContextManager.truncateToolResult observation))))
            (Agent.set_fs fs' w)),
       Agent.ToolContinue)
  end.

Definition CONTEXT_BUDGET : Z := 16384.
Definition SWARM_MAX_WORKERS : Z := 2.

Definition run_loop :=
  Agent.run_loop CONTEXT_BUDGET SWARM_MAX_WORKERS runTool executeToolAction None.
Definition dispatch := Agent.dispatch SWARM_MAX_WORKERS runTool executeToolAction.

(** An agent-mode session for workspace [/home/ws], as [runAgent] creates
    it, registered under the id [s1]. *)
Definition session : Agent.State :=
  Agent.mkState 0 None false "s1" "/home/ws"
    [mkMessage System "You are IsoCode."; mkMessage User "Rename foo to bar in src/a.ts"]
    None 0 None 0 0 0 0 0 false false.

Definition world : Agent.World :=
  Agent.mkWorld {[ 0%nat := session ]} {[ "s1" := 0%nat ]}
    {[ "/home/ws/src/a.ts" := "function foo() {}" ]} [] [].

(** The world once [POST /stop-agent] has been handled for [s1]. *)
Definition stopped_world : Agent.World := fst (Agent.stop_agent "s1" world).

(** The same session with a plan of three tasks, one of them done. *)
Definition planned_session : Agent.State :=
  Agent.set_completedTasks 1 (Agent.set_totalTasks 3 session).

(** A turn in which the model asks to read a file, and the stop request for
    [s1] is handled while the model call is awaited. *)
Definition read_turn_with_stop : Agent.Turn :=
  Agent.mkTurn None None (Agent.LlmDirective (Agent.action "read_file" [("path", JStr "src/a.ts")]))
    [Agent.StopAgent "s1"] (Ok "").

(** A turn in which the model answers with directive [d]. *)
Definition turn (d : Agent.Directive) : Agent.Turn :=
  Agent.mkTurn None None (Agent.LlmDirective d) [] (Ok "").

(** A conversation of a system message and seven more messages. *)
Definition conversation : list Message :=
  [mkMessage System "You are IsoCode.";
   mkMessage User "Rename foo to bar in src/a.ts";
   mkMessage Assistant "thought 1";
   mkMessage Assistant "action 1";
   mkMessage Tool "observation 1";
   mkMessage Assistant "thought 2";
   mkMessage Assistant "action 2";
   mkMessage Tool "observation 2"].

(** [n] user messages with empty content. *)
Definition empty_messages (n : nat) : list Message := repeat (mkMessage User "") n.


(** A string of [n] letters. *)
Fixpoint letters (n : nat) : string :=
  match n with
  | O => ""
  | S n' => String "a" (letters n')
  end.

End Scenario.

(** ** [server/agent.js]: maintenance of a session between runs *)

Module Sessions.

(** What [compactSession] and [switchModel] return: [{ ok: false, error:
    'No active session' }], or an object with [ok: true] and the fields
    below; [from] is [None] when the session had no model. *)
Inductive Answer :=
| NoActiveSession
| NothingToCompact (before after : Z)
| Compacted (before after : Z) (removedCount : option Z)
| Switched (from : option string) (to : string) (messages : Z).

(** [activeAgents.get(sessionId)]: the session object registered under an
    id, with its address. *)
Definition lookup (sessionId : string) (w : Agent.World) : option (nat * Agent.State) :=
  match Agent.activeAgents w !! sessionId with
  | Some a => match Agent.objects w !! a with Some st => Some (a, st) | None => None end
  | None => None
  end.

(** [compactSession(sessionId, model)]; [llm] is the outcome of the summary
    call made by [compactConversation]. *)
Definition compactSession (llm : option ContextManager.LlmReply) (sessionId : string)
    (w : Agent.World) : Agent.World * Answer :=
  match lookup sessionId w with
  | None => (w, NoActiveSession)
  | Some (a, st) =>
      let before := Z.of_nat (length (Agent.messages st)) in
      let r := ContextManager.compactConversation (Agent.messages st) llm in
      if ContextManager.compacted r then
        let st' := Agent.set_messages (ContextManager.messages r) st in
        let w1 := Agent.record (Agent.SavedConversation sessionId) (Agent.store a st' w) in
        (Agent.saveContextCheckpoint st' w1,
         Compacted before (Z.of_nat (length (Agent.messages st')))
                   (ContextManager.removedCount r))
      else (w, NothingToCompact before before)
  end.

(** [switchModel(sessionId, newModel, send)]. *)
Definition switchModel (llm : option ContextManager.LlmReply) (sessionId newModel : string)
    (w : Agent.World) : Agent.World * Answer :=
  match lookup sessionId w with
  | None => (w, NoActiveSession)
  | Some (a, st) =>
      let oldModel := Agent.model st in
      let st1 := Agent.set_model (Some newModel) st in
      let '(st2, w2) :=
        if 4 <? Z.of_nat (length (Agent.messages st1)) then
          let w1 := Agent.saveContextCheckpoint st1 w in
          let r := ContextManager.compactConversation (Agent.messages st1) llm in
          if ContextManager.compacted r then
            let notice :=
              Agent.observation_message
                ("Model switched from "
                 +:+ match oldModel with
                     | Some m => if String.eqb m "" then "previous" else m
                     | None => "previous"
                     end
                 +:+ " to " +:+ newModel +:+ ". Context has been summarized.") in
            (Agent.set_messages (ContextManager.messages r ++ [notice]) st1, w1)
          else (st1, w1)
        else (st1, w) in
      let st3 := Agent.set_compactCount 0 st2 in
      (Agent.store a st3 w2,
       Switched oldModel newModel (Z.of_nat (length (Agent.messages st3))))
  end.

End Sessions.

(** ** [server/agent.js]: [executeToolAction] *)

Module Executor.

(** [s.replace(/\\/g, '/')]. *)
Fixpoint slashes (s : string) : string :=
  match s with
  | "" => ""
  | String c s' => String (if Ascii.eqb c "\" then "/"%char else c) (slashes s')
  end.

(** The replacement text of [String.prototype.replace] for a string
    pattern: [$$], [$&], [$`] and [$'] are substituted, any other [$] stands
    for itself (there are no captures). *)
Fixpoint substitution (matched before after replacement : string) : string :=
  match replacement with
  | "" => ""
  | String c rest =>
      if Ascii.eqb c "$" then
        match rest with
        | String d rest' =>
            if Ascii.eqb d "$" then String "$" (substitution matched before after rest')
            else if Ascii.eqb d "&" then matched +:+ substitution matched before after rest'
            else if Ascii.eqb d "`" then before +:+ substitution matched before after rest'
            else if Ascii.eqb d "'" then after +:+ substitution matched before after rest'
            else String "$" (substitution matched before after rest)
        | "" => "$"
        end
      else String c (substitution matched before after rest)
  end.

(** [s.replace(pattern, replacement)] for a string pattern: the first
    occurrence only; [before] is what precedes [s] in the whole string. *)
Fixpoint replace_from (before s pattern replacement : string) : string :=
  if String.prefix pattern s then
    let after := Js.drop (String.length pattern) s in
    before +:+ substitution pattern before after replacement +:+ after
  else
    match s with
    | "" => before
    | String a s' => replace_from (before +:+ String a "") s' pattern replacement
    end.

Definition replace (s pattern replacement : string) : string :=
  replace_from "" s pattern replacement.

(** [path.relative(from, to)]: the segments of the two resolved paths
    after their common prefix, one [..] for each one left of [from]. *)
Fixpoint after_common (xs ys : list string) : list string * list string :=
  match xs, ys with
  | x :: xs', y :: ys' => if String.eqb x y then after_common xs' ys' else (xs, ys)
  | _, _ => (xs, ys)
  end.

Definition relative (cwd from to : string) : string :=
  let '(up, down) :=
    after_common (Path.segments (Path.resolve cwd [from])) (Path.segments (Path.resolve cwd [to])) in
  Js.join "/" (map (fun _ => "..") up ++ down).

(** [path.basename(p)]. *)
Definition basename (p : string) : string :=
  List.last (List.filter (fun seg => negb (String.eqb seg "")) (Js.split "/" p)) "".

(** The first match of [/open '([^']+)'/]: its group. *)
Fixpoint until_quote (s : string) : option string :=
  match s with
  | "" => None
  | String c s' =>
      if Ascii.eqb c "'" then Some ""
      else match until_quote s' with Some g => Some (String c g) | None => None end
  end.

Fixpoint opened_path (s : string) : option string :=
  let here :=
    if String.prefix "open '" s then
      match until_quote (Js.drop 6 s) with
      | Some g => if String.eqb g "" then None else Some g
      | None => None
      end
    else None in
  match here with
  | Some g => Some g
  | None => match s with "" => None | String _ s' => opened_path s' end
  end.

(** What [executeToolAction] hands to [send]. *)
Inductive ToolEvent :=
| Observation (content : json)
| DiffRequest (filePath : string) (diff : json) (sessionId : string)
| OpenFile (path : string).

(** What one call does: the files afterwards, the messages pushed, the
    events sent, the diff left pending for approval (its path and its
    text), the conversation saved, and the answer, 'stop' or 'continue'. *)
Record Outcome := mkOutcome {
  files : gmap string string;
  pushed : list Message;
  events : list ToolEvent;
  pending : option (string * json);
  saved : option string;
  flow : Agent.ToolFlow
}.

Section WithProcess.

(** [process.cwd()], [runTool] of [server/tools.js], and
    [createTwoFilesPatch(name, name, before, after, '', '', { context: 3 })]
    of the [diff] package. *)
Variable cwd : string.
Variable runTool :
  string -> list (string * json) -> Tools.Ctx -> gmap string string -> gmap string string * result json.
Variable createTwoFilesPatch : string -> string -> string -> string.

Definition present (k : string) (args : list (string * json)) : option json :=
  match Json.get k args with
  | Some JNull | None => None
  | Some v => Some v
  end.

Definition truthy_arg (k : string) (args : list (string * json)) : option json :=
  match Json.get k args with
  | Some v => if Json.truthy v then Some v else None
  | None => None
  end.

(** [path.relative(root, resolvePathInWorkspace(root, p)).replace(/\\/g, '/')]
    for [root = state.workspaceRoot || process.cwd()]. *)
Definition workspace_path (st : Agent.State) (p : json) : result (string * string) :=
  let root := if String.eqb (Agent.workspaceRoot st) "" then cwd else Agent.workspaceRoot st in
  match Agent.resolvePathInWorkspace cwd root (Json.to_string p) with
  | Throw msg => Throw msg
  | Ok abs => Ok (abs, slashes (relative cwd root abs))
  end.

(** The request for approval that stands for a file mutation in Agent
    mode. *)
Definition ask_approval (st : Agent.State) (fs : gmap string string) (filePath : string)
    (diff : json) : Outcome :=
  mkOutcome fs [] [DiffRequest filePath diff (Agent.sessionId st)] (Some (filePath, diff)) None
            Agent.ToolStop.

(** The part of the function under [try]: either it has answered already,
    or it leaves a result (and the files as the tool left them). *)
Definition attempt (tool : string) (args : list (string * json)) (st : Agent.State)
    (fs : gmap string string) : Outcome + gmap string string * json :=
  let failed (msg : string) : Outcome + gmap string string * json :=
    inr (fs, JObj [("error", JStr ("Error: " +:+ msg))]) in
  let run : Outcome + gmap string string * json :=
    match runTool tool args (Tools.mkCtx (Agent.workspaceRoot st) true) fs with
    | (fs', Ok r) => inr (fs', r)
    | (fs', Throw msg) => inr (fs', JObj [("error", JStr ("Error: " +:+ msg))])
    end in
  let isExternalBrowserTool :=
    String.eqb tool "mcp_list_tools" || String.eqb tool "mcp_call_tool"
    || String.eqb tool "perform_browser_task" in
  if isExternalBrowserTool && negb (Agent.agentPlus st) then
    let r := JObj [("error", JStr "MCP/browser automation requires Agent+ mode.")] in
    inl (mkOutcome fs [mkMessage Tool (Json.stringify r)] [Observation r] None None
                   Agent.ToolContinue)
  else if negb (Agent.agentPlus st) then
    match String.eqb tool "apply_diff", truthy_arg "filePath" args, truthy_arg "diff" args with
    | true, Some p, Some d =>
        match workspace_path st p with
        | Throw msg => failed msg
        | Ok (_, relPath) => inl (ask_approval st fs relPath d)
        end
    | _, _, _ =>
        match String.eqb tool "write_file", present "path" args, present "content" args with
        | true, Some p, Some c =>
            match workspace_path st p with
            | Throw msg => failed msg
            | Ok (abs, filePath) =>
                let before := default "" (fs !! abs) in
                let after := Json.to_string c in
                inl (ask_approval st fs filePath
                       (JStr (createTwoFilesPatch filePath before after)))
            end
        | _, _, _ =>
            match String.eqb tool "replace_in_file", present "path" args with
            | true, Some p =>
                match workspace_path st p with
                | Throw msg => failed msg
                | Ok (abs, filePath) =>
                    let before := default "" (fs !! abs) in
                    let search := match present "search" args with
                                  | Some v => Json.to_string v | None => "" end in
                    let replacement := match present "replace" args with
                                       | Some v => Json.to_string v | None => "" end in
                    let after := if Js.includes before search
                                 then replace before search replacement else before in
                    inl (ask_approval st fs filePath
                           (JStr (createTwoFilesPatch filePath before after)))
                end
            | _, _ => run
            end
        end
    end
  else run.

(** [x.hint = text]: a property of an object is set; on a string, a number
    or a boolean nothing happens, and on an array nothing that
    [JSON.stringify] shows. *)
Definition with_hint (text : string) (x : json) : json :=
  match x with
  | JObj fields => JObj (Json.set "hint" (JStr text) fields)
  | _ => x
  end.

(** Whether [truncateToolResult] returned its argument itself. *)
Definition returned_itself (result : json) : bool :=
  negb (Json.truthy result)
  || (Js.len (match result with JStr t => t | _ => Json.stringify result end)
      <=? ContextManager.MAX_TOOL_RESULT_CHARS).

Definition executeToolAction (tool : string) (args : list (string * json)) (st : Agent.State)
    (fs : gmap string string) : Outcome :=
  match attempt tool args st fs with
  | inl answered => answered
  | inr (fs', result) =>
      let truncatedResult := ContextManager.truncateToolResult result in
      let resultStr :=
        match result with
        | JStr t => t
        | _ => Json.stringify (if Json.truthy result then result else JObj [])
        end in
      let hinted := Js.includes resultStr "ENOENT" || Js.includes resultStr "no such file" in
      let hint :=
        "File not found. Try list_files to find "
        +:+ Js.quoted (basename (default "" (opened_path resultStr))) +:+ "." in
      let truncatedResult' := if hinted then with_hint hint truncatedResult else truncatedResult in
      let result' := if hinted && returned_itself result then with_hint hint result else result in
      let fileMutationOk :=
        match result' with
        | JObj fields =>
            match Json.get "ok" fields with
            | Some (JBool true) =>
                negb (match Json.get "error" fields with Some e => Json.truthy e | None => false end)
            | _ => false
            end
        | _ => false
        end in
      let opened :=
        if fileMutationOk && (String.eqb tool "write_file" || String.eqb tool "replace_in_file") then
          match truthy_arg "path" args with
          | Some p =>
              match workspace_path st p with
              | Ok (_, relPath) => [OpenFile relPath]
              | Throw _ => []
              end
          | None => []
          end
        else [] in
      mkOutcome fs' [mkMessage Tool (Json.stringify truncatedResult')]
                (Observation result' :: opened) None
                (Some (if String.eqb (Agent.sessionId st) "" then "default" else Agent.sessionId st))
                Agent.ToolContinue
  end.

End WithProcess.

End Executor.

(** ** [server/memory.js] *)

Module Memory.

(** The memory file holds a JSON object; it is modelled by the object that
    [loadMemory] returns: its own properties, in the order in which
    [Object.keys] (and [JSON.stringify]) enumerate them, array indices first
    and in ascending order, then the other keys in order of creation.  An
    absent or unreadable file is the empty object. *)
Definition Store := list (string * json).

Definition MAX_KEYS : Z := 200.
Definition MAX_VALUE_LENGTH : Z := 8000.

Definition is_digit (c : ascii) : bool :=
  let n := N_of_ascii c in ((48 <=? n)%N && (n <=? 57)%N).

Fixpoint decimal (acc : N) (s : string) : option N :=
  match s with
  | "" => Some acc
  | String c s' =>
      if is_digit c then decimal (10 * acc + (N_of_ascii c - 48)) s' else None
  end.

(** A property key that is an array index: the canonical decimal form of an
    integer below [2 ^ 32 - 1]. *)
Definition array_index (k : string) : option N :=
  match k with
  | "" => None
  | String c rest =>
      if Ascii.eqb c "0" && negb (String.eqb rest "") then None
      else match decimal 0 k with
           | Some n => if (n <? 4294967295)%N then Some n else None
           | None => None
           end
  end.

(** The properties every object inherits from [Object.prototype]. *)
Definition inherited : list string :=
  ["constructor"; "__defineGetter__"; "__defineSetter__"; "hasOwnProperty";
   "__lookupGetter__"; "__lookupSetter__"; "isPrototypeOf"; "propertyIsEnumerable";
   "toString"; "valueOf"; "__proto__"; "toLocaleString"].

Definition is_inherited (k : string) : bool := existsb (String.eqb k) inherited.

Definition own (k : string) (mem : Store) : bool :=
  match Json.get k mem with Some _ => true | None => false end.

(** [key in mem]. *)
Definition has (k : string) (mem : Store) : bool := own k mem || is_inherited k.

(** A new property takes its place in the enumeration order. *)
Fixpoint add_index (n : N) (k : string) (v : json) (mem : Store) : Store :=
  match mem with
  | [] => [(k, v)]
  | (k', v') :: mem' =>
      match array_index k' with
      | Some n' => if (n <? n')%N then (k, v) :: mem else (k', v') :: add_index n k v mem'
      | None => (k, v) :: mem
      end
  end.

(** [mem[k] = v]: an own property is overwritten in place; assigning a
    string to an inherited [__proto__] does nothing; any other key becomes
    a new own property. *)
Definition assign (k : string) (v : json) (mem : Store) : Store :=
  if own k mem then Json.set k v mem
  else if String.eqb k "__proto__" then mem
  else match array_index k with
       | Some n => add_index n k v mem
       | None => mem ++ [(k, v)]
       end.

(** [delete mem[k]]. *)
Fixpoint remove (k : string) (mem : Store) : Store :=
  match mem with
  | [] => []
  | (k', v) :: mem' => if String.eqb k' k then mem' else (k', v) :: remove k mem'
  end.

Section WithEngine.

(** [String(f)] for the function an inherited property holds. *)
Variable native_code : string -> string.

(** [memoryRead(key)]: [None] is [null]. *)
Definition memoryRead (key : json) (mem : Store) : option string :=
  let k := Json.to_string key in
  match Json.get k mem with
  | Some JNull => None
  | Some v => Some (Json.to_string v)
  | None =>
      if String.eqb k "__proto__" then Some "[object Object]"
      else if is_inherited k then Some (native_code k)
      else None
  end.

End WithEngine.

(** [value != null ? String(value).slice(0, MAX_VALUE_LENGTH) : '']. *)
Definition stored_text (value : json) : string :=
  match value with
  | JNull => ""
  | v => Js.slice (Json.to_string v) 0 MAX_VALUE_LENGTH
  end.

(** [memoryWrite(key, value)]: the store afterwards and the answer. *)
Definition memoryWrite (key value : json) (mem : Store) : Store * json :=
  let k := Json.to_string key in
  let mem1 :=
    if (MAX_KEYS <=? Z.of_nat (length mem)) && negb (has k mem) then
      match mem with
      | (oldest, _) :: _ => remove oldest mem
      | [] => mem
      end
    else mem in
  (assign k (JStr (stored_text value)) mem1, JObj [("ok", JBool true); ("key", key)]).

(** [memoryList()]. *)
Definition memoryList (mem : Store) : json :=
  JObj [("keys", JArr (map (fun kv => JStr (fst kv)) mem))].

End Memory.

(** ** [server/agent.js]: the choice of a model for a task *)

Module Models.

Inductive TaskType := VISION | CODER | GENERAL.

(** An entry of the list of available models; an absent field is [None]. *)
Record ModelInfo := mkModelInfo { id : option string; displayName : option string }.

(** Truthiness of a value that is a string, [null] or [undefined]. *)
Definition truthy (x : option string) : bool :=
  match x with
  | Some s => negb (String.eqb s "")
  | None => false
  end.

(** [x || y] and [x || y || ''] on such values. *)
Definition or_else (x y : option string) : option string := if truthy x then x else y.

Definition or_empty (x y : option string) : string :=
  default "" (or_else x (or_else y (Some ""))).

(** [m.id || m.displayName || ''] and [m.displayName || m.id || '']. *)
Definition model_id (m : ModelInfo) : string := or_empty (id m) (displayName m).
Definition model_name (m : ModelInfo) : string := or_empty (displayName m) (id m).

(** [add(id)]: the list [out] and the set [seen] of what it holds. *)
Definition add (x : option string) (acc : list (option string) * gset (option string))
    : list (option string) * gset (option string) :=
  if truthy x && negb (bool_decide (x ∈ acc.2)) then (acc.1 ++ [x], {[ x ]} ∪ acc.2) else acc.

(** The loop of [getModelsToTryForTask] over the available models. *)
Definition add_models (models : list ModelInfo)
    (acc : list (option string) * gset (option string))
    : list (option string) * gset (option string) :=
  fold_left
    (fun acc m => if String.eqb (model_id m) "" then acc else add (Some (model_id m)) acc)
    models acc.

(** [seen] holds what [out] holds, and [out] holds nothing twice. *)
Definition models_inv (acc : list (option string) * gset (option string)) : Prop :=
  NoDup acc.1 /\ forall x, x ∈ acc.2 <-> x ∈ acc.1.

Section WithPatterns.

(** The two regular expressions of [classifyTaskType], as tests of the
    task text; the two pattern lists; and [matches p s]: whether pattern
    [p] (a regular expression when it holds a star, a substring otherwise)
    matches [s.toLowerCase()]. *)
Variable vision_task : string -> bool.
Variable coder_task : string -> bool.
Variable VISION_MODEL_PATTERNS : list string.
Variable CODER_MODEL_PATTERNS : list string.
Variable matches : string -> string -> bool.

Definition classifyTaskType (taskText : string) : TaskType :=
  if String.eqb taskText "" then GENERAL
  else if vision_task taskText then VISION
  else if coder_task taskText then CODER
  else GENERAL.

(** The loop of [scoreModelForType] from index [i] on: [patterns] is what
    is left of the list, [patterns.length - i] its length. *)
Fixpoint score_from (s : string) (patterns : list string) : Z :=
  match patterns with
  | [] => 0
  | p :: later => if matches p s then Z.of_nat (length patterns) else score_from s later
  end.

Definition scoreModelForType (modelId displayName : option string) (patterns : list string) : Z :=
  score_from (default "" (or_else modelId (Some "")) +:+ " "
              +:+ default "" (or_else displayName (Some ""))) patterns.

Definition isCoderModel (modelId displayName : option string) : bool :=
  existsb (fun p => matches p (default "" (or_else modelId (Some "")) +:+ " "
                               +:+ default "" (or_else displayName (Some ""))))
          CODER_MODEL_PATTERNS.

Definition model_score (patterns : list string) (m : ModelInfo) : Z :=
  scoreModelForType (Some (model_id m)) (Some (model_name m)) patterns.

(** The loop that keeps the first model with the highest score. *)
Fixpoint best_of (patterns : list string) (models : list ModelInfo) (best : option string)
    (bestScore : Z) : option string :=
  match models with
  | [] => best
  | m :: later =>
      if bestScore <? model_score patterns m
      then best_of patterns later (Some (model_id m)) (model_score patterns m)
      else best_of patterns later best bestScore
  end.

(** The loop that returns the first model that is not a coder model. *)
Fixpoint first_non_coder (models : list ModelInfo) : option string :=
  match models with
  | [] => None
  | m :: later =>
      if String.eqb (model_id m) "" then first_non_coder later
      else if negb (isCoderModel (Some (model_id m))
                      (or_else (displayName m) (Some (model_id m))))
      then Some (model_id m)
      else first_non_coder later
  end.

Definition pickBestModelForTask (taskText : string) (availableModels : list ModelInfo)
    (defaultModel preferredVisionModel : option string) : option string :=
  match availableModels with
  | [] =>
      match classifyTaskType taskText with
      | VISION =>
          if truthy preferredVisionModel && isCoderModel defaultModel defaultModel
          then preferredVisionModel else defaultModel
      | _ => defaultModel
      end
  | _ :: _ =>
      let type := classifyTaskType taskText in
      let best :=
        match type with
        | VISION => best_of VISION_MODEL_PATTERNS availableModels None 0
        | CODER => best_of CODER_MODEL_PATTERNS availableModels None 0
        | GENERAL => None
        end in
      if truthy best then best
      else
        match type with
        | VISION =>
            if isCoderModel defaultModel defaultModel then
              match first_non_coder availableModels with
              | Some id' => Some id'
              | None => if truthy preferredVisionModel then preferredVisionModel else defaultModel
              end
            else defaultModel
        | _ => defaultModel
        end
  end.

Definition getModelsToTryForTask (taskText : string) (availableModels : list ModelInfo)
    (defaultModel preferredVisionModel explicitModel : option string) : list (option string) :=
  if truthy explicitModel then [explicitModel]
  else
    let primary :=
      or_else (pickBestModelForTask taskText availableModels defaultModel preferredVisionModel)
              defaultModel in
    (add defaultModel
       (add preferredVisionModel (add_models availableModels ([primary], {[ primary ]})))).1.

End WithPatterns.

End Models.

(** ** More concrete inputs *)

Module Samples.

(** The session [s1] with the conversation of eight messages. *)
Definition long_session : Agent.State :=
  Agent.set_messages Scenario.conversation Scenario.session.

Definition long_world : Agent.World :=
  Agent.mkWorld {[ 0%nat := long_session ]} {[ "s1" := 0%nat ]}
    {[ "/home/ws/src/a.ts" := "function foo() {}" ]} [] [].

(** A follow-up request for [s1]; it asks for Agent+ mode and names another
    workspace. *)
Definition follow_up : Agent.RunArgs :=
  Agent.mkRunArgs "s1" "Now rename bar to baz" None None true "/elsewhere" 25.

(** A stand-in for the patch text of the [diff] package. *)
Definition patch (name before after : string) : string :=
  "--- " +:+ name +:+ Js.nl +:+ "-" +:+ before +:+ Js.nl +:+ "+" +:+ after.

(** [String(f)] for a built-in function named [k]. *)
Definition native_code (k : string) : string := "function " +:+ k +:+ "() { [native code] }".

(** A memory of 200 keys: [a], [aa], [aaa], ... *)
Definition full_memory : Memory.Store :=
  map (fun n => (Scenario.letters (S n), JStr "")) (seq 0 200).

(** Stand-ins for the task tests and the pattern lists, and the substring
    match. *)
Definition vision_task (t : string) : bool := Js.includes t "screenshot".
Definition coder_task (t : string) : bool := Js.includes t "implement".
Definition VISION_MODEL_PATTERNS : list string := ["llava"; "vision"].
Definition CODER_MODEL_PATTERNS : list string := ["coder"; "code"].
Definition matches (p s : string) : bool := Js.includes s p.

Definition models : list Models.ModelInfo :=
  [Models.mkModelInfo (Some "qwen-coder") None;
   Models.mkModelInfo (Some "llava") (Some "llava 13b");
   Models.mkModelInfo None None].

End Samples.

(** * Properties *)

(** ** Strings *)

Lemma length_append (a b : string) :
  String.length (a +:+ b) = (String.length a + String.length b)%nat.
Proof. induction a as [|c a IH]; simpl; [reflexivity | now rewrite IH]. Qed.

Lemma len_append (a b : string) : Js.len (a +:+ b) = Js.len a + Js.len b.
Proof. unfold Js.len. rewrite length_append. lia. Qed.

Lemma len_nonneg (s : string) : 0 <= Js.len s.
Proof. unfold Js.len. lia. Qed.

Lemma string_length_take (n : nat) (s : string) :
  String.length (Js.take n s) = Nat.min n (String.length s).
Proof.
  revert s. induction n as [|n IH]; intros [|c s]; simpl; try reflexivity.
  now rewrite IH.
Qed.

Lemma string_length_drop (n : nat) (s : string) :
  String.length (Js.drop n s) = (String.length s - n)%nat.
Proof.
  revert s. induction n as [|n IH]; intros [|c s]; simpl; try reflexivity.
  apply IH.
Qed.

Lemma take_all (n : nat) (s : string) : (String.length s <= n)%nat -> Js.take n s = s.
Proof.
  revert s. induction n as [|n IH]; intros [|c s] H; simpl in *; try reflexivity; try lia.
  f_equal. apply IH. lia.
Qed.

(** [s.slice(0, h)] for [0 <= h <= s.length] is the prefix of length [h]. *)
Lemma slice_head (s : string) (h : Z) :
  0 <= h <= Js.len s -> Js.slice s 0 h = Js.take (Z.to_nat h) s.
Proof.
  intros H. unfold Js.slice, Js.slice_index.
  destruct (0 <? 0) eqn:E0; [lia|].
  destruct (h <? 0) eqn:Eh; [lia|].
  rewrite Z.min_l by lia. rewrite Z.min_l by lia.
  rewrite Z.sub_0_r. reflexivity.
Qed.

(** [s.slice(-t)] for [0 < t <= s.length] is the suffix of length [t]. *)
Lemma slice_tail (s : string) (t : Z) :
  0 < t <= Js.len s -> Js.slice_from s (- t) = Js.drop (Z.to_nat (Js.len s - t)) s.
Proof.
  intros H. unfold Js.slice_from, Js.slice, Js.slice_index.
  destruct (- t <? 0) eqn:Et; [|lia].
  pose proof (len_nonneg s).
  destruct (Js.len s <? 0) eqn:El; [lia|].
  rewrite Z.max_r by lia. rewrite Z.min_l by lia.
  apply take_all. rewrite string_length_drop. unfold Js.len in *. lia.
Qed.

(** [s.slice(-0)] is [s.slice(0)]: the whole string. *)
Lemma slice_minus_zero (s : string) : Js.slice_from s (- 0) = s.
Proof.
  unfold Js.slice_from, Js.slice, Js.slice_index. simpl.
  pose proof (len_nonneg s).
  destruct (Js.len s <? 0) eqn:El; [lia|].
  rewrite Z.min_r by lia. rewrite Z.min_l by lia. rewrite Z.sub_0_r.
  simpl. apply take_all. unfold Js.len. lia.
Qed.

(** ** Decimal numerals *)

Lemma length_pretty_N_go (k : nat) :
  forall (x : N) (s : string),
    (x < 10 ^ N.of_nat k)%N ->
    (String.length (pretty_N_go x s) <= k + String.length s)%nat.
Proof.
  induction k as [|k IH]; intros x s Hx.
  - assert (x = 0%N) as -> by (simpl in Hx; lia). rewrite pretty_N_go_0. lia.
  - destruct (decide (x = 0%N)) as [->|Hne].
    + rewrite pretty_N_go_0. lia.
    + rewrite pretty_N_go_step by lia.
      etransitivity; [apply IH|simpl; lia].
      apply N.Div0.div_lt_upper_bound.
      rewrite Nat2N.inj_succ, N.pow_succ_r' in Hx. lia.
Qed.

(** A non-negative integer below [10 ^ k] prints with at most [k] digits
    ([1 <= k]). *)
Lemma length_of_int (k : nat) (n : Z) :
  (1 <= k)%nat -> 0 <= n < 10 ^ Z.of_nat k -> (String.length (Js.of_int n) <= k)%nat.
Proof.
  intros Hk [H0 Hn]. unfold Js.of_int, pretty, pretty_Z.
  destruct n as [|q|q]; simpl; [lia| |lia].
  unfold pretty, pretty_positive, pretty, pretty_N.
  destruct (decide (N.pos q = 0%N)); [discriminate|].
  pose proof (length_pretty_N_go k (N.pos q) "") as L. simpl in L.
  rewrite Nat.add_0_r in L. apply L.
  apply N2Z.inj_lt. rewrite N2Z.inj_pow. simpl. rewrite nat_N_Z. exact Hn.
Qed.


(** ** Binary64 rounding *)

Lemma rne_spec (m e : Z) :
  0 < m ->
  exists sh : Z,
    0 <= sh /\ F64.expo (F64.rne m e) = e + sh /\ 0 < F64.mant (F64.rne m e) /\
    (m - F64.mant (F64.rne m e) * 2 ^ sh) * 2 ^ 53 <= m /\
    (F64.mant (F64.rne m e) * 2 ^ sh - m) * 2 ^ 53 <= m.
Proof.
  intros Hm. unfold F64.rne, F64.prec.
  rewrite (Z.abs_eq m) by lia.
  destruct (Z.log2 m + 1 <=? 53) eqn:Hbits.
  - exists 0. simpl. rewrite Z.mul_1_r, Z.sub_diag. repeat split; lia.
  - apply Z.leb_gt in Hbits.
    set (sh := Z.log2 m + 1 - 53).
    assert (Hsh : 0 < sh) by (unfold sh; lia).
    exists sh. cbn [F64.expo F64.mant].
    rewrite Z.shiftr_div_pow2 by lia.
    rewrite (Z.sgn_pos m) by lia. rewrite Z.mul_1_l.
    set (half := 2 ^ (sh - 1)).
    assert (Hhalf : 0 < half) by (apply Z.pow_pos_nonneg; lia).
    assert (HP : 2 ^ sh = 2 * half).
    { unfold half. replace sh with (Z.succ (sh - 1)) at 1 by lia.
      rewrite Z.pow_succ_r by lia. reflexivity. }
    rewrite HP.
    pose proof (Z.log2_spec m Hm) as [Hlo _].
    assert (Hlow : half * 2 ^ 53 <= m).
    { replace (Z.log2 m) with ((sh - 1) + 53) in Hlo by (unfold sh; lia).
      rewrite Z.pow_add_r in Hlo by lia. exact Hlo. }
    pose proof (Z.div_mod m (2 * half) ltac:(lia)) as Hdm.
    pose proof (Z.mod_pos_bound m (2 * half) ltac:(lia)) as Hmod.
    set (q := m / (2 * half)) in *. set (r := m mod (2 * half)) in *.
    assert (Hq : 0 < q) by nia.
    destruct ((half <? r) || ((r =? half) && Z.odd q)) eqn:Hup.
    + assert (half <= r).
      { apply orb_true_iff in Hup as [H|H]; [apply Z.ltb_lt in H; lia|].
        apply andb_true_iff in H as [H _]. apply Z.eqb_eq in H. lia. }
      repeat split; try lia; nia.
    + assert (r <= half).
      { apply orb_false_iff in Hup as [H _]. apply Z.ltb_ge in H. exact H. }
      repeat split; try lia; nia.
Qed.

Lemma pow2_pos (k : Z) : 0 <= k -> 0 < 2 ^ k.
Proof. intros. apply Z.pow_pos_nonneg; lia. Qed.

(** The rounded value as a fraction [V / 2 ^ k] with [V] within one part in
    [2 ^ 53] of the exact numerator. *)
Lemma rne_fraction (m k : Z) :
  0 < m -> 0 <= k ->
  exists V : Z,
    0 < V /\ (m - V) * 2 ^ 53 <= m /\ (V - m) * 2 ^ 53 <= m /\
    F64.floor (F64.rne m (- k)) = V / 2 ^ k /\
    F64.ceil (F64.rne m (- k)) = - ((- V) / 2 ^ k).
Proof.
  intros Hm Hk.
  destruct (rne_spec m (- k) Hm) as (sh & Hsh & He & Hq & Hlo & Hhi).
  set (q := F64.mant (F64.rne m (- k))) in *.
  pose proof (pow2_pos sh Hsh) as Hpsh.
  exists (q * 2 ^ sh).
  split; [apply Z.mul_pos_pos; assumption|].
  split; [exact Hlo|]. split; [exact Hhi|]. split.
  - unfold F64.floor. fold q. rewrite He.
    destruct (0 <=? - k + sh) eqn:E.
    + apply Z.leb_le in E.
      replace sh with ((- k + sh) + k) at 2 by lia.
      rewrite (Z.pow_add_r 2 (- k + sh) k) by lia. rewrite Z.mul_assoc.
      rewrite Z.div_mul by (pose proof (pow2_pos k Hk); lia). reflexivity.
    + apply Z.leb_gt in E.
      replace k with ((- (- k + sh)) + sh) at 2 by lia.
      rewrite (Z.pow_add_r 2 (- (- k + sh)) sh) by lia.
      rewrite Z.div_mul_cancel_r by (pose proof (pow2_pos (- (- k + sh)) ltac:(lia)); lia).
      reflexivity.
  - unfold F64.ceil. fold q. rewrite He.
    destruct (0 <=? - k + sh) eqn:E.
    + apply Z.leb_le in E.
      replace sh with ((- k + sh) + k) at 2 by lia.
      rewrite (Z.pow_add_r 2 (- k + sh) k) by lia. rewrite Z.mul_assoc.
      rewrite <- Z.mul_opp_l.
      rewrite Z.div_mul by (pose proof (pow2_pos k Hk); lia). lia.
    + apply Z.leb_gt in E.
      replace k with ((- (- k + sh)) + sh) at 2 by lia.
      rewrite (Z.pow_add_r 2 (- (- k + sh)) sh) by lia.
      rewrite <- Z.mul_opp_l.
      rewrite Z.div_mul_cancel_r by (pose proof (pow2_pos (- (- k + sh)) ltac:(lia)); lia).
      reflexivity.
Qed.

Lemma of_Z_exact (z : Z) : 0 <= z < 2 ^ 53 -> F64.of_Z z = F64.mk z 0.
Proof.
  intros [H0 H]. unfold F64.of_Z, F64.rne, F64.prec.
  rewrite Z.abs_eq by lia.
  destruct (Z.log2 z + 1 <=? 53) eqn:E; [reflexivity|].
  apply Z.leb_gt in E.
  destruct (Z.eq_dec z 0) as [->|Hz]; [simpl in E; lia|].
  assert (Z.log2 z < 53) by (apply Z.log2_lt_pow2; lia). lia.
Qed.

Lemma c0_7_value : F64.c0_7 = F64.mk 6305039478318694 (-53).
Proof. vm_compute. reflexivity. Qed.

Lemma c0_2_value : F64.c0_2 = F64.mk 7205759403792794 (-55).
Proof. vm_compute. reflexivity. Qed.

Lemma c3_5_value : F64.c3_5 = F64.mk 7881299347898368 (-51).
Proof. vm_compute. reflexivity. Qed.

(** [Math.floor(n * 0.7)]. *)
Lemma headSize_bounds (n : Z) :
  0 <= n < 2 ^ 52 ->
  0 <= ContextManager.headSize n /\ 10 * ContextManager.headSize n <= 7 * n + 1.
Proof.
  intros [H0 H]. unfold ContextManager.headSize.
  rewrite of_Z_exact by lia. rewrite c0_7_value. unfold F64.mul. cbn [F64.mant F64.expo].
  destruct (Z.eq_dec n 0) as [->|Hn].
  { replace (F64.floor _) with 0 by (vm_compute; reflexivity). lia. }
  change (0 + -53) with (Z.opp 53).
  destruct (rne_fraction (n * 6305039478318694) 53 ltac:(lia) ltac:(lia))
    as (V & HV & Hlo & Hhi & Hfl & _).
  rewrite Hfl.
  pose proof (Z.mul_div_le V (2 ^ 53) ltac:(lia)).
  pose proof (Z.div_pos V (2 ^ 53) ltac:(lia) ltac:(lia)).
  change (2 ^ 53) with 9007199254740992 in *. change (2 ^ 52) with 4503599627370496 in *.
  split; lia.
Qed.

(** [Math.floor(n * 0.2)]. *)
Lemma tailSize_bounds (n : Z) :
  0 <= n < 2 ^ 52 ->
  0 <= ContextManager.tailSize n /\ 10 * ContextManager.tailSize n <= 2 * n + 1 /\
  (5 <= n -> 1 <= ContextManager.tailSize n).
Proof.
  intros [H0 H]. unfold ContextManager.tailSize.
  rewrite of_Z_exact by lia. rewrite c0_2_value. unfold F64.mul. cbn [F64.mant F64.expo].
  destruct (Z.eq_dec n 0) as [->|Hn].
  { replace (F64.floor _) with 0 by (vm_compute; reflexivity). lia. }
  destruct (Z.eq_dec n 5) as [->|Hn5].
  { replace (F64.floor _) with 1 by (vm_compute; reflexivity). lia. }
  change (0 + -55) with (Z.opp 55).
  destruct (rne_fraction (n * 7205759403792794) 55 ltac:(lia) ltac:(lia))
    as (V & HV & Hlo & Hhi & Hfl & _).
  rewrite Hfl.
  pose proof (Z.mul_div_le V (2 ^ 55) ltac:(lia)).
  pose proof (Z.mul_succ_div_gt V (2 ^ 55) ltac:(lia)).
  pose proof (Z.div_pos V (2 ^ 55) ltac:(lia) ltac:(lia)).
  change (2 ^ 53) with 9007199254740992 in *. change (2 ^ 52) with 4503599627370496 in *.
  change (2 ^ 55) with 36028797018963968 in *.
  repeat split; lia.
Qed.

(** [Math.floor(n * 3.5)]. *)
Lemma times_3_5_bounds (n : Z) :
  0 <= n < 2 ^ 50 ->
  let r := F64.floor (F64.mul (F64.of_Z n) F64.c3_5) in
  0 <= r /\ 2 * r <= 7 * n /\ 7 * n <= 2 * r + 2.
Proof.
  intros [H0 H]. cbv zeta.
  rewrite of_Z_exact by lia. rewrite c3_5_value. unfold F64.mul. cbn [F64.mant F64.expo].
  destruct (Z.eq_dec n 0) as [->|Hn].
  { replace (F64.floor _) with 0 by (vm_compute; reflexivity). lia. }
  change (0 + -51) with (Z.opp 51).
  destruct (rne_fraction (n * 7881299347898368) 51 ltac:(lia) ltac:(lia))
    as (V & HV & Hlo & Hhi & Hfl & _).
  rewrite Hfl.
  pose proof (Z.mul_div_le V (2 ^ 51) ltac:(lia)).
  pose proof (Z.mul_succ_div_gt V (2 ^ 51) ltac:(lia)).
  pose proof (Z.div_pos V (2 ^ 51) ltac:(lia) ltac:(lia)).
  change (2 ^ 53) with 9007199254740992 in *. change (2 ^ 50) with 1125899906842624 in *.
  change (2 ^ 51) with 2251799813685248 in *.
  repeat split; lia.
Qed.

(** [Math.ceil(n / 3.5)]. *)
Lemma div_3_5_bounds (n : Z) :
  0 < n < 2 ^ 53 ->
  let c := F64.ceil (F64.div (F64.of_Z n) F64.c3_5) in
  0 <= c /\ 7 * c <= 2 * n + 14.
Proof.
  intros [H0 H]. cbv zeta.
  rewrite of_Z_exact by lia. rewrite c3_5_value.
  unfold F64.div. cbn [F64.mant F64.expo].
  change (Z.abs 7881299347898368) with 7881299347898368.
  change (Z.log2 7881299347898368) with 52.
  change (Z.sgn 7881299347898368) with 1.
  rewrite (Z.abs_eq n) by lia. rewrite (Z.sgn_pos n) by lia.
  destruct (n =? 0) eqn:En; [apply Z.eqb_eq in En; lia|]. clear En.
  cbn [orb Z.eqb].
  assert (Hlg : 0 <= Z.log2 n < 53).
  { split; [apply Z.log2_nonneg|apply Z.log2_lt_pow2; lia]. }
  rewrite Z.max_r by lia.
  set (k' := 58 - Z.log2 n).
  replace (56 + 52 - Z.log2 n) with (k' + 50) by (unfold k'; lia).
  replace (0 - -51 - (k' + 50) - 1) with (- k') by lia.
  assert (Hk' : 6 <= k') by (unfold k'; lia).
  rewrite Z.pow_add_r by lia.
  change (2 ^ 50) with 1125899906842624.
  replace (n * (2 ^ k' * 1125899906842624)) with ((n * 2 ^ k') * 1125899906842624) by lia.
  change 7881299347898368 with (7 * 1125899906842624).
  rewrite Z.div_mul_cancel_r by lia.
  set (P := 2 ^ k').
  assert (HP : 64 <= P).
  { unfold P. change 64 with (2 ^ 6). apply Z.pow_le_mono_r; lia. }
  assert (HnP : n * P < 2 ^ 59).
  { pose proof (Z.log2_spec n H0) as [_ Hup].
    replace 59 with (Z.succ (Z.log2 n) + k') by (unfold k'; lia).
    rewrite Z.pow_add_r by lia. fold P.
    apply Z.mul_lt_mono_pos_r; lia. }
  set (q := n * P / 7).
  set (sticky := if (n * P * 1125899906842624) mod (7 * 1125899906842624) =? 0 then 0 else 1).
  assert (Hst : 0 <= sticky <= 1) by (unfold sticky; destruct (Z.eqb _ 0); lia).
  pose proof (Z.mul_div_le (n * P) 7 ltac:(lia)) as Hq. fold q in Hq.
  pose proof (Z.mul_succ_div_gt (n * P) 7 ltac:(lia)) as Hq'. fold q in Hq'.
  assert (Hqpos : 0 < q) by nia.
  rewrite Z.mul_1_l.
  destruct (rne_fraction (2 * q + sticky) k' ltac:(lia) ltac:(lia))
    as (V & HV & Hlo & Hhi & _ & Hce).
  rewrite Hce. fold P.
  change (2 ^ 59) with 576460752303423488 in HnP.
  change (2 ^ 53) with 9007199254740992 in *.
  assert (HVup : V <= 2 * q + sticky + 32) by lia.
  pose proof (Z.mul_div_le (- V) P ltac:(lia)) as Hc1.
  pose proof (Z.mul_succ_div_gt (- V) P ltac:(lia)) as Hc2.
  set (c := - V / P) in *.
  split; [nia|].
  assert (7 * (- c) * P <= (2 * n + 14) * P) by nia.
  nia.
Qed.

(** The integer-level model computes what the kernel's binary64 floats
    compute, on every argument up to 3000 and on some large ones, for the
    four operations the server performs. *)
Lemma binary64_model_agrees_with_primitive_floats :
  forallb
    (fun n =>
       (F64.floor (F64.mul (F64.of_Z n) F64.c0_7)
        =? F64.prim_floor (PrimFloat.mul (F64.prim_of_Z n) 0x1.6666666666666p-1%float))
       && (F64.floor (F64.mul (F64.of_Z n) F64.c0_2)
           =? F64.prim_floor (PrimFloat.mul (F64.prim_of_Z n) 0x1.999999999999ap-3%float))
       && (F64.floor (F64.mul (F64.of_Z n) F64.c3_5)
           =? F64.prim_floor (PrimFloat.mul (F64.prim_of_Z n) 0x1.cp1%float))
       && (F64.ceil (F64.div (F64.of_Z n) F64.c3_5)
           =? F64.prim_ceil (PrimFloat.div (F64.prim_of_Z n) 0x1.cp1%float)))
    (map Z.of_nat (seq 0 3001)
     ++ [4000; 16384; 57344; 65535; 1000003; 2147483647; 4294967297; 123456789012345;
         1125899906842623; 4503599627370495])
  = true.
Proof. vm_compute. reflexivity. Qed.

(** ** Token estimation and smart truncation *)

Lemma estimateTokens_bounds (text : string) :
  Js.len text < 2 ^ 53 ->
  0 <= ContextManager.estimateTokens text /\
  7 * ContextManager.estimateTokens text <= 2 * Js.len text + 14.
Proof.
  intros H. unfold ContextManager.estimateTokens.
  destruct text as [|c text]; [simpl; pose proof (len_nonneg ""); lia|].
  cbn [String.eqb].
  assert (0 < Js.len (String c text)) by (unfold Js.len; simpl; lia).
  apply (div_3_5_bounds (Js.len (String c text))). lia.
Qed.

Lemma length_omission (omitted : Z) :
  String.length (ContextManager.omission omitted)
  = (33 + String.length (Js.of_int omitted))%nat.
Proof.
  unfold ContextManager.omission. rewrite !length_append. simpl. lia.
Qed.

(** The shape of a truncated string when the tail size is positive: the
    first [headSize] characters, the separator, the last [tailSize]
    characters. *)
Lemma smartTruncate_shape (text : string) (maxChars : Z) :
  5 <= maxChars < 2 ^ 52 -> maxChars < Js.len text ->
  ContextManager.smartTruncate text maxChars
  = Js.take (Z.to_nat (ContextManager.headSize maxChars)) text
    +:+ ContextManager.omission
          (Js.len text - ContextManager.headSize maxChars - ContextManager.tailSize maxChars)
    +:+ Js.drop (Z.to_nat (Js.len text - ContextManager.tailSize maxChars)) text.
Proof.
  intros Hm Hlen. unfold ContextManager.smartTruncate.
  destruct (String.eqb text "") eqn:E.
  { apply String.eqb_eq in E. subst. unfold Js.len in Hlen. simpl in Hlen. lia. }
  destruct (Js.len text <=? maxChars) eqn:E2; [apply Z.leb_le in E2; lia|].
  pose proof (headSize_bounds maxChars ltac:(lia)) as [Hh0 Hh].
  pose proof (tailSize_bounds maxChars ltac:(lia)) as (Ht0 & Ht & Ht1).
  specialize (Ht1 ltac:(lia)).
  rewrite slice_head by lia. rewrite slice_tail by lia. reflexivity.
Qed.

(** A truncated string has at most [headSize + tailSize + 49] characters
    when the original has fewer than [10 ^ 16] (a JavaScript string has fewer
    than [2 ^ 53]). *)
Lemma smartTruncate_length (text : string) (maxChars : Z) :
  5 <= maxChars < 2 ^ 52 -> maxChars < Js.len text -> Js.len text < 10 ^ 16 ->
  Js.len (ContextManager.smartTruncate text maxChars)
  <= ContextManager.headSize maxChars + ContextManager.tailSize maxChars + 49.
Proof.
  intros Hm Hlen Hbig.
  rewrite smartTruncate_shape by assumption.
  pose proof (headSize_bounds maxChars ltac:(lia)) as [Hh0 Hh].
  pose proof (tailSize_bounds maxChars ltac:(lia)) as (Ht0 & Ht & Ht1).
  specialize (Ht1 ltac:(lia)).
  unfold Js.len in *. rewrite !length_append, string_length_take, string_length_drop, length_omission.
  pose proof (length_of_int 16
                (Z.of_nat (String.length text) - ContextManager.headSize maxChars
                 - ContextManager.tailSize maxChars) ltac:(lia)) as Hd.
  change (Z.of_nat 16) with 16 in Hd.
  specialize (Hd ltac:(lia)). lia.
Qed.

(** ** Smart truncation ([smartTruncate]) *)

(** A string within the limit is returned unchanged. *)
Lemma smartTruncate_short (text : string) (maxChars : Z) :
  Js.len text <= maxChars -> ContextManager.smartTruncate text maxChars = text.
Proof.
  intros H. unfold ContextManager.smartTruncate.
  destruct (String.eqb text "") eqn:E; [apply String.eqb_eq in E; congruence|].
  apply Z.leb_le in H. rewrite H. reflexivity.
Qed.

(** Below a limit of 5 the tail size is 0 and [text.slice(-0)] is the whole
    text: nothing is cut from the end. *)
Lemma smartTruncate_tail_size_zero (text : string) (maxChars : Z) :
  0 <= maxChars < 5 -> maxChars < Js.len text ->
  ContextManager.tailSize maxChars = 0 /\
  ContextManager.smartTruncate text maxChars
  = Js.take (Z.to_nat (ContextManager.headSize maxChars)) text
    +:+ ContextManager.omission (Js.len text - ContextManager.headSize maxChars)
    +:+ text.
Proof.
  intros Hm Hlen.
  assert (Ht : ContextManager.tailSize maxChars = 0).
  { assert (maxChars = 0 \/ maxChars = 1 \/ maxChars = 2 \/ maxChars = 3 \/ maxChars = 4)
      as [->|[->|[->|[->| ->]]]] by lia; vm_compute; reflexivity. }
  split; [exact Ht|].
  unfold ContextManager.smartTruncate.
  destruct (String.eqb text "") eqn:E.
  { apply String.eqb_eq in E. subst. unfold Js.len in Hlen. simpl in Hlen. lia. }
  destruct (Js.len text <=? maxChars) eqn:E2; [apply Z.leb_le in E2; lia|].
  rewrite Ht. rewrite slice_minus_zero. rewrite Z.sub_0_r.
  pose proof (headSize_bounds maxChars ltac:(lia)) as [Hh0 Hh].
  rewrite slice_head by lia. reflexivity.
Qed.

(** The product by 0.7 is a binary64 product: at 90 it is just below 63. *)
Lemma headSize_90 : ContextManager.headSize 90 = 62 /\ 7 * 90 / 10 = 63.
Proof. vm_compute. split; reflexivity. Qed.

(** C7 (the code departs from the claim). [smartTruncate("abcdef", 4)]: the
    tail size is [floor(0.2 * 4) = 0], so the claim asks for the first two
    characters, the separator, and no tail; the code appends the whole text
    after the separator, because [text.slice(-0)] is [text.slice(0)]. *)
Theorem smartTruncate_zero_tail_appends_whole_text :
  ContextManager.headSize 4 = 2 /\ ContextManager.tailSize 4 = 0 /\
  ContextManager.smartTruncate "abcdef" 4
  = "ab" +:+ ContextManager.omission 4 +:+ "abcdef" /\
  ContextManager.smartTruncate "abcdef" 4
  <> "ab" +:+ ContextManager.omission (6 - 2 - 0) +:+ "".
Proof. vm_compute. repeat split; try reflexivity. discriminate. Qed.

(** ** Path confinement ([resolvePath], [resolvePathInWorkspace]) *)

(** C1 (the code departs from the claim). With workspace root [/home/ws],
    the path [../ws-evil/secret.txt] resolves to
    [/home/ws-evil/secret.txt], outside the root; [resolvePath] accepts it
    because it compares with [startsWith] and no separator, and [read_file]
    and [write_file] through [runTool] read and write that file.  The
    engine's [resolvePathInWorkspace] rejects the same path. *)
Theorem resolvePath_accepts_sibling_of_root :
  let ctx := Tools.mkCtx "/home/ws" true in
  let outside := "/home/ws-evil/secret.txt" in
  let fs : gmap string string := {[ outside := "TOP SECRET" ]} in
  Tools.resolvePath Scenario.cwd "../ws-evil/secret.txt" "/home/ws" = Ok outside /\
  Path.within "/home/ws" outside = false /\
  snd (Scenario.runTool "read_file" [("path", JStr "../ws-evil/secret.txt")] ctx fs)
  = Ok (JObj [("file", JStr "../ws-evil/secret.txt"); ("content", JStr "1|TOP SECRET");
              ("totalLines", JNum 1)]) /\
  fst (Scenario.runTool "write_file"
         [("path", JStr "../ws-evil/secret.txt"); ("content", JStr "overwritten")] ctx fs)
    !! outside = Some "overwritten" /\
  Agent.resolvePathInWorkspace Scenario.cwd "/home/ws" "../ws-evil/secret.txt"
  = Throw "Security: path outside workspace denied for: ../ws-evil/secret.txt".
Proof. vm_compute. repeat split; reflexivity. Qed.

(** C10 (the code departs from the claim). When the workspace root is the
    file-system root [/] (a server started in [/], or a request that names
    it), [/etc/passwd] is stripped to [etc/passwd] and resolves to
    [/etc/passwd], inside the root, with no [..] segment; yet the comparison
    with [root + path.sep], which is [//], fails and the security error is
    raised.  With any other root the same path is accepted. *)
Theorem resolvePathInWorkspace_rejects_everything_below_slash :
  Agent.resolvePathInWorkspace Scenario.cwd "/" "/etc/passwd"
  = Throw "Security: path outside workspace denied for: /etc/passwd" /\
  Agent.resolvePathInWorkspace "/" "" "src/a.ts"
  = Throw "Security: path outside workspace denied for: src/a.ts" /\
  Path.within "/" (Path.resolve Scenario.cwd ["/"; "etc/passwd"]) = true /\
  Agent.resolvePathInWorkspace Scenario.cwd "/home/ws" "/etc/passwd" = Ok "/home/ws/etc/passwd".
Proof. vm_compute. repeat split; reflexivity. Qed.

(** ** The auto-save ([autoSaveWithSummary]) *)

Lemma append_cons (c : ascii) (a b : string) : String c a +:+ b = String c (a +:+ b).
Proof. reflexivity. Qed.

Lemma prefix_append (p a b : string) :
  String.prefix p a = true -> String.prefix p (a +:+ b) = true.
Proof.
  revert a. induction p as [|c p IH]; intros a H.
  - destruct (a +:+ b); reflexivity.
  - destruct a as [|c' a]; [discriminate|]. rewrite append_cons. cbn in *.
    destruct (ascii_dec c c'); [apply IH; exact H|discriminate].
Qed.

Lemma includes_append (a b p : string) :
  Js.includes a p = true -> Js.includes (a +:+ b) p = true.
Proof.
  induction a as [|c a IH]; intros H.
  - cbn in H. rewrite orb_false_r in H.
    destruct p; [|discriminate]. destruct b; reflexivity.
  - cbn [Js.includes] in H. apply orb_true_iff in H as [H|H].
    + rewrite append_cons. cbn [Js.includes]. apply orb_true_iff. left.
      rewrite <- append_cons. exact (prefix_append p (String c a) b H).
    + rewrite append_cons. cbn [Js.includes]. apply orb_true_iff. right. exact (IH H).
Qed.

Lemma append_assoc (a b c : string) : (a +:+ b) +:+ c = a +:+ (b +:+ c).
Proof. induction a as [|x a IH]; [reflexivity|]. rewrite !append_cons. now rewrite IH. Qed.

Lemma escape_append (a b : string) : Json.escape (a +:+ b) = Json.escape a +:+ Json.escape b.
Proof.
  induction a as [|x a IH]; [reflexivity|].
  rewrite append_cons. cbn [Json.escape]. rewrite IH. symmetry. apply append_assoc.
Qed.

Lemma includes_append_r (a b p : string) :
  Js.includes b p = true -> Js.includes (a +:+ b) p = true.
Proof.
  intros H. induction a as [|c a IH]; [exact H|].
  rewrite append_cons. cbn [Js.includes]. apply orb_true_iff. right. exact IH.
Qed.

(** The summary message written by a compaction mentions "summary". *)
Lemma summary_message_mentions_summary (header : string) :
  Js.includes
    (Json.stringify
       (JObj [("type", JStr "observation");
              ("content", JStr ("[Conversation summary " +:+ header))]))
    "summary" = true.
Proof.
  cbn [Json.stringify map fst snd Js.join String.concat].
  apply includes_append_r, includes_append.
  do 4 apply includes_append_r.
  unfold Json.quote. rewrite escape_append.
  cbn [Js.includes]. apply orb_true_iff. right.
  rewrite append_assoc. apply includes_append. vm_compute. reflexivity.
Qed.

(** What the auto-save writes: the conversation, and beyond six messages
    also its compacted copy and the session summary. *)
Lemma autoSaveWithSummary_effects
    (llm : option ContextManager.LlmReply) (st : Agent.State) (w : Agent.World) :
  let w' := Agent.autoSaveWithSummary llm st w in
  Agent.effects w'
  = Agent.effects w
    ++ Agent.SavedConversation (Agent.sessionId st)
       :: (if 6 <? Z.of_nat (length (Agent.messages st))
           then [Agent.SavedConversation (Agent.sessionId st +:+ "_compact");
                 Agent.SavedSummary (Agent.sessionId st)]
           else []) /\
  Agent.activeAgents w' = Agent.activeAgents w /\ Agent.objects w' = Agent.objects w /\
  Agent.sent w' = Agent.sent w /\ Agent.fs w' = Agent.fs w.
Proof.
  cbv zeta. unfold Agent.autoSaveWithSummary.
  destruct (6 <? Z.of_nat (length (Agent.messages st))) eqn:E6;
    [|unfold Agent.record; cbn [Agent.effects Agent.activeAgents Agent.objects Agent.sent Agent.fs];
      repeat split; reflexivity].
  apply Z.ltb_lt in E6.
  unfold ContextManager.compactConversation.
  destruct (Z.of_nat (length (Agent.messages st)) <=? 3) eqn:E3; [apply Z.leb_le in E3; lia|].
  destruct (Agent.messages st) as [|system rest] eqn:Em; [cbn in E6; lia|].
  cbn [length] in E6.
  destruct (Z.of_nat (length (firstn (length rest - Nat.min 4 (length rest)) rest)) <? 2) eqn:E2.
  { apply Z.ltb_lt in E2. rewrite length_firstn in E2. lia. }
  cbn [ContextManager.compacted ContextManager.messages find content].
  destruct (Js.includes (content system) "summary").
  { unfold Agent.record; cbn [Agent.effects Agent.activeAgents Agent.objects Agent.sent Agent.fs].
    rewrite <- !app_assoc. repeat split; reflexivity. }
  rewrite summary_message_mentions_summary.
  unfold Agent.record; cbn [Agent.effects Agent.activeAgents Agent.objects Agent.sent Agent.fs].
  rewrite <- !app_assoc. repeat split; reflexivity.
Qed.

(** ** The step loop ([runAgent]) *)

(** ** Paths accepted by [resolvePathInWorkspace] *)

Lemma split_nonempty (c : ascii) (s : string) : Js.split c s <> [].
Proof.
  destruct s as [|a s]; cbn; [discriminate|].
  destruct (Ascii.eqb a c); [discriminate|]. destruct (Js.split c s); discriminate.
Qed.

Lemma split_app (c : ascii) (a b : string) :
  Js.split c (a +:+ String c b) = Js.split c a ++ Js.split c b.
Proof.
  induction a as [|x a IH].
  - change ("" +:+ String c b) with (String c b). cbn [Js.split].
    rewrite Ascii.eqb_refl. reflexivity.
  - rewrite append_cons. cbn [Js.split]. rewrite IH.
    destruct (Ascii.eqb x c); [reflexivity|].
    pose proof (split_nonempty c a) as Hne.
    destruct (Js.split c a); [contradiction|reflexivity].
Qed.

(** Every piece of a split is free of the separator: splitting it again
    gives the piece itself. *)
Lemma split_pieces (c : ascii) (s : string) :
  Forall (fun w => Js.split c w = [w]) (Js.split c s).
Proof.
  induction s as [|a s IH]; cbn [Js.split].
  - repeat constructor.
  - destruct (Ascii.eqb a c) eqn:E.
    + constructor; [reflexivity|exact IH].
    + destruct (Js.split c s) as [|w ws]; [repeat constructor; cbn; rewrite E; reflexivity|].
      inversion IH as [|? ? Hw Hws]; subst. constructor; [|exact Hws].
      cbn [Js.split]. rewrite E, Hw. reflexivity.
Qed.

Lemma split_join (c : ascii) (segs : list string) :
  segs <> [] -> Forall (fun w => Js.split c w = [w]) segs ->
  Js.split c (Js.join (String c "") segs) = segs.
Proof.
  intros Hne Hall. induction Hall as [|s segs Hs Hall IH]; [contradiction|].
  destruct segs as [|t segs]; [exact Hs|].
  change (Js.join (String c "") (s :: t :: segs))
    with (s +:+ String c ("" +:+ Js.join (String c "") (t :: segs))).
  change ("" +:+ ?x) with x.
  rewrite split_app, Hs, IH by discriminate. reflexivity.
Qed.

Lemma join_app (sep : string) (xs ys : list string) :
  xs <> [] -> ys <> [] ->
  Js.join sep (xs ++ ys) = Js.join sep xs +:+ sep +:+ Js.join sep ys.
Proof.
  intros Hx Hy. induction xs as [|x xs IH]; [contradiction|].
  destruct xs as [|x' xs].
  - destruct ys; [contradiction|]. reflexivity.
  - change (Js.join sep ((x :: x' :: xs) ++ ys))
      with (x +:+ sep +:+ Js.join sep ((x' :: xs) ++ ys)).
    rewrite IH by discriminate.
    change (Js.join sep (x :: x' :: xs)) with (x +:+ sep +:+ Js.join sep (x' :: xs)).
    rewrite !append_assoc. reflexivity.
Qed.

Lemma normalize_segments_app (stack xs ys : list string) :
  Path.normalize_segments stack (xs ++ ys)
  = Path.normalize_segments (rev (Path.normalize_segments stack xs)) ys.
Proof.
  revert stack. induction xs as [|seg xs IH]; intros stack; cbn [app Path.normalize_segments].
  - rewrite rev_involutive. reflexivity.
  - destruct (String.eqb seg "" || String.eqb seg "."); [apply IH|].
    destruct (String.eqb seg ".."); apply IH.
Qed.

Lemma normalize_segments_no_dotdot (stack xs : list string) :
  ~ In ".." xs ->
  Path.normalize_segments stack xs = rev stack ++ Path.normalize_segments [] xs.
Proof.
  revert stack. induction xs as [|seg xs IH]; intros stack Hno; cbn [Path.normalize_segments].
  - cbn. rewrite app_nil_r. reflexivity.
  - assert (Hxs : ~ In ".." xs) by (intros H; apply Hno; right; exact H).
    destruct (String.eqb seg "" || String.eqb seg "."); [apply IH; exact Hxs|].
    destruct (String.eqb seg "..") eqn:E.
    + apply String.eqb_eq in E. subst. exfalso. apply Hno. left. reflexivity.
    + rewrite (IH (seg :: stack) Hxs), (IH [seg] Hxs). cbn [rev app].
      rewrite <- app_assoc. reflexivity.
Qed.

Lemma normalize_segments_kept (stack xs : list string) :
  Forall Path.kept stack -> Forall (fun w => Js.split "/" w = [w]) xs ->
  Forall Path.kept (Path.normalize_segments stack xs).
Proof.
  revert stack. induction xs as [|seg xs IH]; intros stack Hst Hxs; cbn [Path.normalize_segments].
  - apply Forall_rev. exact Hst.
  - inversion Hxs as [|? ? Hseg Hrest]; subst.
    destruct (String.eqb seg "" || String.eqb seg ".") eqn:E1; [apply IH; assumption|].
    destruct (String.eqb seg "..") eqn:E2.
    + apply IH; [|assumption]. destruct stack; [constructor|]. inversion Hst; assumption.
    + apply IH; [|assumption]. constructor; [|assumption].
      split; [|exact Hseg]. unfold Path.plain.
      apply orb_false_iff in E1 as [-> ->]. rewrite E2. reflexivity.
Qed.

Lemma normalize_segments_of_kept (stack segs : list string) :
  Forall Path.kept segs -> Path.normalize_segments stack segs = rev stack ++ segs.
Proof.
  intros Hall. revert stack. induction Hall as [|seg segs [Hp _] Hall IH]; intros stack;
    cbn [Path.normalize_segments].
  - rewrite app_nil_r. reflexivity.
  - unfold Path.plain in Hp. apply negb_true_iff in Hp.
    apply orb_false_iff in Hp as [Hp ->]. rewrite Hp.
    rewrite IH. cbn [rev]. rewrite <- app_assoc. reflexivity.
Qed.

Lemma resolve_shape (cwd : string) (paths : list string) :
  exists segs, Forall Path.kept segs /\ Path.resolve cwd paths = String "/" (Js.join "/" segs).
Proof.
  eexists. split; [|reflexivity].
  apply normalize_segments_kept; [constructor|apply split_pieces].
Qed.

Lemma segments_of_resolved (segs : list string) :
  Forall Path.kept segs -> Path.segments (String "/" (Js.join "/" segs)) = segs.
Proof.
  intros Hall. unfold Path.segments. cbn [Js.split]. 
  change (Ascii.eqb "/" "/") with true. cbv iota.
  cbn [Path.normalize_segments String.eqb orb].
  destruct segs as [|s segs]; [reflexivity|].
  rewrite split_join; [|discriminate|].
  - rewrite normalize_segments_of_kept by exact Hall. reflexivity.
  - eapply Forall_impl; [exact Hall|]. intros w [_ Hw]. exact Hw.
Qed.

Lemma strip_leading_slashes_spec (s : string) :
  Js.strip_leading_slashes s = "" \/
  (Js.strip_leading_slashes s <> "" /\ Path.isAbsolute (Js.strip_leading_slashes s) = false).
Proof.
  induction s as [|a s IH]; [left; reflexivity|].
  destruct a as [[] [] [] [] [] [] [] []]; try (right; split; [discriminate|reflexivity]).
  exact IH.
Qed.

Lemma split_strip_leading_slashes (s x : string) :
  In x (Js.split "/" (Js.strip_leading_slashes s)) -> In x (Js.split "/" s).
Proof.
  induction s as [|a s IH]; [intros H; exact H|].
  destruct a as [[] [] [] [] [] [] [] []]; try (intros H; exact H).
  intros H. right. apply IH. exact H.
Qed.

Lemma prefix_self_append (p b : string) : String.prefix p (p +:+ b) = true.
Proof.
  apply prefix_append. induction p as [|c p IH]; [reflexivity|].
  cbn. destruct (ascii_dec c c); [exact IH|contradiction].
Qed.

Lemma normalize_segments_below (segs xs : list string) :
  Forall Path.kept segs -> ~ In ".." xs ->
  Path.normalize_segments [] (("" :: segs) ++ xs) = segs ++ Path.normalize_segments [] xs.
Proof.
  intros Hsegs Hno. rewrite normalize_segments_app.
  cbn [Path.normalize_segments String.eqb orb].
  rewrite (normalize_segments_of_kept [] segs Hsegs). cbn [rev app].
  rewrite normalize_segments_no_dotdot by exact Hno.
  rewrite rev_involutive. reflexivity.
Qed.

(** With a workspace root other than the file-system root, a path that
    holds no [..] segment is accepted, whether or not it begins with [/]:
    it resolves to the root followed by its own segments. *)
Lemma resolvePathInWorkspace_accepts_paths_without_dotdot (cwd workspaceRoot filePath : string) :
  let root := Path.resolve cwd [if String.eqb workspaceRoot "" then cwd else workspaceRoot] in
  root <> "/" ->
  ~ In ".." (Js.split "/" filePath) ->
  Agent.resolvePathInWorkspace cwd workspaceRoot filePath
  = Ok ("/" +:+ Js.join "/" (Path.segments root
                             ++ Path.segments (Js.strip_leading_slashes filePath))).
Proof.
  intros root Hroot Hno.
  destruct (resolve_shape cwd [if String.eqb workspaceRoot "" then cwd else workspaceRoot])
    as (segs & Hsegs & Eroot).
  fold root in Eroot.
  assert (Hne : segs <> []) by (intros ->; apply Hroot; rewrite Eroot; reflexivity).
  assert (Hsplit : Js.split "/" root = "" :: segs).
  { rewrite Eroot. cbn [Js.split]. change (Ascii.eqb "/" "/") with true. cbv iota.
    rewrite split_join; [reflexivity|exact Hne|].
    eapply Forall_impl; [exact Hsegs|]. intros w [_ Hw]. exact Hw. }
  unfold Agent.resolvePathInWorkspace. fold root. cbv zeta.
  set (cleaned := Js.strip_leading_slashes filePath).
  assert (Hclean : ~ In ".." (Js.split "/" cleaned)).
  { intros H. apply Hno. apply split_strip_leading_slashes. exact H. }
  assert (Hres : Path.resolve cwd [root; cleaned]
                 = String "/" (Js.join "/" (segs ++ Path.segments cleaned))).
  { unfold Path.resolve. cbn [rev app Path.resolve_scan].
    assert (Habs : String.eqb root "" = false /\ Path.isAbsolute root = true)
      by (rewrite Eroot; split; reflexivity).
    destruct Habs as [Hr1 Hr2].
    destruct (strip_leading_slashes_spec filePath) as [E|[E1 E2]];
      fold cleaned in E || fold cleaned in E1, E2.
    - rewrite E. cbn [String.eqb]. rewrite Hr1, Hr2.
      change (root +:+ "/" +:+ "") with (root +:+ String "/" "").
      rewrite split_app, Hsplit. cbn [Js.split].
      rewrite normalize_segments_below; [reflexivity|exact Hsegs|].
      intros [H|[]]; discriminate H.
    - apply String.eqb_neq in E1. rewrite E1, E2, Hr1, Hr2.
      change (root +:+ "/" +:+ (cleaned +:+ "/" +:+ ""))
        with (root +:+ String "/" (cleaned +:+ String "/" "")).
      rewrite !split_app, Hsplit. cbn [Js.split].
      rewrite normalize_segments_below; [|exact Hsegs|].
      + rewrite normalize_segments_app. cbn [Path.normalize_segments String.eqb orb].
        rewrite rev_involutive. reflexivity.
      + intros H. apply in_app_or in H as [H|[H|[]]]; [exact (Hclean H)|discriminate H]. }
  rewrite Hres.
  rewrite (eq_trans (f_equal Path.segments Eroot) (segments_of_resolved segs Hsegs)).
  destruct (Path.segments cleaned) as [|c cs] eqn:Ec.
  - rewrite app_nil_r, <- Eroot, String.eqb_refl. cbn [negb andb].
    rewrite Eroot. reflexivity.
  - rewrite join_app by (exact Hne || discriminate).
    assert (Hp : Js.startsWith
                   (String "/" (Js.join "/" segs +:+ "/" +:+ Js.join "/" (c :: cs)))
                   (root +:+ Path.sep) = true).
    { unfold Js.startsWith. rewrite Eroot.
      change (String "/" (Js.join "/" segs +:+ "/" +:+ Js.join "/" (c :: cs)))
        with (String "/" (Js.join "/" segs) +:+ ("/" +:+ Js.join "/" (c :: cs))).
      rewrite <- append_assoc. apply prefix_self_append. }
    rewrite Hp. cbn [negb]. rewrite andb_false_r. reflexivity.
Qed.

Section EngineFacts.

Variable CONTEXT_BUDGET : Z.
Variable SWARM_MAX_WORKERS : Z.
Variable runTool :
  string -> list (string * json) -> Tools.Ctx -> gmap string string -> gmap string string * result json.
Variable executeToolAction : string -> list (string * json) -> nat -> Agent.World -> Agent.World * Agent.ToolFlow.

Let run_loop := Agent.run_loop CONTEXT_BUDGET SWARM_MAX_WORKERS runTool executeToolAction.
Let dispatch := Agent.dispatch SWARM_MAX_WORKERS runTool executeToolAction.

(** The stop endpoint raises the flag of a registered session and nothing
    else. *)
Lemma stop_agent_sets_flag (sid : string) (a : nat) (st : Agent.State) (w : Agent.World) :
  Agent.activeAgents w !! sid = Some a -> Agent.objects w !! a = Some st ->
  let w1 := fst (Agent.stop_agent sid w) in
  snd (Agent.stop_agent sid w) = true /\
  Agent.objects w1 !! a = Some (Agent.set_stopRequested true st) /\
  Agent.activeAgents w1 = Agent.activeAgents w /\ Agent.sent w1 = Agent.sent w.
Proof.
  intros Hreg Hobj. unfold Agent.stop_agent. rewrite Hreg. cbn.
  repeat split. rewrite lookup_alter_eq, Hobj. reflexivity.
Qed.

(** C2 (amended). When the stop-requested flag of a session is set as its
    run reaches a step boundary below the step cap, the run ends there,
    whatever the model would have answered: it saves a context checkpoint
    (when the session has a workspace root), sends exactly one further
    event, the final "Agent stopped by user.", and clears the flag; the
    session stays in the registry of active sessions. *)
Theorem stop_requested_ends_run_at_step_boundary
    (closing : option ContextManager.LlmReply) (turns : list Agent.Turn)
    (resolvedModel : option string) (maxSteps : Z)
    (sid : string) (a : nat) (st : Agent.State) (w : Agent.World) :
  Agent.activeAgents w !! sid = Some a ->
  Agent.objects w !! a = Some st ->
  Agent.stopRequested st = true ->
  Agent.step st < maxSteps ->
  let w' := fst (run_loop closing turns resolvedModel maxSteps a w) in
  snd (run_loop closing turns resolvedModel maxSteps a w) = Agent.Finished /\
  run_loop closing turns resolvedModel maxSteps a w
  = run_loop closing [] resolvedModel maxSteps a w /\
  Agent.sent w' = Agent.sent w ++ [Agent.SentFinal "Agent stopped by user."] /\
  Agent.effects w'
  = Agent.effects w
    ++ (if String.eqb (Agent.workspaceRoot st) "" then []
        else [Agent.SavedCheckpoint (Agent.sessionId st) (Agent.step st)]) /\
  Agent.objects w' !! a = Some (Agent.set_stopRequested false st) /\
  Agent.activeAgents w' !! sid = Some a /\
  Agent.activeAgents w' = Agent.activeAgents w.
Proof.
  intros Hreg Hobj Hstop Hstep. subst run_loop. cbv zeta.
  apply Z.ltb_lt in Hstep.
  assert (Hrun : forall ts,
             Agent.run_loop CONTEXT_BUDGET SWARM_MAX_WORKERS runTool executeToolAction
               closing ts resolvedModel maxSteps a w
             = (Agent.store a (Agent.set_stopRequested false st)
                  (Agent.send (Agent.SentFinal "Agent stopped by user.")
                     (Agent.saveContextCheckpoint st w)), Agent.Finished)).
  { intros ts. destruct ts; simpl; rewrite Hobj, Hstep, Hstop; reflexivity. }
  rewrite (Hrun turns), (Hrun []).
  unfold Agent.saveContextCheckpoint.
  destruct (String.eqb (Agent.workspaceRoot st) ""); cbn.
  - rewrite app_nil_r.
    repeat split; [apply lookup_insert_eq | exact Hreg].
  - repeat split; [apply lookup_insert_eq | exact Hreg].
Qed.

(** C8 (amended). When a final directive is parsed, the session's counter
    of consecutive finals is incremented; if planned tasks remain (the total
    is positive and exceeds the completed count) and that counter is at most
    2, the engine pushes a user-role nudge asking to continue, and the run
    goes on with the session still registered and nothing saved; in every
    other case it saves a checkpoint and the conversation (and, when the
    conversation holds more than six messages, its compacted copy and the
    persisted summary), removes the session from the registry and ends the
    run. *)
Theorem final_is_nudged_while_planned_tasks_remain
    (t : Agent.Turn) (c : string) (a : nat) (st : Agent.State) (w : Agent.World) :
  Agent.workspaceRoot st <> "" ->
  let w' := fst (dispatch t (Agent.final c) a st w) in
  let flow := snd (dispatch t (Agent.final c) a st w) in
  let said := mkMessage Assistant (Json.stringify (Agent.directive_json (Agent.final c))) in
  let finals := Agent.consecutiveFinals st + 1 in
  if (0 <? Agent.totalTasks st) && (Agent.completedTasks st <? Agent.totalTasks st)
     && (finals <=? 2)
  then
    flow = Agent.Continue /\
    Agent.messages <$> Agent.objects w' !! a
    = Some (Agent.messages st
            ++ [said; mkMessage User (Agent.TASKS_REMAIN (Agent.completedTasks st) (Agent.totalTasks st))]) /\
    Agent.consecutiveFinals <$> Agent.objects w' !! a = Some finals /\
    Agent.activeAgents w' = Agent.activeAgents w /\
    Agent.effects w' = Agent.effects w
  else
    flow = Agent.Return /\
    Agent.effects w'
    = Agent.effects w
      ++ [Agent.SavedCheckpoint (Agent.sessionId st) (Agent.step st);
          Agent.SavedConversation (Agent.sessionId st)]
      ++ (if 6 <? Z.of_nat (length (Agent.messages st ++ [said]))
          then [Agent.SavedConversation (Agent.sessionId st +:+ "_compact");
                Agent.SavedSummary (Agent.sessionId st)]
          else []) /\
    Agent.activeAgents w' = delete (Agent.sessionId st) (Agent.activeAgents w) /\
    Agent.sent w' = Agent.sent w ++ [Agent.SentFinal c].
Proof.
  intros Hroot. subst dispatch. cbv zeta.
  unfold Agent.dispatch. cbn beta iota zeta. cbn [Agent.event_of].
  unfold Agent.handle_final. cbn [Agent.totalTasks Agent.completedTasks Agent.consecutiveFinals
    Agent.set_consecutiveFinals Agent.push Agent.set_messages].
  destruct ((0 <? Agent.totalTasks st) && (Agent.completedTasks st <? Agent.totalTasks st)
            && (Agent.consecutiveFinals st + 1 <=? 2)) eqn:E.
  - cbn. rewrite lookup_insert_eq. cbn. rewrite <- app_assoc. repeat split.
  - cbn [fst snd].
    match goal with
    | |- context [Agent.autoSaveWithSummary ?l ?s ?x] =>
        pose proof (autoSaveWithSummary_effects l s x) as (He & Hr & _ & Hs & _)
    end.
    cbn [Agent.effects Agent.activeAgents Agent.sent Agent.set_activeAgents].
    rewrite He, Hr, Hs. clear He Hr Hs.
    unfold Agent.saveContextCheckpoint.
    cbn [Agent.workspaceRoot Agent.sessionId Agent.step Agent.messages
         Agent.set_consecutiveFinals Agent.push Agent.set_messages].
    destruct (String.eqb (Agent.workspaceRoot st) "") eqn:Er;
      [apply String.eqb_eq in Er; contradiction|].
    unfold Agent.record, Agent.store, Agent.send, Agent.set_objects.
    cbn [Agent.effects Agent.activeAgents Agent.sent].
    rewrite <- ?app_assoc. cbn [app].
    split; [reflexivity|]. split; [reflexivity|]. split; reflexivity.
Qed.

Lemma dispatch_delegate_agent_mode
    (t : Agent.Turn) (tasks : list Agent.SwarmTask) (a : nat) (st : Agent.State) (w : Agent.World) :
  Agent.agentPlus st = false ->
  dispatch t (Agent.delegate tasks) a st w
  = Agent.thought_only a
      (Agent.push (mkMessage Assistant (Json.stringify (Agent.directive_json (Agent.delegate tasks)))) st)
      (Agent.send (Agent.SentDelegate tasks) w).
Proof.
  intros Hmode. subst dispatch. unfold Agent.dispatch. rewrite Hmode.
  destruct tasks; reflexivity.
Qed.

(** C9 (amended). In agent (non-plus) mode a parsed delegate directive
    starts no swarm, runs no tool and touches no file or engine storage: it
    is echoed to the client and recorded as an assistant message, and the
    step ends as a thought-only step: the counter of steps without action
    is incremented, and the act-now user nudge is pushed only when that
    counter has reached 2; the loop continues. *)
Theorem delegate_in_agent_mode_is_a_thought_only_step
    (t : Agent.Turn) (tasks : list Agent.SwarmTask) (a : nat) (st : Agent.State) (w : Agent.World) :
  Agent.agentPlus st = false ->
  let w' := fst (dispatch t (Agent.delegate tasks) a st w) in
  let said := mkMessage Assistant (Json.stringify (Agent.directive_json (Agent.delegate tasks))) in
  let idle := Agent.consecutiveStepsWithoutAction st + 1 in
  snd (dispatch t (Agent.delegate tasks) a st w) = Agent.Continue /\
  Agent.sent w' = Agent.sent w ++ [Agent.SentDelegate tasks] /\
  Agent.fs w' = Agent.fs w /\
  Agent.effects w' = Agent.effects w /\
  Agent.activeAgents w' = Agent.activeAgents w /\
  Agent.messages <$> Agent.objects w' !! a
  = Some (Agent.messages st ++ said :: (if 2 <=? idle then [mkMessage User Agent.ACT_NOW] else [])) /\
  Agent.consecutiveStepsWithoutAction <$> Agent.objects w' !! a = Some idle.
Proof.
  intros Hmode. cbv zeta. rewrite dispatch_delegate_agent_mode by exact Hmode.
  unfold Agent.thought_only. cbn.
  rewrite lookup_insert_eq. cbn.
  destruct (2 <=? Agent.consecutiveStepsWithoutAction st + 1); cbn;
    rewrite <- ?app_assoc; repeat split.
Qed.

End EngineFacts.

Lemma stop_requested_ends_run_at_step_boundary_witness :
  let turns := [Scenario.read_turn_with_stop] in
  let w' := fst (Scenario.run_loop turns None 500 0%nat Scenario.stopped_world) in
  snd (Scenario.run_loop turns None 500 0%nat Scenario.stopped_world) = Agent.Finished /\
  Scenario.run_loop turns None 500 0%nat Scenario.stopped_world
  = Scenario.run_loop [] None 500 0%nat Scenario.stopped_world /\
  Agent.sent w' = Agent.sent Scenario.stopped_world ++ [Agent.SentFinal "Agent stopped by user."] /\
  Agent.effects w' = Agent.effects Scenario.stopped_world ++ [Agent.SavedCheckpoint "s1" 0] /\
  Agent.objects w' !! 0%nat
  = Some (Agent.set_stopRequested false (Agent.set_stopRequested true Scenario.session)) /\
  Agent.activeAgents w' !! "s1" = Some 0%nat /\
  Agent.activeAgents w' = Agent.activeAgents Scenario.stopped_world.
Proof.
  apply (stop_requested_ends_run_at_step_boundary
           Scenario.CONTEXT_BUDGET Scenario.SWARM_MAX_WORKERS Scenario.runTool
           Scenario.executeToolAction None [Scenario.read_turn_with_stop] None 500 "s1" 0%nat
           (Agent.set_stopRequested true Scenario.session) Scenario.stopped_world);
    vm_compute; reflexivity.
Defined.

(** C2 (as stated, refuted). After the stop endpoint has set the flag of
    session [s1], its run ends at the next step boundary with the one final
    event, and the session is still registered; and when the request is
    handled while a step awaits the model, the action of that step is still
    sent (and run) before the run stops. *)
Lemma stop_leaves_session_registered :
  let w' := fst (Scenario.run_loop [] None 500 0%nat Scenario.stopped_world) in
  let w'' := fst (Scenario.run_loop [Scenario.read_turn_with_stop] None 500 0%nat Scenario.world) in
  Agent.sent w' = [Agent.SentFinal "Agent stopped by user."] /\
  Agent.activeAgents w' !! "s1" <> None /\
  Agent.sent w''
  = [Agent.SentAction "read_file" [("path", JStr "src/a.ts")];
     Agent.SentObservation
       (JObj [("file", JStr "src/a.ts"); ("content", JStr "1|function foo() {}");
              ("totalLines", JNum 1)]);
     Agent.SentFinal "Agent stopped by user."].
Proof. vm_compute. repeat split; try reflexivity. discriminate. Qed.

Lemma final_is_nudged_while_planned_tasks_remain_witness :
  let d := Agent.final "All done." in
  let w' := fst (Scenario.dispatch (Scenario.turn d) d 0%nat Scenario.planned_session Scenario.world) in
  Agent.workspaceRoot Scenario.planned_session <> "" /\
  snd (Scenario.dispatch (Scenario.turn d) d 0%nat Scenario.planned_session Scenario.world)
  = Agent.Continue /\
  Agent.messages <$> Agent.objects w' !! 0%nat
  = Some (Agent.messages Scenario.planned_session
          ++ [mkMessage Assistant (Json.stringify (Agent.directive_json d));
              mkMessage User (Agent.TASKS_REMAIN 1 3)]) /\
  Agent.consecutiveFinals <$> Agent.objects w' !! 0%nat = Some 1 /\
  Agent.activeAgents w' = Agent.activeAgents Scenario.world /\
  Agent.effects w' = Agent.effects Scenario.world.
Proof.
  split; [discriminate|].
  exact (final_is_nudged_while_planned_tasks_remain
           Scenario.SWARM_MAX_WORKERS Scenario.runTool Scenario.executeToolAction
           (Scenario.turn (Agent.final "All done.")) "All done." 0%nat
           Scenario.planned_session Scenario.world ltac:(discriminate)).
Defined.

(** C8 (as stated, refuted). A final parsed in a session with no plan ends
    the run: the checkpoint and the conversation are saved and the session
    is removed, but the conversation has three messages and no summary is
    persisted. *)
Lemma final_of_short_session_persists_no_summary :
  let d := Agent.final "Done." in
  let w' := fst (Scenario.dispatch (Scenario.turn d) d 0%nat Scenario.session Scenario.world) in
  snd (Scenario.dispatch (Scenario.turn d) d 0%nat Scenario.session Scenario.world) = Agent.Return /\
  Agent.activeAgents w' !! "s1" = None /\
  Agent.effects w' = [Agent.SavedCheckpoint "s1" 0; Agent.SavedConversation "s1"] /\
  ~ In (Agent.SavedSummary "s1") (Agent.effects w').
Proof.
  vm_compute. repeat split; try reflexivity.
  intros [H|[H|[]]]; discriminate H.
Qed.

Lemma delegate_in_agent_mode_is_a_thought_only_step_witness :
  let d := Agent.delegate [Agent.mkSwarmTask "write the tests" None] in
  let w' := fst (Scenario.dispatch (Scenario.turn d) d 0%nat Scenario.session Scenario.world) in
  Agent.agentPlus Scenario.session = false /\
  snd (Scenario.dispatch (Scenario.turn d) d 0%nat Scenario.session Scenario.world) = Agent.Continue /\
  Agent.sent w' = [Agent.SentDelegate [Agent.mkSwarmTask "write the tests" None]] /\
  Agent.fs w' = Agent.fs Scenario.world /\
  Agent.effects w' = [] /\
  Agent.activeAgents w' = Agent.activeAgents Scenario.world.
Proof.
  pose proof (delegate_in_agent_mode_is_a_thought_only_step
                Scenario.SWARM_MAX_WORKERS Scenario.runTool Scenario.executeToolAction
                (Scenario.turn (Agent.delegate [Agent.mkSwarmTask "write the tests" None]))
                [Agent.mkSwarmTask "write the tests" None] 0%nat
                Scenario.session Scenario.world eq_refl) as (H1 & H2 & H3 & H4 & H5 & _).
  repeat split; assumption.
Defined.

(** C9 (as stated, refuted). The first delegate directive of an agent-mode
    run adds one assistant message and no user message: no nudge is
    injected. *)
Lemma delegate_in_agent_mode_gets_no_nudge_at_first :
  let d := Agent.delegate [Agent.mkSwarmTask "write the tests" None] in
  let w' := fst (Scenario.dispatch (Scenario.turn d) d 0%nat Scenario.session Scenario.world) in
  Agent.agentPlus Scenario.session = false /\
  Agent.messages <$> Agent.objects w' !! 0%nat
  = Some (Agent.messages Scenario.session
          ++ [mkMessage Assistant (Json.stringify (Agent.directive_json d))]) /\
  ~ (exists text, Agent.messages <$> Agent.objects w' !! 0%nat
                  = Some (Agent.messages Scenario.session
                          ++ [mkMessage Assistant (Json.stringify (Agent.directive_json d));
                              mkMessage User text])).
Proof.
  vm_compute. repeat split; try reflexivity. intros [text H]. discriminate H.
Qed.

(** ** Compaction ([compactConversation]) *)




(** ** Reading files ([read_file]) *)




(** ** Tool-result truncation ([truncateToolResult]) *)

Lemma get_set_eq (k : string) (v : json) (fs : list (string * json)) :
  Json.get k (Json.set k v fs) = Some v.
Proof.
  induction fs as [|[k' v'] fs IH]; cbn.
  - rewrite String.eqb_refl. reflexivity.
  - destruct (String.eqb k' k) eqn:E; cbn.
    + rewrite String.eqb_refl. reflexivity.
    + rewrite E. exact IH.
Qed.

Lemma get_set_ne (k k' : string) (v : json) (fs : list (string * json)) :
  k <> k' -> Json.get k (Json.set k' v fs) = Json.get k fs.
Proof.
  intros Hne. induction fs as [|[k0 v0] fs IH]; cbn.
  - destruct (String.eqb k' k) eqn:E; [apply String.eqb_eq in E; congruence|reflexivity].
  - destruct (String.eqb k0 k') eqn:E0; cbn.
    + apply String.eqb_eq in E0. subst k0.
      destruct (String.eqb k' k) eqn:E; [apply String.eqb_eq in E; congruence|reflexivity].
    + destruct (String.eqb k0 k); [reflexivity|exact IH].
Qed.

Lemma truncate_string_field_other (k k' : string) (limit : Z) (fs : list (string * json)) :
  k <> k' ->
  Json.get k (ContextManager.truncate_string_field k' limit fs) = Json.get k fs.
Proof.
  intros Hne. unfold ContextManager.truncate_string_field.
  destruct (Json.get k' fs) as [[| | |c| |]|]; try reflexivity.
  destruct (limit <? Js.len c); [apply get_set_ne; exact Hne|reflexivity].
Qed.

Lemma truncate_string_field_same (k : string) (limit : Z) (fs : list (string * json)) (c : string) :
  5 <= limit < 2 ^ 52 ->
  (forall s, Json.get k fs = Some (JStr s) -> Js.len s < 2 ^ 53) ->
  Json.get k (ContextManager.truncate_string_field k limit fs) = Some (JStr c) ->
  Js.len c <= Z.max limit (ContextManager.headSize limit + ContextManager.tailSize limit + 49).
Proof.
  intros Hlim Hbound. unfold ContextManager.truncate_string_field.
  destruct (Json.get k fs) as [[| | |s| |]|] eqn:E; rewrite ?E; try discriminate.
  destruct (limit <? Js.len s) eqn:El.
  - rewrite get_set_eq. intros [= <-]. apply Z.ltb_lt in El.
    pose proof (smartTruncate_length s limit Hlim El) as H.
    specialize (Hbound s eq_refl).
    change (2 ^ 53) with 9007199254740992 in Hbound.
    change (10 ^ 16) with 10000000000000000 in H.
    specialize (H ltac:(lia)). lia.
  - rewrite E. intros [= <-]. apply Z.ltb_ge in El. lia.
Qed.

Lemma truncate_files_other (k : string) (fs : list (string * json)) :
  k <> "files" -> Json.get k (ContextManager.truncate_files fs) = Json.get k fs.
Proof.
  intros Hne. unfold ContextManager.truncate_files.
  destruct (Json.get "files" fs) as [[| | | |xs|]|]; try reflexivity.
  destruct (80 <? Z.of_nat (length xs)); [apply get_set_ne; exact Hne|reflexivity].
Qed.

Lemma truncate_files_same (fs : list (string * json)) (xs : list json) :
  Json.get "files" (ContextManager.truncate_files fs) = Some (JArr xs) -> (length xs <= 81)%nat.
Proof.
  unfold ContextManager.truncate_files.
  destruct (Json.get "files" fs) as [[| | | |ys|]|] eqn:E; rewrite ?E; try discriminate.
  destruct (80 <? Z.of_nat (length ys)) eqn:El.
  - rewrite get_set_eq. intros [= <-]. rewrite length_app, length_firstn. cbn [length]. lia.
  - rewrite E. intros [= <-]. apply Z.ltb_ge in El. lia.
Qed.

Lemma truncate_matches_other (k : string) (fs : list (string * json)) :
  k <> "matches" -> k <> "truncated" ->
  Json.get k (ContextManager.truncate_matches fs) = Json.get k fs.
Proof.
  intros Hm Ht. unfold ContextManager.truncate_matches.
  destruct (Json.get "matches" fs) as [[| | | |xs|]|]; try reflexivity.
  destruct (30 <? Z.of_nat (length xs)); [|reflexivity].
  rewrite get_set_ne by exact Ht. apply get_set_ne; exact Hm.
Qed.

Lemma truncate_matches_same (fs : list (string * json)) (xs : list json) :
  Json.get "matches" (ContextManager.truncate_matches fs) = Some (JArr xs) ->
  (length xs <= 30)%nat /\
  forall original,
    Json.get "matches" fs = Some (JArr original) -> (30 < length original)%nat ->
    xs = firstn 30 original /\
    Json.get "truncated" (ContextManager.truncate_matches fs)
    = Some (JStr ("Showing 30 of " +:+ Js.of_int (Z.of_nat (length original)) +:+ " matches")).
Proof.
  unfold ContextManager.truncate_matches.
  destruct (Json.get "matches" fs) as [[| | | |ys|]|] eqn:E; rewrite ?E; try discriminate.
  destruct (30 <? Z.of_nat (length ys)) eqn:El.
  - rewrite get_set_ne by discriminate. rewrite get_set_eq. intros [= <-].
    split; [rewrite length_firstn; lia|].
    intros original [= <-] _. split; [reflexivity|]. apply get_set_eq.
  - rewrite E. intros [= <-]. apply Z.ltb_ge in El. split; [lia|].
    intros original [= <-] Hbig. lia.
Qed.

(** A result whose serialisation (or, for a string, whose text) has at most
    3000 characters is returned as it is. *)
Lemma truncateToolResult_small (result : json) :
  Js.len (match result with JStr t => t | _ => Json.stringify result end)
  <= ContextManager.MAX_TOOL_RESULT_CHARS ->
  ContextManager.truncateToolResult result = result.
Proof.
  intros H. unfold ContextManager.truncateToolResult.
  destruct (negb (Json.truthy result)); [reflexivity|].
  apply Z.leb_le in H. rewrite H. reflexivity.
Qed.

(** C5 (amended). For a tool result that is an object whose serialisation
    exceeds 3000 characters (its string fields shorter than [2 ^ 53]),
    [truncateToolResult] truncates the well-known fields of a copy; it
    returns that copy when its serialisation has at most 3500 characters,
    and otherwise the smart truncation to 3000 of that serialisation, a
    string.  In the copy a string [content] has at most 4000 characters, a
    string [stdout] at most 2000, a string [stderr] at most 1000, an array
    [files] at most 81 items (the first 80 and a note), and an array
    [matches] at most 30 items, with the original count recorded in
    [truncated] when matches were dropped. *)
Theorem truncateToolResult_object
    (fields : list (string * json)) :
  ContextManager.MAX_TOOL_RESULT_CHARS < Js.len (Json.stringify (JObj fields)) ->
  (forall k s, Json.get k fields = Some (JStr s) -> Js.len s < 2 ^ 53) ->
  let clone := ContextManager.truncate_fields fields in
  ContextManager.truncateToolResult (JObj fields)
  = (if Js.len (Json.stringify (JObj clone)) <=? 3500 then JObj clone
     else JStr (ContextManager.smartTruncate (Json.stringify (JObj clone)) 3000)) /\
  (forall c, Json.get "content" clone = Some (JStr c) -> Js.len c <= 4000) /\
  (forall c, Json.get "stdout" clone = Some (JStr c) -> Js.len c <= 2000) /\
  (forall c, Json.get "stderr" clone = Some (JStr c) -> Js.len c <= 1000) /\
  (forall xs, Json.get "files" clone = Some (JArr xs) -> (length xs <= 81)%nat) /\
  (forall xs, Json.get "matches" clone = Some (JArr xs) ->
     (length xs <= 30)%nat /\
     forall original,
       Json.get "matches" fields = Some (JArr original) -> (30 < length original)%nat ->
       Json.get "truncated" clone
       = Some (JStr ("Showing 30 of " +:+ Js.of_int (Z.of_nat (length original)) +:+ " matches"))).
Proof.
  intros Hbig Hbound clone.
  assert (Hh : ContextManager.headSize 4000 = 2800 /\ ContextManager.tailSize 4000 = 800 /\
               ContextManager.headSize 2000 = 1400 /\ ContextManager.tailSize 2000 = 400 /\
               ContextManager.headSize 1000 = 700 /\ ContextManager.tailSize 1000 = 200)
    by (vm_compute; repeat split; reflexivity).
  destruct Hh as (H4h & H4t & H2h & H2t & H1h & H1t).
  change (2 ^ 52) with 4503599627370496 in *.
  split; [|split; [|split; [|split; [|split]]]].
  - unfold ContextManager.truncateToolResult. cbn [Json.truthy negb Json.spread].
    apply Z.leb_gt in Hbig. rewrite Hbig. cbv zeta. fold clone.
    change (ContextManager.MAX_TOOL_RESULT_CHARS + 500) with 3500.
    change ContextManager.MAX_TOOL_RESULT_CHARS with 3000. reflexivity.
  - intros c Hc. subst clone. unfold ContextManager.truncate_fields in Hc.
    rewrite truncate_matches_other, truncate_files_other in Hc by discriminate.
    rewrite (truncate_string_field_other "content" "stderr"),
      (truncate_string_field_other "content" "stdout") in Hc by discriminate.
    apply truncate_string_field_same in Hc;
      [ unfold ContextManager.MAX_FILE_CONTENT_CHARS in Hc; rewrite H4h, H4t in Hc; lia
      | unfold ContextManager.MAX_FILE_CONTENT_CHARS; change (2 ^ 52) with 4503599627370496; lia
      | intros s Hs; exact (Hbound _ _ Hs) ].
  - intros c Hc. subst clone. unfold ContextManager.truncate_fields in Hc.
    rewrite truncate_matches_other, truncate_files_other in Hc by discriminate.
    rewrite (truncate_string_field_other "stdout" "stderr") in Hc by discriminate.
    apply truncate_string_field_same in Hc;
      [ rewrite H2h, H2t in Hc; lia
      | change (2 ^ 52) with 4503599627370496; lia
      | intros s Hs; rewrite (truncate_string_field_other "stdout" "content") in Hs by discriminate;
        exact (Hbound _ _ Hs) ].
  - intros c Hc. subst clone. unfold ContextManager.truncate_fields in Hc.
    rewrite truncate_matches_other, truncate_files_other in Hc by discriminate.
    apply truncate_string_field_same in Hc;
      [ rewrite H1h, H1t in Hc; lia
      | change (2 ^ 52) with 4503599627370496; lia
      | intros s Hs;
        rewrite (truncate_string_field_other "stderr" "stdout"),
          (truncate_string_field_other "stderr" "content") in Hs by discriminate;
        exact (Hbound _ _ Hs) ].
  - intros xs Hxs. subst clone. unfold ContextManager.truncate_fields in Hxs.
    rewrite truncate_matches_other in Hxs by discriminate.
    exact (truncate_files_same _ _ Hxs).
  - intros xs Hxs. subst clone. unfold ContextManager.truncate_fields in *.
    apply truncate_matches_same in Hxs. destruct Hxs as [Hlen Hnote].
    split; [exact Hlen|].
    intros original Horig Hmany.
    apply (Hnote original); [|exact Hmany].
    rewrite truncate_files_other by discriminate.
    rewrite (truncate_string_field_other "matches" "stderr"),
      (truncate_string_field_other "matches" "stdout"),
      (truncate_string_field_other "matches" "content") by discriminate.
    exact Horig.
Qed.

Lemma truncateToolResult_object_witness :
  let fields := [("stdout", JStr (Scenario.letters 5000)); ("exitCode", JNum 0)] in
  ContextManager.MAX_TOOL_RESULT_CHARS < Js.len (Json.stringify (JObj fields)) /\
  forall c,
    Json.get "stdout" (ContextManager.truncate_fields fields) = Some (JStr c) -> Js.len c <= 2000.
Proof.
  split; [vm_compute; reflexivity|].
  pose proof (truncateToolResult_object
                [("stdout", JStr (Scenario.letters 5000)); ("exitCode", JNum 0)]) as H.
  apply H.
  - vm_compute. reflexivity.
  - intros k s. cbn [Json.get].
    destruct (String.eqb "stdout" k).
    + intros [= <-]. vm_compute. reflexivity.
    + destruct (String.eqb "exitCode" k); discriminate.
Defined.

(** C5 (as stated, refuted). An object with 1000 files serialises to more
    than 3000 characters; the object returned has 81 items in [files], the
    first 80 and a note.  And an object that still serialises to more than
    3500 characters after the field truncations is returned as a string. *)
Lemma truncateToolResult_keeps_81_files :
  let listing := JObj [("files", JArr (repeat (JStr "f") 1000))] in
  let blob := JObj [("data", JStr (Scenario.letters 5000))] in
  ContextManager.MAX_TOOL_RESULT_CHARS < Js.len (Json.stringify listing) /\
  (exists clone files,
     ContextManager.truncateToolResult listing = JObj clone /\
     Json.get "files" clone = Some (JArr files) /\ length files = 81%nat) /\
  ContextManager.MAX_TOOL_RESULT_CHARS < Js.len (Json.stringify blob) /\
  (exists text, ContextManager.truncateToolResult blob = JStr text).
Proof.
  cbv zeta. split; [vm_compute; reflexivity|]. split.
  { eexists _, _. split; [vm_compute; reflexivity|].
    split; [vm_compute; reflexivity|]. vm_compute. reflexivity. }
  split; [vm_compute; reflexivity|].
  eexists. vm_compute. reflexivity.
Qed.

(** ** Trimming to the budget ([trimForContextWindow]) *)

Lemma role_tokens_le_3 (r : Role) : 0 <= ContextManager.estimateTokens (role_name r) <= 3.
Proof. destruct r; vm_compute; split; discriminate. Qed.

Lemma estimateMessagesTokens_fold (msgs : list Message) (acc : Z) :
  fold_left
    (fun total m => total + 4 + ContextManager.estimateTokens (role_name (role m))
                    + ContextManager.estimateTokens (content m))
    msgs acc
  <= acc + ContextManager.content_tokens msgs + 3 * Z.of_nat (length msgs).
Proof.
  revert acc. induction msgs as [|m msgs IH]; intros acc; cbn [fold_left].
  - cbn. lia.
  - etransitivity; [apply IH|].
    pose proof (role_tokens_le_3 (role m)).
    cbn [ContextManager.content_tokens fold_right length].
    fold (ContextManager.content_tokens msgs). lia.
Qed.

(** The estimate counts the role of each message on top of what the trim
    loop counts: at most three tokens per message. *)
Lemma estimateMessagesTokens_le (msgs : list Message) :
  ContextManager.estimateMessagesTokens msgs
  <= ContextManager.content_tokens msgs + 3 * Z.of_nat (length msgs).
Proof.
  unfold ContextManager.estimateMessagesTokens.
  pose proof (estimateMessagesTokens_fold msgs 0). lia.
Qed.

(** The message the loop truncates fits what is left of the budget. *)
Lemma truncated_message_fits (text : string) (left : Z) :
  100 <= left < 2 ^ 48 -> Js.len text < 2 ^ 53 ->
  let remainingChars := F64.floor (F64.mul (F64.of_Z (left - 20)) ContextManager.CHARS_PER_TOKEN) in
  200 < remainingChars ->
  ContextManager.estimateTokens (ContextManager.smartTruncate text remainingChars) + 4 <= left.
Proof.
  intros Hleft Hlen. cbv zeta. unfold ContextManager.CHARS_PER_TOKEN.
  change (2 ^ 48) with 281474976710656 in Hleft.
  change (2 ^ 53) with 9007199254740992 in Hlen.
  pose proof (times_3_5_bounds (left - 20)) as Hr. cbv zeta in Hr.
  change (2 ^ 50) with 1125899906842624 in Hr.
  specialize (Hr ltac:(lia)).
  set (r := F64.floor (F64.mul (F64.of_Z (left - 20)) F64.c3_5)) in *.
  intros Hbig.
  assert (Hrange : 5 <= r < 2 ^ 52) by (change (2 ^ 52) with 4503599627370496; lia).
  destruct (Z_le_gt_dec (Js.len text) r) as [Hshort|Hlong].
  - rewrite smartTruncate_short by exact Hshort.
    pose proof (estimateTokens_bounds text) as Ht.
    change (2 ^ 53) with 9007199254740992 in Ht.
    change (2 ^ 52) with 4503599627370496 in *.
    specialize (Ht ltac:(lia)). lia.
  - pose proof (smartTruncate_length text r Hrange ltac:(lia)) as HL.
    change (10 ^ 16) with 10000000000000000 in HL.
    specialize (HL ltac:(lia)).
    pose proof (headSize_bounds r ltac:(lia)) as [Hh0 Hh].
    pose proof (tailSize_bounds r ltac:(lia)) as (Ht0 & Ht & _).
    pose proof (estimateTokens_bounds (ContextManager.smartTruncate text r)) as He.
    change (2 ^ 53) with 9007199254740992 in He.
    change (2 ^ 52) with 4503599627370496 in *.
    specialize (He ltac:(lia)). lia.
Qed.

(** The loop never keeps more than the available tokens. *)
Lemma trim_loop_within_available (available : Z) (newest_first : list Message) :
  available < 2 ^ 48 ->
  (forall m, In m newest_first -> Js.len (content m) < 2 ^ 53) ->
  forall (usedTokens : Z) (kept : list Message),
    0 <= usedTokens ->
    ContextManager.content_tokens kept <= usedTokens <= available ->
    ContextManager.content_tokens
      (ContextManager.trim_loop available newest_first usedTokens kept) <= available.
Proof.
  intros Hav. induction newest_first as [|m older IH]; intros Hlen usedTokens kept Hused Hkept.
  - cbn [ContextManager.trim_loop]. lia.
  - cbn [ContextManager.trim_loop].
    destruct (usedTokens + (ContextManager.estimateTokens (content m) + 4) <=? available) eqn:E1.
    + apply Z.leb_le in E1. apply IH.
      * intros m' Hm'. apply Hlen. right. exact Hm'.
      * pose proof (estimateTokens_bounds (content m) (Hlen m (or_introl eq_refl))). lia.
      * cbn [ContextManager.content_tokens fold_right].
        fold (ContextManager.content_tokens kept). lia.
    + destruct (usedTokens + 100 <=? available) eqn:E2; [|lia].
      apply Z.leb_le in E2.
      destruct (200 <? F64.floor (F64.mul (F64.of_Z (available - usedTokens - 20))
                                   ContextManager.CHARS_PER_TOKEN)) eqn:E3; [|lia].
      apply Z.ltb_lt in E3.
      cbn [ContextManager.content_tokens fold_right content].
      fold (ContextManager.content_tokens kept).
      pose proof (truncated_message_fits (content m) (available - usedTokens) ltac:(lia)
                    (Hlen m (or_introl eq_refl)) E3).
      lia.
Qed.

(** C3 (amended). For a list of more than two messages (contents shorter
    than [2 ^ 53]) and a budget that exceeds the system prompt's tokens by
    more than the 1024 reserved for the reply, [trimForContextWindow] keeps
    the system message and messages whose content tokens, plus four each,
    fit the budget left after the system prompt and the reserve.  Role
    tokens are not counted by the loop, so the estimate
    [estimateMessagesTokens] of the output is at most the budget minus 1020
    plus three per output message: at most the budget when the output has
    at most 340 messages. *)
Theorem trimForContextWindow_within_budget
    (system : Message) (rest : list Message) (maxTokens : Z) :
  (2 <= length rest)%nat ->
  0 < maxTokens < 2 ^ 48 ->
  ContextManager.estimateTokens (content system) + 1024 < maxTokens ->
  (forall m, In m (system :: rest) -> Js.len (content m) < 2 ^ 53) ->
  let out := ContextManager.trimForContextWindow (system :: rest) maxTokens in
  exists kept : list Message,
    out = system :: kept /\
    ContextManager.estimateTokens (content system) + ContextManager.content_tokens kept + 1024
    <= maxTokens /\
    ContextManager.estimateMessagesTokens out <= maxTokens - 1020 + 3 * Z.of_nat (length out).
Proof.
  intros Hmany Hbudget Hsys Hlen. cbv zeta.
  unfold ContextManager.trimForContextWindow.
  destruct (Z.of_nat (length (system :: rest)) <=? 2) eqn:E2.
  { apply Z.leb_le in E2. cbn [length] in E2. lia. }
  destruct (maxTokens =? 0) eqn:E0; [apply Z.eqb_eq in E0; lia|].
  destruct (maxTokens - ContextManager.estimateTokens (content system) - 1024 <=? 0) eqn:Ea.
  { apply Z.leb_le in Ea. lia. }
  set (available := maxTokens - ContextManager.estimateTokens (content system) - 1024).
  pose proof (estimateTokens_bounds (content system) (Hlen system (or_introl eq_refl))) as [Hs0 _].
  assert (Hkept : ContextManager.content_tokens
                    (ContextManager.trim_loop available (rev rest) 0 []) <= available).
  { apply trim_loop_within_available.
    - unfold available. lia.
    - intros m Hm. apply Hlen. right. apply in_rev. exact Hm.
    - lia.
    - cbn. unfold available. lia. }
  subst available.
  eexists. split; [reflexivity|]. split; [lia|].
  etransitivity; [apply estimateMessagesTokens_le|].
  cbn [ContextManager.content_tokens fold_right length].
  match goal with
  | |- context [fold_right _ 0 ?k] => fold (ContextManager.content_tokens k)
  end.
  lia.
Qed.

Lemma trimForContextWindow_within_budget_witness :
  let system := mkMessage System "You are IsoCode." in
  let rest := [mkMessage User "Rename foo to bar in src/a.ts"; mkMessage Assistant "thought 1";
               mkMessage Tool "observation 1"] in
  ContextManager.estimateTokens (content system) + 1024 < 16384 /\
  exists kept : list Message,
    ContextManager.trimForContextWindow (system :: rest) 16384 = system :: kept /\
    ContextManager.estimateTokens (content system) + ContextManager.content_tokens kept + 1024
    <= 16384 /\
    ContextManager.estimateMessagesTokens (ContextManager.trimForContextWindow (system :: rest) 16384)
    <= 16384 - 1020
       + 3 * Z.of_nat (length (ContextManager.trimForContextWindow (system :: rest) 16384)).
Proof.
  cbv zeta. split; [vm_compute; reflexivity|].
  apply (trimForContextWindow_within_budget
           (mkMessage System "You are IsoCode.")
           [mkMessage User "Rename foo to bar in src/a.ts"; mkMessage Assistant "thought 1";
            mkMessage Tool "observation 1"] 16384).
  - cbn. lia.
  - split; vm_compute; reflexivity.
  - vm_compute. reflexivity.
  - intros m [<-|[<-|[<-|[<-|[]]]]]; vm_compute; reflexivity.
Defined.

(** C3 (as stated, refuted). The estimate of the output exceeds the budget:
    for a list of two messages, which is returned as it is; for a system
    prompt that leaves nothing of the budget, where the last message is
    kept whole; and for 744 empty messages under a budget of 4000, whose
    roles the loop does not count. *)
Lemma trimForContextWindow_exceeds_budget :
  let pair := [mkMessage System "You are IsoCode."; mkMessage User "Rename foo to bar in src/a.ts"] in
  let tight := [mkMessage System "You are IsoCode."; mkMessage User "hello";
                mkMessage User (Scenario.letters 4000)] in
  let crowd := mkMessage System "" :: Scenario.empty_messages 744 in
  5 < ContextManager.estimateMessagesTokens (ContextManager.trimForContextWindow pair 5) /\
  1000 < ContextManager.estimateMessagesTokens (ContextManager.trimForContextWindow tight 1000) /\
  4000 < ContextManager.estimateMessagesTokens (ContextManager.trimForContextWindow crowd 4000).
Proof. vm_compute. repeat split; reflexivity. Qed.

(** * Further properties *)

(** ** The context manager *)

(** [compactConversation] leaves a conversation of at most six messages as
    it is and reports [compacted = false]; from seven messages on it always
    compacts, to exactly six messages (the system message, the summary and
    the last four), and reports the number of messages it folded into the
    summary, five fewer than the input had. *)
Theorem compactConversation_compacts_from_seven_messages
    (msgs : list Message) (llm : option ContextManager.LlmReply) :
  let r := ContextManager.compactConversation msgs llm in
  if Z.of_nat (length msgs) <=? 6 then
    ContextManager.compacted r = false /\ ContextManager.messages r = msgs /\
    ContextManager.removedCount r = None
  else
    ContextManager.compacted r = true /\ length (ContextManager.messages r) = 6%nat /\
    ContextManager.removedCount r = Some (Z.of_nat (length msgs) - 5).
Proof.
  cbv zeta. unfold ContextManager.compactConversation.
  destruct (Z.of_nat (length msgs) <=? 3) eqn:E3.
  { apply Z.leb_le in E3. destruct (Z.of_nat (length msgs) <=? 6) eqn:E6;
      [repeat split|apply Z.leb_gt in E6; lia]. }
  apply Z.leb_gt in E3.
  destruct msgs as [|system rest]; [cbn in E3; lia|].
  cbn [length] in *.
  destruct (Z.of_nat (length (firstn (length rest - Nat.min 4 (length rest)) rest)) <? 2) eqn:E2.
  - apply Z.ltb_lt in E2. rewrite length_firstn in E2.
    destruct (Z.of_nat (S (length rest)) <=? 6) eqn:E6; [repeat split|].
    apply Z.leb_gt in E6. lia.
  - apply Z.ltb_ge in E2. rewrite length_firstn in E2.
    destruct (Z.of_nat (S (length rest)) <=? 6) eqn:E6; [apply Z.leb_le in E6; lia|].
    cbn [ContextManager.compacted ContextManager.messages ContextManager.removedCount length].
    rewrite length_skipn, length_firstn.
    split; [reflexivity|]. split; [lia|]. f_equal. lia.
Qed.

Lemma trim_loop_takes_the_newest (available : Z) (newest_first : list Message) (used : Z)
    (kept : list Message) :
  exists taken remaining : list Message,
    newest_first = taken ++ remaining /\
    (ContextManager.trim_loop available newest_first used kept = rev taken ++ kept \/
     exists (m : Message) (older : list Message) (n : Z),
       remaining = m :: older /\ 200 < n /\
       ContextManager.trim_loop available newest_first used kept
       = mkMessage (role m) (ContextManager.smartTruncate (content m) n) :: rev taken ++ kept).
Proof.
  revert used kept. induction newest_first as [|m older IH]; intros used kept.
  - exists [], []. split; [reflexivity|]. left. reflexivity.
  - cbn [ContextManager.trim_loop].
    destruct (used + (ContextManager.estimateTokens (content m) + 4) <=? available).
    + destruct (IH (used + (ContextManager.estimateTokens (content m) + 4)) (m :: kept))
        as (taken & remaining & -> & H).
      exists (m :: taken), remaining. split; [reflexivity|].
      cbn [rev]. rewrite <- !app_assoc. cbn [app].
      destruct H as [H|(m' & older' & n & -> & Hn & H)]; [left; exact H|].
      right. exists m', older', n. repeat split; assumption.
    + destruct (used + 100 <=? available).
      * destruct (200 <? _) eqn:E.
        -- exists [], (m :: older). split; [reflexivity|]. right.
           eexists m, older, _. split; [reflexivity|]. split; [|reflexivity].
           apply Z.ltb_lt in E. exact E.
        -- exists [], (m :: older). split; [reflexivity|]. left. reflexivity.
      * exists [], (m :: older). split; [reflexivity|]. left. reflexivity.
Qed.

(** When the budget leaves room after the system prompt and the reserve
    for the reply, [trimForContextWindow] of a conversation of more than two
    messages returns the system message followed by the newest messages of
    the conversation, in their order, with nothing dropped between them; the
    message just before them may be kept too, cut by [smartTruncate] to more
    than 200 characters. *)
Theorem trimForContextWindow_keeps_the_newest
    (system : Message) (rest : list Message) (maxTokens : Z) :
  (2 <= length rest)%nat ->
  ContextManager.estimateTokens (content system) + 1024
  < (if maxTokens =? 0 then 6000 else maxTokens) ->
  exists older newest : list Message,
    rest = older ++ newest /\
    (ContextManager.trimForContextWindow (system :: rest) maxTokens = system :: newest \/
     exists (m : Message) (before : list Message) (n : Z),
       older = before ++ [m] /\ 200 < n /\
       ContextManager.trimForContextWindow (system :: rest) maxTokens
       = system :: mkMessage (role m) (ContextManager.smartTruncate (content m) n) :: newest).
Proof.
  intros Hlen Hbudget. unfold ContextManager.trimForContextWindow.
  destruct (Z.of_nat (length (system :: rest)) <=? 2) eqn:E2.
  { apply Z.leb_le in E2. cbn [length] in E2. lia. }
  set (budget := if maxTokens =? 0 then 6000 else maxTokens) in *.
  destruct (budget - ContextManager.estimateTokens (content system) - 1024 <=? 0) eqn:Ea.
  { apply Z.leb_le in Ea. lia. }
  destruct (trim_loop_takes_the_newest
              (budget - ContextManager.estimateTokens (content system) - 1024) (rev rest) 0 [])
    as (taken & remaining & Hsplit & H).
  exists (rev remaining), (rev taken).
  split.
  { rewrite <- rev_app_distr, <- Hsplit, rev_involutive. reflexivity. }
  rewrite !app_nil_r in H.
  destruct H as [H|(m & older & n & -> & Hn & H)].
  - left. rewrite H. reflexivity.
  - right. exists m, (rev older), n. cbn [rev]. split; [reflexivity|]. split; [exact Hn|].
    rewrite H. reflexivity.
Qed.

Lemma content_tokens_app (a b : list Message) :
  ContextManager.content_tokens (a ++ b)
  = ContextManager.content_tokens a + ContextManager.content_tokens b.
Proof.
  unfold ContextManager.content_tokens. induction a as [|m a IH]; cbn [app fold_right]; lia.
Qed.

Lemma content_tokens_rev (l : list Message) :
  ContextManager.content_tokens (rev l) = ContextManager.content_tokens l.
Proof.
  induction l as [|m l IH]; [reflexivity|].
  cbn [rev]. rewrite content_tokens_app, IH. unfold ContextManager.content_tokens. cbn. lia.
Qed.

Lemma content_tokens_nonneg (l : list Message) :
  (forall m, In m l -> Js.len (content m) < 2 ^ 53) ->
  Z.of_nat (length l) * 4 <= ContextManager.content_tokens l.
Proof.
  induction l as [|m l IH]; intros H; [cbn; lia|].
  pose proof (estimateTokens_bounds (content m) (H m (or_introl eq_refl))) as [H0 _].
  specialize (IH (fun x Hx => H x (or_intror Hx))).
  unfold ContextManager.content_tokens in *. cbn [fold_right length]. lia.
Qed.

Lemma trim_loop_takes_all (available : Z) (newest_first : list Message) (used : Z)
    (kept : list Message) :
  (forall m, In m newest_first -> Js.len (content m) < 2 ^ 53) ->
  used + ContextManager.content_tokens newest_first <= available ->
  ContextManager.trim_loop available newest_first used kept = rev newest_first ++ kept.
Proof.
  revert used kept. induction newest_first as [|m older IH]; intros used kept Hlen Hfit.
  - reflexivity.
  - cbn [ContextManager.trim_loop].
    pose proof (content_tokens_nonneg older (fun x Hx => Hlen x (or_intror Hx))) as Hpos.
    assert (Hc : ContextManager.content_tokens (m :: older)
                 = ContextManager.estimateTokens (content m) + 4
                   + ContextManager.content_tokens older) by reflexivity.
    rewrite Hc in Hfit.
    destruct (used + (ContextManager.estimateTokens (content m) + 4) <=? available) eqn:E;
      [|apply Z.leb_gt in E; lia].
    rewrite IH; [|intros x Hx; apply Hlen; right; exact Hx|lia].
    cbn [rev]. rewrite <- app_assoc. reflexivity.
Qed.

(** A conversation that fits (the tokens of the system prompt, the content
    tokens of the other messages with four more for each, and the reserve of
    1024 are within the budget) is returned unchanged. *)
Theorem trimForContextWindow_unchanged_when_it_fits
    (system : Message) (rest : list Message) (maxTokens : Z) :
  (forall m, In m rest -> Js.len (content m) < 2 ^ 53) ->
  ContextManager.estimateTokens (content system) + ContextManager.content_tokens rest + 1024
  <= (if maxTokens =? 0 then 6000 else maxTokens) ->
  ContextManager.trimForContextWindow (system :: rest) maxTokens = system :: rest.
Proof.
  intros Hlen Hfit. unfold ContextManager.trimForContextWindow.
  destruct (Z.of_nat (length (system :: rest)) <=? 2) eqn:E2; [reflexivity|].
  apply Z.leb_gt in E2. cbn [length] in E2.
  pose proof (content_tokens_nonneg rest Hlen) as Hpos.
  set (budget := if maxTokens =? 0 then 6000 else maxTokens) in *.
  destruct (budget - ContextManager.estimateTokens (content system) - 1024 <=? 0) eqn:Ea.
  { apply Z.leb_le in Ea. lia. }
  rewrite trim_loop_takes_all.
  - rewrite rev_involutive, app_nil_r. reflexivity.
  - intros m Hm. apply Hlen. apply in_rev. exact Hm.
  - rewrite content_tokens_rev. lia.
Qed.

(** From a limit of 492 characters on, what [smartTruncate] returns has at
    most [maxChars] characters: the head, the separator and the tail
    together stay within the limit. *)
Theorem smartTruncate_within_limit (text : string) (maxChars : Z) :
  492 <= maxChars < 2 ^ 52 -> Js.len text < 10 ^ 16 ->
  Js.len (ContextManager.smartTruncate text maxChars) <= maxChars.
Proof.
  intros Hm Hbig.
  destruct (Js.len text <=? maxChars) eqn:E.
  - apply Z.leb_le in E. rewrite smartTruncate_short by exact E. exact E.
  - apply Z.leb_gt in E.
    pose proof (smartTruncate_length text maxChars ltac:(lia) E Hbig) as Hl.
    pose proof (headSize_bounds maxChars ltac:(lia)) as [_ Hh].
    pose proof (tailSize_bounds maxChars ltac:(lia)) as (_ & Ht & _).
    lia.
Qed.

Lemma trimForContextWindow_keeps_the_newest_witness :
  let system := mkMessage System "You are IsoCode." in
  let rest := [mkMessage User "Rename foo to bar in src/a.ts"; mkMessage Assistant "thought 1";
               mkMessage Tool "observation 1"] in
  (2 <= length rest)%nat /\
  exists older newest : list Message,
    rest = older ++ newest /\
    (ContextManager.trimForContextWindow (system :: rest) 16384 = system :: newest \/
     exists (m : Message) (before : list Message) (n : Z),
       older = before ++ [m] /\ 200 < n /\
       ContextManager.trimForContextWindow (system :: rest) 16384
       = system :: mkMessage (role m) (ContextManager.smartTruncate (content m) n) :: newest).
Proof.
  cbv zeta. split; [cbn; lia|].
  apply (trimForContextWindow_keeps_the_newest
           (mkMessage System "You are IsoCode.")
           [mkMessage User "Rename foo to bar in src/a.ts"; mkMessage Assistant "thought 1";
            mkMessage Tool "observation 1"] 16384).
  - cbn. lia.
  - vm_compute. reflexivity.
Defined.

Lemma trimForContextWindow_unchanged_when_it_fits_witness :
  let system := mkMessage System "You are IsoCode." in
  let rest := [mkMessage User "Rename foo to bar in src/a.ts"; mkMessage Assistant "thought 1";
               mkMessage Tool "observation 1"] in
  ContextManager.estimateTokens (content system) + ContextManager.content_tokens rest + 1024
  <= 16384 /\
  ContextManager.trimForContextWindow (system :: rest) 16384 = system :: rest.
Proof.
  cbv zeta. split; [vm_compute; discriminate|].
  apply (trimForContextWindow_unchanged_when_it_fits
           (mkMessage System "You are IsoCode.")
           [mkMessage User "Rename foo to bar in src/a.ts"; mkMessage Assistant "thought 1";
            mkMessage Tool "observation 1"] 16384).
  - intros m [<-|[<-|[<-|[]]]]; vm_compute; reflexivity.
  - vm_compute. discriminate.
Defined.

Lemma smartTruncate_within_limit_witness :
  Js.len (Scenario.letters 1000) = 1000 /\
  Js.len (ContextManager.smartTruncate (Scenario.letters 1000) 500) <= 500.
Proof.
  split; [vm_compute; reflexivity|].
  apply (smartTruncate_within_limit (Scenario.letters 1000) 500).
  - split; [lia|vm_compute; reflexivity].
  - vm_compute. reflexivity.
Defined.

(** ** Binary64 arithmetic of the estimates *)

(** A value with at most 53 significant bits is not changed by rounding. *)
Lemma rne_exact (a j e : Z) :
  0 < a < 2 ^ 53 -> 0 <= j ->
  exists sh : Z,
    0 <= sh <= j /\ F64.expo (F64.rne (a * 2 ^ j) e) = e + sh /\
    F64.mant (F64.rne (a * 2 ^ j) e) * 2 ^ sh = a * 2 ^ j.
Proof.
  intros [Ha0 Ha] Hj.
  pose proof (pow2_pos j Hj) as Hpj.
  assert (Hm : 0 < a * 2 ^ j) by nia.
  unfold F64.rne, F64.prec. rewrite (Z.abs_eq (a * 2 ^ j)) by lia.
  destruct (Z.log2 (a * 2 ^ j) + 1 <=? 53) eqn:Hbits.
  - exists 0. cbn [F64.expo F64.mant]. change (2 ^ 0) with 1. lia.
  - apply Z.leb_gt in Hbits.
    rewrite Z.log2_mul_pow2 in * by lia.
    assert (Hla : Z.log2 a < 53) by (apply Z.log2_lt_pow2; lia).
    set (sh := j + Z.log2 a + 1 - 53) in *.
    assert (Hsh : 0 < sh <= j) by (unfold sh; lia).
    exists sh. cbn [F64.expo F64.mant].
    rewrite Z.shiftr_div_pow2 by lia.
    rewrite (Z.sgn_pos _ Hm), Z.mul_1_l.
    pose proof (pow2_pos sh ltac:(lia)) as Hpsh.
    pose proof (pow2_pos (sh - 1) ltac:(lia)) as Hhalf.
    assert (Hdiv : a * 2 ^ j = (a * 2 ^ (j - sh)) * 2 ^ sh).
    { rewrite <- Z.mul_assoc, <- Z.pow_add_r by lia. f_equal. f_equal. lia. }
    assert (Hr : (a * 2 ^ j) mod 2 ^ sh = 0).
    { rewrite Hdiv. apply Z.mod_mul. lia. }
    rewrite Hr.
    assert (Hq : a * 2 ^ j / 2 ^ sh = a * 2 ^ (j - sh)).
    { rewrite Hdiv at 1. apply Z.div_mul. lia. }
    rewrite Hq.
    destruct (2 ^ (sh - 1) <? 0) eqn:E1; [apply Z.ltb_lt in E1; lia|].
    destruct (0 =? 2 ^ (sh - 1)) eqn:E2; [apply Z.eqb_eq in E2; lia|].
    cbn [orb andb]. split; [lia|]. split; [reflexivity|]. lia.
Qed.

Lemma c0_75_value : F64.c0_75 = F64.mk 6755399441055744 (-53).
Proof. vm_compute. reflexivity. Qed.

(** [n * 0.75 < t] on numbers is [3 * n < 4 * t]. *)
Lemma times_0_75_ltb (n t : Z) :
  0 < n < 2 ^ 51 -> 0 <= t < 2 ^ 53 ->
  F64.ltb (F64.mul (F64.of_Z n) F64.c0_75) (F64.of_Z t) = (3 * n <? 4 * t).
Proof.
  intros Hn Ht. rewrite !of_Z_exact by lia. rewrite c0_75_value.
  unfold F64.mul. cbn [F64.mant F64.expo]. change (0 + -53) with (-53).
  replace (n * 6755399441055744) with ((3 * n) * 2 ^ 51)
    by (change (2 ^ 51) with 2251799813685248; lia).
  change (2 ^ 51) with 2251799813685248 in Hn. change (2 ^ 53) with 9007199254740992 in Ht.
  destruct (rne_exact (3 * n) 51 (- 53)) as (sh & Hsh & He & Hv);
    [change (2 ^ 53) with 9007199254740992; lia|lia|].
  unfold F64.ltb. rewrite He. cbn [F64.mant F64.expo].
  set (q := F64.mant (F64.rne (3 * n * 2 ^ 51) (- 53))) in *.
  rewrite Z.min_l by lia. rewrite Z.sub_diag. change (2 ^ 0) with 1. rewrite Z.mul_1_r.
  replace (0 - (- 53 + sh)) with (53 - sh) by lia.
  pose proof (pow2_pos sh ltac:(lia)) as Hpsh.
  assert (H53 : 2 ^ (53 - sh) * 2 ^ sh = 4 * 2 ^ 51).
  { rewrite <- Z.pow_add_r by lia. replace (53 - sh + sh) with 53 by lia. reflexivity. }
  pose proof (pow2_pos 51 ltac:(lia)) as Hp51.
  destruct (3 * n <? 4 * t) eqn:E.
  - apply Z.ltb_lt in E. apply Z.ltb_lt. 
    apply (Z.mul_lt_mono_pos_r (2 ^ sh)); [lia|].
    rewrite Hv.
    replace (t * 2 ^ (53 - sh) * 2 ^ sh) with (t * (4 * 2 ^ 51)) by (rewrite <- H53; ring).
    nia.
  - apply Z.ltb_ge in E. apply Z.ltb_ge.
    apply (Z.mul_le_mono_pos_r _ _ (2 ^ sh)); [lia|].
    rewrite Hv.
    replace (t * 2 ^ (53 - sh) * 2 ^ sh) with (t * (4 * 2 ^ 51)) by (rewrite <- H53; ring).
    nia.
Qed.

(** [Math.ceil(n / 3.5)] is the ceiling of [2 n / 7]. *)
Lemma div_3_5_ceil (n : Z) :
  0 < n < 2 ^ 50 ->
  F64.ceil (F64.div (F64.of_Z n) F64.c3_5) = (2 * n + 6) / 7.
Proof.
  intros [H0 H].
  assert (H53 : n < 2 ^ 53).
  { change (2 ^ 50) with 1125899906842624 in H. change (2 ^ 53) with 9007199254740992. lia. }
  rewrite of_Z_exact by lia. rewrite c3_5_value.
  unfold F64.div. cbn [F64.mant F64.expo].
  change (Z.abs 7881299347898368) with 7881299347898368.
  change (Z.log2 7881299347898368) with 52.
  change (Z.sgn 7881299347898368) with 1.
  rewrite (Z.abs_eq n) by lia. rewrite (Z.sgn_pos n) by lia.
  destruct (n =? 0) eqn:En; [apply Z.eqb_eq in En; lia|]. clear En.
  cbn [orb Z.eqb].
  assert (Hlg : 0 <= Z.log2 n < 50).
  { split; [apply Z.log2_nonneg|apply Z.log2_lt_pow2; lia]. }
  rewrite Z.max_r by lia.
  set (k' := 58 - Z.log2 n).
  replace (56 + 52 - Z.log2 n) with (k' + 50) by (unfold k'; lia).
  replace (0 - -51 - (k' + 50) - 1) with (- k') by lia.
  assert (Hk' : 9 <= k') by (unfold k'; lia).
  rewrite Z.pow_add_r by lia.
  change (2 ^ 50) with 1125899906842624 in *.
  replace (n * (2 ^ k' * 1125899906842624)) with ((n * 2 ^ k') * 1125899906842624) by lia.
  change 7881299347898368 with (7 * 1125899906842624).
  rewrite Z.div_mul_cancel_r by lia.
  rewrite Z.mul_mod_distr_r by lia.
  set (P := 2 ^ k').
  assert (HP : 512 <= P).
  { unfold P. change 512 with (2 ^ 9). apply Z.pow_le_mono_r; lia. }
  assert (HnP : n * P < 2 ^ 59).
  { pose proof (Z.log2_spec n H0) as [_ Hup].
    replace 59 with (Z.succ (Z.log2 n) + k') by (unfold k'; lia).
    rewrite Z.pow_add_r by lia. fold P.
    apply Z.mul_lt_mono_pos_r; lia. }
  change (2 ^ 59) with 576460752303423488 in HnP.
  rewrite Z.mul_1_l.
  pose proof (Z.div_mod (2 * n + 6) 7 ltac:(lia)) as Hc.
  pose proof (Z.mod_pos_bound (2 * n + 6) 7 ltac:(lia)) as Hcr.
  set (c := (2 * n + 6) / 7) in *. set (s := (2 * n + 6) mod 7) in *.
  pose proof (Z.div_mod (n * P) 7 ltac:(lia)) as Hq.
  pose proof (Z.mod_pos_bound (n * P) 7 ltac:(lia)) as Hqr.
  set (q := n * P / 7) in *. set (r := (n * P) mod 7) in *.
  destruct (Z.eq_dec s 6) as [Hs|Hs].
  - (* 7 divides n: the quotient is exact *)
    assert (Hn : 2 * n = 7 * c) by lia.
    assert (HnP2 : 2 * (n * P) = 7 * (c * P)).
    { replace (2 * (n * P)) with ((2 * n) * P) by ring. rewrite Hn. ring. }
    assert (HqP : 2 * q = c * P /\ r = 0) by lia.
    destruct HqP as [HqP Hr0].
    destruct (r * 1125899906842624 =? 0) eqn:Est; [|apply Z.eqb_neq in Est; lia].
    rewrite Z.add_0_r, HqP. fold P. unfold P.
    destruct (rne_exact c k' (- k')) as (sh & Hsh & He & Hv);
      [change (2 ^ 53) with 9007199254740992; lia|lia|].
    unfold F64.ceil. rewrite He.
    set (m := F64.mant (F64.rne (c * 2 ^ k') (- k'))) in *.
    assert (Hk : k' = sh + (k' - sh)) by lia.
    pose proof (pow2_pos sh ltac:(lia)) as Hpsh.
    pose proof (pow2_pos (k' - sh) ltac:(lia)) as Hpd.
    assert (Hm : m = c * 2 ^ (k' - sh)).
    { apply (Z.mul_cancel_r _ _ (2 ^ sh)); [lia|].
      rewrite Hv, <- Z.mul_assoc, <- Z.pow_add_r by lia. f_equal. f_equal. lia. }
    destruct (0 <=? - k' + sh) eqn:E.
    + apply Z.leb_le in E. assert (sh = k') by lia. subst sh.
      replace (- k' + k') with 0 by lia. rewrite Z.sub_diag in Hm.
      change (2 ^ 0) with 1 in *. lia.
    + replace (- (- k' + sh)) with (k' - sh) by lia.
      rewrite Hm, <- Z.mul_opp_l, Z.div_mul by lia. lia.
  - (* otherwise the quotient is at least a seventh away from an integer *)
    assert (Hr : r <> 0).
    { intros Hr. rewrite Hr in Hq.
      assert (Hd : (7 | P * n)) by (exists q; lia).
      apply Z.gauss in Hd.
      - destruct Hd as [t Ht]. lia.
      - unfold P. apply Z.coprime_pow_r; [lia|]. reflexivity. }
    destruct (r * 1125899906842624 =? 0) eqn:Est; [apply Z.eqb_eq in Est; lia|].
    assert (HnPpos : 0 < n * P) by (apply Z.mul_pos_pos; lia).
    destruct (rne_fraction (2 * q + 1) k' ltac:(lia) ltac:(lia))
      as (V & HV & Hlo & Hhi & _ & Hce).
    rewrite Hce. fold P.
    change (2 ^ 53) with 9007199254740992 in *.
    assert (Hq58 : 2 * q + 1 < 288230376151711744) by lia.
    assert (HVlo : 2 * q + 1 - 31 <= V) by lia.
    assert (HVhi : V <= 2 * q + 1 + 31) by lia.
    set (A := (c - 1) * P).
    assert (HB : 2 * (n * P) = 7 * A + (1 + s) * P).
    { unfold A. replace (2 * (n * P)) with ((2 * n) * P) by ring.
      replace (2 * n) with (7 * (c - 1) + (1 + s)) by lia. ring. }
    assert (HB1 : 1 * P <= (1 + s) * P <= 6 * P).
    { split; apply Z.mul_le_mono_nonneg_r; lia. }
    assert (HA : A < V <= A + P) by lia.
    assert (Hdiv : - V / P = - c).
    { assert (HcP : c * P = A + P) by (unfold A; ring).
      symmetry. apply (Z.div_unique (- V) P (- c) (c * P - V)); [left; lia|].
      replace (P * - c) with (- (c * P)) by ring. lia. }
    rewrite Hdiv. lia.
Qed.

(** [estimateTokens(text)] is the ceiling of [length / 3.5], computed in
    binary64 without error: [ceil(2 * length / 7)]. *)
Theorem estimateTokens_is_the_ceiling (text : string) :
  Js.len text < 2 ^ 50 ->
  ContextManager.estimateTokens text = (2 * Js.len text + 6) / 7.
Proof.
  intros H. unfold ContextManager.estimateTokens.
  destruct text as [|c text]; [reflexivity|].
  cbn [String.eqb].
  apply div_3_5_ceil. split; [unfold Js.len; cbn [String.length]; lia|exact H].
Qed.

Lemma estimateTokens_is_the_ceiling_witness :
  Js.len "Rename foo to bar in src/a.ts" = 29 /\
  ContextManager.estimateTokens "Rename foo to bar in src/a.ts" = (2 * 29 + 6) / 7.
Proof.
  split; [reflexivity|].
  apply (estimateTokens_is_the_ceiling "Rename foo to bar in src/a.ts").
  vm_compute. reflexivity.
Defined.

Lemma estimateMessagesTokens_nonneg (msgs : list Message) :
  (forall m, In m msgs -> Js.len (content m) < 2 ^ 53) ->
  0 <= ContextManager.estimateMessagesTokens msgs.
Proof.
  intros Hlen. unfold ContextManager.estimateMessagesTokens.
  assert (H : forall acc, 0 <= acc ->
             0 <= fold_left
                    (fun total m => total + 4 + ContextManager.estimateTokens (role_name (role m))
                                    + ContextManager.estimateTokens (content m))
                    msgs acc).
  { induction msgs as [|m msgs IH]; intros acc Hacc; [exact Hacc|].
    cbn [fold_left]. apply IH.
    - intros x Hx. apply Hlen. right. exact Hx.
    - pose proof (role_tokens_le_3 (role m)).
      pose proof (estimateTokens_bounds (content m) (Hlen m (or_introl eq_refl))). lia. }
  apply H. lia.
Qed.

(** [shouldAutoCompact] fires exactly when the estimate exceeds three
    quarters of the budget (of 6000 when no budget is given): the product
    by 0.75 is exact in binary64. *)
Theorem shouldAutoCompact_at_three_quarters (msgs : list Message) (maxTokens : Z) :
  0 <= maxTokens < 2 ^ 51 ->
  (forall m, In m msgs -> Js.len (content m) < 2 ^ 53) ->
  ContextManager.estimateMessagesTokens msgs < 2 ^ 53 ->
  ContextManager.shouldAutoCompact msgs maxTokens
  = (3 * (if maxTokens =? 0 then 6000 else maxTokens)
     <? 4 * ContextManager.estimateMessagesTokens msgs).
Proof.
  intros Hmax Hlen Htok. unfold ContextManager.shouldAutoCompact. cbv zeta.
  pose proof (estimateMessagesTokens_nonneg msgs Hlen) as H0.
  apply times_0_75_ltb; [|lia].
  destruct (maxTokens =? 0) eqn:E; [vm_compute; split; reflexivity|].
  apply Z.eqb_neq in E. lia.
Qed.

Lemma shouldAutoCompact_at_three_quarters_witness :
  ContextManager.estimateMessagesTokens Scenario.conversation < 2 ^ 53 /\
  ContextManager.shouldAutoCompact Scenario.conversation 16384
  = (3 * 16384 <? 4 * ContextManager.estimateMessagesTokens Scenario.conversation).
Proof.
  split; [vm_compute; reflexivity|].
  apply (shouldAutoCompact_at_three_quarters Scenario.conversation 16384).
  - split; [lia|vm_compute; reflexivity].
  - intros m Hm. vm_compute in Hm.
    repeat (destruct Hm as [<-|Hm]; [vm_compute; reflexivity|]). destruct Hm.
  - vm_compute. reflexivity.
Defined.

(** ** Path confinement in the engine *)

Lemma resolvePathInWorkspace_accepts_paths_without_dotdot_witness :
  Path.resolve "/srv" ["/home/ws"] <> "/" /\
  ~ In ".." (Js.split "/" "/etc/passwd") /\
  Agent.resolvePathInWorkspace "/srv" "/home/ws" "/etc/passwd" = Ok "/home/ws/etc/passwd".
Proof.
  split; [vm_compute; discriminate|].
  split; [vm_compute; intros [H|[H|[H|[]]]]; discriminate H|].
  apply (resolvePathInWorkspace_accepts_paths_without_dotdot "/srv" "/home/ws" "/etc/passwd").
  - vm_compute. discriminate.
  - vm_compute. intros [H|[H|[H|[]]]]; discriminate H.
Defined.

Lemma is_prefix_app (xs ys : list string) : Path.is_prefix xs (xs ++ ys) = true.
Proof.
  induction xs as [|x xs IH]; [reflexivity|].
  cbn [app Path.is_prefix]. rewrite String.eqb_refl. exact IH.
Qed.

Lemma prefix_split (p s : string) :
  String.prefix p s = true -> exists rest, s = p +:+ rest.
Proof.
  revert s. induction p as [|c p IH]; intros s H.
  - exists s. reflexivity.
  - destruct s as [|c' s]; [discriminate|]. cbn in H.
    destruct (ascii_dec c c') as [->|]; [|discriminate].
    destruct (IH s H) as [rest ->]. exists rest. reflexivity.
Qed.

(** What [resolvePathInWorkspace] returns lies inside the workspace root. *)
Theorem resolvePathInWorkspace_confines (cwd workspaceRoot filePath p : string) :
  Agent.resolvePathInWorkspace cwd workspaceRoot filePath = Ok p ->
  let root := Path.resolve cwd [if String.eqb workspaceRoot "" then cwd else workspaceRoot] in
  p = Path.resolve cwd [root; Js.strip_leading_slashes filePath] /\
  Path.within root p = true.
Proof.
  intros H root. unfold Agent.resolvePathInWorkspace in H. fold root in H. cbv zeta in H.
  set (resolved := Path.resolve cwd [root; Js.strip_leading_slashes filePath]) in *.
  destruct (negb (String.eqb resolved root) && negb (Js.startsWith resolved (root +:+ Path.sep)))
    eqn:E; [discriminate|].
  injection H as <-. split; [reflexivity|].
  destruct (resolve_shape cwd [if String.eqb workspaceRoot "" then cwd else workspaceRoot])
    as (segs & Hsegs & Eroot). fold root in Eroot.
  destruct (resolve_shape cwd [root; Js.strip_leading_slashes filePath])
    as (rsegs & Hrsegs & Eres). fold resolved in Eres.
  unfold Path.within. rewrite Eroot, Eres.
  rewrite (segments_of_resolved segs Hsegs), (segments_of_resolved rsegs Hrsegs).
  destruct (decide (segs = [])) as [->|Hne]; [reflexivity|].
  assert (Hfree : forall l, Forall Path.kept l -> Forall (fun w => Js.split "/" w = [w]) l).
  { intros l Hl. eapply Forall_impl; [exact Hl|]. intros w [_ Hw]. exact Hw. }
  assert (Hrs : forall rest, Js.split "/" (Js.join "/" rsegs) = segs ++ rest ->
                             Path.is_prefix segs rsegs = true).
  { intros rest Hsplit. destruct (decide (rsegs = [])) as [->|Hrne].
    - cbn in Hsplit. destruct segs as [|s segs]; [contradiction|].
      injection Hsplit as <- _. inversion Hsegs as [|? ? [Hp _] _]. discriminate Hp.
    - rewrite split_join in Hsplit by auto. rewrite Hsplit. apply is_prefix_app. }
  apply andb_false_iff in E as [E|E]; apply negb_false_iff in E.
  - apply String.eqb_eq in E. rewrite Eroot, Eres in E. injection E as E.
    apply (Hrs []). rewrite E, app_nil_r. apply split_join; auto.
  - unfold Js.startsWith in E. apply prefix_split in E as [rest E].
    rewrite Eroot, Eres in E. unfold Path.sep in E.
    rewrite append_cons in E. injection E as E.
    rewrite append_assoc in E.
    change ("/" +:+ rest) with (String "/" rest) in E.
    apply (Hrs (Js.split "/" rest)).
    rewrite E, split_app, split_join by auto. reflexivity.
Qed.

Lemma resolvePathInWorkspace_confines_witness :
  Agent.resolvePathInWorkspace "/srv" "/home/ws" "src/../lib/a.ts" = Ok "/home/ws/lib/a.ts" /\
  Path.within (Path.resolve "/srv" ["/home/ws"]) "/home/ws/lib/a.ts" = true.
Proof.
  split; [vm_compute; reflexivity|].
  apply (resolvePathInWorkspace_confines "/srv" "/home/ws" "src/../lib/a.ts" "/home/ws/lib/a.ts").
  vm_compute. reflexivity.
Defined.

(** ** The step loop without actions *)

Section NoProgress.

Variable CONTEXT_BUDGET : Z.
Variable SWARM_MAX_WORKERS : Z.
Variable runTool :
  string -> list (string * json) -> Tools.Ctx -> gmap string string -> gmap string string * result json.
Variable executeToolAction : string -> list (string * json) -> nat -> Agent.World -> Agent.World * Agent.ToolFlow.

Let run_loop := Agent.run_loop CONTEXT_BUDGET SWARM_MAX_WORKERS runTool executeToolAction.
Let iteration := Agent.iteration CONTEXT_BUDGET SWARM_MAX_WORKERS runTool executeToolAction.

Lemma track_plan_keeps_counters (c : string) (st : Agent.State) :
  Agent.consecutiveStepsWithoutAction (Agent.track_plan c st) = Agent.consecutiveStepsWithoutAction st /\
  Agent.stopRequested (Agent.track_plan c st) = Agent.stopRequested st /\
  Agent.step (Agent.track_plan c st) = Agent.step st /\
  Agent.agentPlus (Agent.track_plan c st) = Agent.agentPlus st.
Proof.
  unfold Agent.track_plan.
  destruct (Js.includes c "PLAN:" || Js.includes c ("PLAN" +:+ Js.nl) || Agent.numbered_here c);
    [destruct (0 <? Agent.count_numbered true c)|];
    destruct (Js.includes c "PROGRESS:" || Js.includes c "Completed task");
    repeat split.
Qed.

Lemma auto_compact_keeps_counters (t : Agent.Turn) (st : Agent.State) (w : Agent.World) :
  let st' := fst (Agent.auto_compact CONTEXT_BUDGET t st w) in
  let w' := snd (Agent.auto_compact CONTEXT_BUDGET t st w) in
  Agent.consecutiveStepsWithoutAction st' = Agent.consecutiveStepsWithoutAction st /\
  Agent.stopRequested st' = Agent.stopRequested st /\
  Agent.step st' = Agent.step st /\
  Agent.sent w' = Agent.sent w /\ Agent.activeAgents w' = Agent.activeAgents w.
Proof.
  cbv zeta. unfold Agent.auto_compact, Agent.saveContextCheckpoint.
  destruct ((Agent.compactCount st <? 3)
            && ContextManager.shouldAutoCompact (Agent.messages st) CONTEXT_BUDGET);
    [|repeat split].
  destruct (ContextManager.compacted _); [|repeat split].
  cbn. destruct (String.eqb (Agent.workspaceRoot st) ""); repeat split.
Qed.

Lemma periodic_checkpoint_keeps (st : Agent.State) (w : Agent.World) :
  Agent.sent (Agent.periodic_checkpoint st w) = Agent.sent w /\
  Agent.activeAgents (Agent.periodic_checkpoint st w) = Agent.activeAgents w.
Proof.
  unfold Agent.periodic_checkpoint, Agent.saveContextCheckpoint.
  destruct ((0 <? Agent.step st) && (Agent.step st mod 8 =? 0)); [|split; reflexivity].
  destruct (String.eqb (Agent.workspaceRoot st) ""); split; reflexivity.
Qed.

Lemma dispatch_thought (t : Agent.Turn) (c : string) (a : nat) (st : Agent.State) (w : Agent.World) :
  Agent.dispatch SWARM_MAX_WORKERS runTool executeToolAction t (Agent.thought c) a st w
  = Agent.thought_only a
      (Agent.push (mkMessage Assistant (Json.stringify (Agent.directive_json (Agent.thought c))))
                  (Agent.track_plan c st))
      (Agent.send (Agent.SentThought c) w).
Proof.
  unfold Agent.dispatch. destruct (Agent.agentPlus (Agent.track_plan c st)); reflexivity.
Qed.

(** A step whose reply is a thought, with no request handled meanwhile. *)
Lemma iteration_thought (t : Agent.Turn) (c : string) (resolvedModel : option string)
    (a : nat) (st : Agent.State) (w : Agent.World) :
  Agent.requests t = [] -> Agent.llm t = Agent.LlmDirective (Agent.thought c) ->
  exists (w' : Agent.World) (st' : Agent.State),
    iteration t resolvedModel a st w = (w', Agent.Continue) /\
    Agent.objects w' !! a = Some st' /\
    Agent.consecutiveStepsWithoutAction st' = Agent.consecutiveStepsWithoutAction st + 1 /\
    Agent.stopRequested st' = Agent.stopRequested st /\
    Agent.step st' = Agent.step st /\
    Agent.sent w' = Agent.sent w ++ [Agent.SentThought c] /\
    Agent.activeAgents w' = Agent.activeAgents w.
Proof.
  intros Hreq Hllm. subst iteration. unfold Agent.iteration.
  pose proof (auto_compact_keeps_counters t st w) as Hc. cbv zeta in Hc.
  destruct (Agent.auto_compact CONTEXT_BUDGET t st w) as [st1 w1].
  cbn [fst snd] in Hc. destruct Hc as (Hc1 & Hc2 & Hc3 & Hc4 & Hc5).
  pose proof (periodic_checkpoint_keeps st1 w1) as [Hp1 Hp2].
  rewrite Hreq, Hllm. cbn [fold_left].
  unfold Agent.store at 1. cbn [Agent.objects Agent.set_objects].
  rewrite lookup_insert_eq. cbn [default from_option id].
  rewrite dispatch_thought.
  pose proof (track_plan_keeps_counters c (Agent.set_retryCount 0 st1)) as (Ht1 & Ht2 & Ht3 & _).
  set (st2 := Agent.track_plan c (Agent.set_retryCount 0 st1)) in *.
  cbn [Agent.set_retryCount Agent.consecutiveStepsWithoutAction Agent.stopRequested Agent.step]
    in Ht1, Ht2, Ht3.
  unfold Agent.thought_only.
  eexists _, _. split; [reflexivity|].
  split; [cbn; apply lookup_insert_eq|].
  destruct (2 <=? _); cbn; rewrite Ht1, Ht2, Ht3, Hp1, Hp2, Hc1, Hc2, Hc3, Hc4, Hc5;
    repeat split.
Qed.

Lemma run_loop_no_progress (closing : option ContextManager.LlmReply) (turns : list Agent.Turn)
    (resolvedModel : option string) (maxSteps : Z) (a : nat) (st : Agent.State) (w : Agent.World) :
  Agent.objects w !! a = Some st -> Agent.step st < maxSteps ->
  Agent.stopRequested st = false ->
  Agent.NO_PROGRESS_LIMIT <= Agent.consecutiveStepsWithoutAction st ->
  run_loop closing turns resolvedModel maxSteps a w
  = (Agent.send (Agent.SentFinal "Stopped: no further actions after several steps. Send a follow-up to continue.")
       (Agent.saveContextCheckpoint st w), Agent.Finished).
Proof.
  intros Hobj Hstep Hstop Hlimit. subst run_loop.
  apply Z.ltb_lt in Hstep. apply Z.leb_le in Hlimit.
  destruct turns; simpl; rewrite Hobj, Hstep, Hstop, Hlimit; reflexivity.
Qed.

Lemma run_loop_step (closing : option ContextManager.LlmReply) (t : Agent.Turn)
    (later : list Agent.Turn) (resolvedModel : option string) (maxSteps : Z) (a : nat)
    (st : Agent.State) (w w' : Agent.World) :
  Agent.objects w !! a = Some st -> Agent.step st < maxSteps ->
  Agent.stopRequested st = false ->
  Agent.consecutiveStepsWithoutAction st < Agent.NO_PROGRESS_LIMIT ->
  iteration t resolvedModel a st w = (w', Agent.Continue) ->
  run_loop closing (t :: later) resolvedModel maxSteps a w
  = run_loop closing later resolvedModel maxSteps a
      (Agent.update a (fun s => Agent.set_step (Agent.step s + 1) s) w').
Proof.
  intros Hobj Hstep Hstop Hlimit Hit. subst run_loop iteration.
  apply Z.ltb_lt in Hstep. apply Z.leb_gt in Hlimit.
  cbn [Agent.run_loop]. rewrite Hobj, Hstep, Hstop, Hlimit, Hit. reflexivity.
Qed.

(** Replies that are only thoughts cannot keep a run going: once ten steps
    in a row have made no tool call and no diff, counting the thought-only
    steps before, the run ends by itself at the next step boundary with the
    final "Stopped: no further actions..." after the thoughts it has sent,
    and the session stays in the registry. *)
Theorem thoughts_alone_end_the_run
    (closing : option ContextManager.LlmReply) (thinking later : list Agent.Turn)
    (contents : list string) (resolvedModel : option string) (maxSteps : Z)
    (a : nat) (st : Agent.State) (w : Agent.World) :
  Agent.objects w !! a = Some st ->
  Agent.stopRequested st = false ->
  Agent.consecutiveStepsWithoutAction st + Z.of_nat (length contents) = Agent.NO_PROGRESS_LIMIT ->
  Agent.step st + Z.of_nat (length contents) < maxSteps ->
  Forall2 (fun t c => Agent.requests t = [] /\ Agent.llm t = Agent.LlmDirective (Agent.thought c))
          thinking contents ->
  let w' := fst (run_loop closing (thinking ++ later) resolvedModel maxSteps a w) in
  snd (run_loop closing (thinking ++ later) resolvedModel maxSteps a w) = Agent.Finished /\
  Agent.sent w'
  = Agent.sent w ++ map Agent.SentThought contents
    ++ [Agent.SentFinal "Stopped: no further actions after several steps. Send a follow-up to continue."] /\
  Agent.activeAgents w' = Agent.activeAgents w.
Proof.
  intros Hobj Hstop Hcount Hsteps Hthink. cbv zeta.
  revert st w Hobj Hstop Hcount Hsteps.
  induction Hthink as [|t c thinking contents [Hreq Hllm] Hthink IH];
    intros st w Hobj Hstop Hcount Hsteps.
  - cbn [length app map] in *.
    rewrite run_loop_no_progress with (st := st) by (assumption || lia).
    unfold Agent.saveContextCheckpoint.
    destruct (String.eqb (Agent.workspaceRoot st) ""); cbn; repeat split.
  - cbn [length] in Hcount, Hsteps. cbn [app].
    destruct (iteration_thought t c resolvedModel a st w Hreq Hllm)
      as (w1 & st1 & Hit & Hobj1 & Hc1 & Hs1 & Hstep1 & Hsent1 & Hreg1).
    rewrite (run_loop_step closing t (thinking ++ later) resolvedModel maxSteps a st w w1)
      by (assumption || lia).
    set (w2 := Agent.update a (fun s => Agent.set_step (Agent.step s + 1) s) w1).
    assert (Hobj2 : Agent.objects w2 !! a = Some (Agent.set_step (Agent.step st1 + 1) st1)).
    { unfold w2, Agent.update. cbn. rewrite lookup_alter_eq, Hobj1. reflexivity. }
    specialize (IH _ w2 Hobj2).
    cbn [Agent.set_step Agent.stopRequested Agent.consecutiveStepsWithoutAction Agent.step] in IH.
    destruct IH as (Hfin & Hsent & Hreg); [congruence|lia|lia|].
    split; [exact Hfin|]. split.
    + rewrite Hsent. unfold w2, Agent.update. cbn [Agent.sent Agent.set_objects].
      rewrite Hsent1. cbn [map]. rewrite <- app_assoc. reflexivity.
    + rewrite Hreg. unfold w2, Agent.update. cbn. exact Hreg1.
Qed.

End NoProgress.

Lemma thoughts_alone_end_the_run_witness :
  let thinking := repeat (Scenario.turn (Agent.thought "Let me think.")) 10 in
  let w' := fst (Scenario.run_loop (thinking ++ []) None 500 0%nat Scenario.world) in
  snd (Scenario.run_loop (thinking ++ []) None 500 0%nat Scenario.world) = Agent.Finished /\
  Agent.sent w'
  = Agent.sent Scenario.world ++ map Agent.SentThought (repeat "Let me think." 10)
    ++ [Agent.SentFinal "Stopped: no further actions after several steps. Send a follow-up to continue."] /\
  Agent.activeAgents w' = Agent.activeAgents Scenario.world.
Proof.
  apply (thoughts_alone_end_the_run
           Scenario.CONTEXT_BUDGET Scenario.SWARM_MAX_WORKERS Scenario.runTool
           Scenario.executeToolAction None
           (repeat (Scenario.turn (Agent.thought "Let me think.")) 10) []
           (repeat "Let me think." 10) None 500 0%nat Scenario.session Scenario.world).
  - reflexivity.
  - reflexivity.
  - reflexivity.
  - vm_compute. reflexivity.
  - cbn [repeat]. repeat (constructor; [split; reflexivity|]). constructor.
Defined.

(** ** The file tools *)

Section FileTools.

Variable cwd : string.
Variable PERMISSIONS : gmap string string.
Variable applyPatch : string -> string -> option string.
Variable other_tool :
  string -> list (string * json) -> Tools.Ctx -> gmap string string -> gmap string string * result json.

Let runTool := Tools.runTool cwd PERMISSIONS applyPatch other_tool.


Lemma withPermission_denied {A : Type} (toolName : string) (f : unit -> result A) (ctx : Tools.Ctx) :
  (PERMISSIONS !! toolName = Some "never" ->
   Tools.withPermission PERMISSIONS toolName f ctx
   = Throw ("Permission denied: tool " +:+ Js.quoted toolName +:+ " is disabled by policy.")) /\
  (PERMISSIONS !! toolName = Some "ask" -> Tools.autoMode ctx = false ->
   Tools.withPermission PERMISSIONS toolName f ctx
   = Throw ("Permission required for " +:+ Js.quoted toolName
            +:+ " in normal mode. Enable agent mode or set permission to always.")).
Proof.
  unfold Tools.withPermission. split.
  - intros ->. reflexivity.
  - intros -> ->. reflexivity.
Qed.

(** A tool that the permission table disables, or reserves for auto mode,
    fails before it reads an argument or touches a file. *)
Theorem runTool_refuses_what_policy_forbids
    (tool : string) (args : list (string * json)) (ctx : Tools.Ctx) (fs : gmap string string) :
  In tool ["read_file"; "write_file"; "replace_in_file"] ->
  (PERMISSIONS !! tool = Some "never" ->
   runTool tool args ctx fs
   = (fs, Throw ("Permission denied: tool " +:+ Js.quoted tool +:+ " is disabled by policy."))) /\
  (PERMISSIONS !! tool = Some "ask" -> Tools.autoMode ctx = false ->
   runTool tool args ctx fs
   = (fs, Throw ("Permission required for " +:+ Js.quoted tool
                 +:+ " in normal mode. Enable agent mode or set permission to always."))).
Proof.
  intros Htool. subst runTool.
  destruct Htool as [<-|[<-|[<-|[]]]]; unfold Tools.runTool; cbn [String.eqb Ascii.eqb Bool.eqb];
    (split; [intros Hp|intros Hp Hm]).
  all: match goal with
       | |- context [Tools.withPermission _ ?n ?f ?c] =>
           pose proof (withPermission_denied n f c) as [Hn Ha]
       end.
  all: try (rewrite (Hn Hp); reflexivity).
  all: rewrite (Ha Hp Hm); reflexivity.
Qed.

(** The file tools change the file system at one place at most: the path
    their path argument resolves to, which begins with the workspace root;
    [read_file] changes nothing. *)
Theorem file_tools_write_only_the_resolved_path
    (tool : string) (args : list (string * json)) (ctx : Tools.Ctx) (fs : gmap string string)
    (q : string) :
  In tool ["apply_diff"; "read_file"; "write_file"; "replace_in_file"] ->
  let root := Tools.getWorkspaceRoot cwd ctx in
  fst (runTool tool args ctx fs) !! q <> fs !! q ->
  tool <> "read_file" /\
  exists p : string,
    Tools.string_arg (if String.eqb tool "apply_diff" then "filePath" else "path") args = Some p /\
    q = Path.resolve cwd [root; p] /\
    Js.startsWith q (Path.resolve cwd [root]) = true.
Proof.
  intros Htool root Hq. subst runTool.
  assert (Hres : forall k target,
             Tools.path_arg cwd k args root = Ok target ->
             exists p, Tools.string_arg k args = Some p /\ target = Path.resolve cwd [root; p] /\
                       Js.startsWith target (Path.resolve cwd [root]) = true).
  { intros k target. unfold Tools.path_arg, Tools.resolvePath.
    destruct (Tools.string_arg k args) as [p|]; [|discriminate].
    destruct (negb (Js.startsWith (Path.resolve cwd [root; p]) (Path.resolve cwd [root]))) eqn:E;
      [discriminate|].
    intros [= <-]. apply negb_false_iff in E. exists p. repeat split. exact E. }
  assert (Hins : forall target (c : string),
             <[target := c]> fs !! q <> fs !! q -> q = target).
  { intros target c Hne. destruct (decide (q = target)) as [->|Hd]; [reflexivity|].
    rewrite lookup_insert_ne in Hne by congruence. contradiction. }
  destruct Htool as [<-|[<-|[<-|[<-|[]]]]]; unfold Tools.runTool in Hq;
    cbn [String.eqb Ascii.eqb Bool.eqb] in Hq; fold root in Hq.
  - (* apply_diff *)
    split; [discriminate|].
    destruct (Tools.path_arg cwd "filePath" args root) as [abs|msg] eqn:Ep;
      [|cbn in Hq; contradiction].
    destruct (applyPatch _ _) as [patched|]; [|cbn in Hq; contradiction].
    cbn [fst] in Hq. apply Hins in Hq. subst q.
    apply (Hres "filePath"). exact Ep.
  - (* read_file *)
    exfalso. unfold Tools.withPermission in Hq.
    destruct (String.eqb _ "never"); [cbn in Hq; contradiction|].
    destruct (Tools.autoMode ctx).
    + destruct (Tools.path_arg cwd "path" args root); cbn in Hq; contradiction.
    + destruct (String.eqb _ "ask"); [cbn in Hq; contradiction|].
      destruct (Tools.path_arg cwd "path" args root); cbn in Hq; contradiction.
  - (* write_file *)
    split; [discriminate|].
    unfold Tools.withPermission in Hq.
    destruct (Tools.path_arg cwd "path" args root) as [target|msg] eqn:Ep.
    + destruct (String.eqb _ "never"); [cbn in Hq; contradiction|].
      assert (Hq' : <[target := default "" (Tools.string_arg "content" args)]> fs !! q <> fs !! q).
      { destruct (Tools.autoMode ctx); [exact Hq|].
        destruct (String.eqb _ "ask"); [cbn in Hq; contradiction|exact Hq]. }
      apply Hins in Hq'. subst q. apply (Hres "path"). exact Ep.
    + exfalso. destruct (String.eqb _ "never"); [cbn in Hq; contradiction|].
      destruct (Tools.autoMode ctx); [cbn in Hq; contradiction|].
      destruct (String.eqb _ "ask"); cbn in Hq; contradiction.
  - (* replace_in_file *)
    split; [discriminate|].
    unfold Tools.withPermission in Hq.
    destruct (Tools.path_arg cwd "path" args root) as [target|msg] eqn:Ep.
    + destruct (String.eqb _ "never"); [cbn in Hq; contradiction|].
      assert (Hq' : exists c : string, <[target := c]> fs !! q <> fs !! q).
      { destruct (Tools.readFile fs target) as [content|msg] eqn:Er.
        - destruct (negb (Js.includes content _)) eqn:Ei.
          + exfalso. destruct (Tools.autoMode ctx); [cbn in Hq; contradiction|].
            destruct (String.eqb _ "ask"); cbn in Hq; contradiction.
          + eexists. destruct (Tools.autoMode ctx); [exact Hq|].
            destruct (String.eqb _ "ask"); [cbn in Hq; contradiction|exact Hq].
        - exfalso. destruct (Tools.autoMode ctx); [cbn in Hq; contradiction|].
          destruct (String.eqb _ "ask"); cbn in Hq; contradiction. }
      destruct Hq' as [c Hq']. apply Hins in Hq'. subst q. apply (Hres "path"). exact Ep.
    + exfalso. destruct (String.eqb _ "never"); [cbn in Hq; contradiction|].
      destruct (Tools.autoMode ctx); [cbn in Hq; contradiction|].
      destruct (String.eqb _ "ask"); cbn in Hq; contradiction.
Qed.




End FileTools.

Lemma runTool_refuses_what_policy_forbids_witness :
  let ctx := Tools.mkCtx "/home/ws" false in
  let args := [("path", JStr "src/a.ts"); ("content", JStr "overwritten")] in
  In "write_file" ["read_file"; "write_file"; "replace_in_file"] /\
  Scenario.PERMISSIONS !! "write_file" = Some "ask" /\
  Scenario.runTool "write_file" args ctx (Agent.fs Scenario.world)
  = (Agent.fs Scenario.world,
     Throw ("Permission required for " +:+ Js.quoted "write_file"
            +:+ " in normal mode. Enable agent mode or set permission to always.")).
Proof.
  cbv zeta. split; [right; left; reflexivity|]. split; [reflexivity|].
  exact (proj2 (runTool_refuses_what_policy_forbids Scenario.cwd Scenario.PERMISSIONS
                  Scenario.applyPatch Scenario.other_tool "write_file"
                  [("path", JStr "src/a.ts"); ("content", JStr "overwritten")]
                  (Tools.mkCtx "/home/ws" false) (Agent.fs Scenario.world)
                  (or_intror (or_introl eq_refl)))
               eq_refl eq_refl).
Defined.

Lemma file_tools_write_only_the_resolved_path_witness :
  let ctx := Tools.mkCtx "/home/ws" true in
  let args := [("path", JStr "src/a.ts"); ("content", JStr "overwritten")] in
  fst (Scenario.runTool "write_file" args ctx (Agent.fs Scenario.world)) !! "/home/ws/src/a.ts"
  <> Agent.fs Scenario.world !! "/home/ws/src/a.ts" /\
  "write_file" <> "read_file" /\
  exists p : string,
    Tools.string_arg "path" args = Some p /\
    "/home/ws/src/a.ts" = Path.resolve Scenario.cwd [Tools.getWorkspaceRoot Scenario.cwd ctx; p] /\
    Js.startsWith "/home/ws/src/a.ts"
      (Path.resolve Scenario.cwd [Tools.getWorkspaceRoot Scenario.cwd ctx]) = true.
Proof.
  cbv zeta. split; [vm_compute; discriminate|].
  apply (file_tools_write_only_the_resolved_path Scenario.cwd Scenario.PERMISSIONS
           Scenario.applyPatch Scenario.other_tool "write_file"
           [("path", JStr "src/a.ts"); ("content", JStr "overwritten")]
           (Tools.mkCtx "/home/ws" true) (Agent.fs Scenario.world) "/home/ws/src/a.ts").
  - right. right. left. reflexivity.
  - vm_compute. discriminate.
Defined.



(** ** Sessions across requests *)

(** Once [/clear-session] has been handled for a session, [/stop-agent]
    for the same id finds no session: it answers with no active session and
    raises no flag, so a run of that session that is still in progress is
    not stopped by it. *)
Theorem stop_after_clear_reaches_no_run (sid : string) (w : Agent.World) :
  sid <> "" ->
  let w1 := Agent.clear_session sid w in
  Agent.stop_agent sid w1 = (w1, false) /\
  Agent.objects (fold_left (fun w r => Agent.handle r w)
                   [Agent.ClearSession sid; Agent.StopAgent sid] w)
  = Agent.objects w.
Proof.
  intros _. cbv zeta.
  assert (H : Agent.stop_agent sid (Agent.clear_session sid w) = (Agent.clear_session sid w, false)).
  { unfold Agent.stop_agent, Agent.clear_session. cbn. rewrite lookup_delete_eq. reflexivity. }
  split; [exact H|]. cbn [fold_left Agent.handle]. rewrite H. reflexivity.
Qed.

Lemma stop_after_clear_reaches_no_run_witness :
  "s1" <> "" /\
  Agent.stop_agent "s1" (Agent.clear_session "s1" Scenario.world)
  = (Agent.clear_session "s1" Scenario.world, false) /\
  Agent.objects (fold_left (fun w r => Agent.handle r w)
                   [Agent.ClearSession "s1"; Agent.StopAgent "s1"] Scenario.world)
  = Agent.objects Scenario.world.
Proof.
  split; [discriminate|].
  apply (stop_after_clear_reaches_no_run "s1" Scenario.world). discriminate.
Defined.

Section FollowUp.

Variable CONTEXT_BUDGET : Z.
Variable SWARM_MAX_WORKERS : Z.
Variable runTool :
  string -> list (string * json) -> Tools.Ctx -> gmap string string -> gmap string string * result json.
Variable executeToolAction : string -> list (string * json) -> nat -> Agent.World -> Agent.World * Agent.ToolFlow.

Let run_loop := Agent.run_loop CONTEXT_BUDGET SWARM_MAX_WORKERS runTool executeToolAction.
Let runAgent := Agent.runAgent CONTEXT_BUDGET SWARM_MAX_WORKERS runTool executeToolAction.

Lemma run_loop_stopped (closing : option ContextManager.LlmReply) (turns : list Agent.Turn)
    (resolvedModel : option string) (maxSteps : Z) (a : nat) (st : Agent.State) (w : Agent.World) :
  Agent.objects w !! a = Some st -> Agent.step st < maxSteps -> Agent.stopRequested st = true ->
  run_loop closing turns resolvedModel maxSteps a w
  = (Agent.store a (Agent.set_stopRequested false st)
       (Agent.send (Agent.SentFinal "Agent stopped by user.") (Agent.saveContextCheckpoint st w)),
     Agent.Finished).
Proof.
  intros Hobj Hstep Hstop. subst run_loop. apply Z.ltb_lt in Hstep.
  destruct turns; simpl; rewrite Hobj, Hstep, Hstop; reflexivity.
Qed.

Lemma run_loop_awaits (closing : option ContextManager.LlmReply)
    (resolvedModel : option string) (maxSteps : Z) (a : nat) (st : Agent.State) (w : Agent.World) :
  Agent.objects w !! a = Some st -> Agent.step st < maxSteps -> Agent.stopRequested st = false ->
  Agent.consecutiveStepsWithoutAction st < Agent.NO_PROGRESS_LIMIT ->
  run_loop closing [] resolvedModel maxSteps a w = (w, Agent.AwaitingModel).
Proof.
  intros Hobj Hstep Hstop Hlimit. subst run_loop.
  apply Z.ltb_lt in Hstep. apply Z.leb_gt in Hlimit.
  simpl. rewrite Hobj, Hstep, Hstop, Hlimit. reflexivity.
Qed.

(** A run stopped by the user can be continued: a later request for the
    same session id with a message (and no decision) finds the session,
    appends the message to its conversation, starts again at step 0 and
    awaits the model; the mode and the workspace root of the session are
    the ones it was created with, whatever the request says. *)
Theorem stopped_run_continues_with_a_follow_up
    (cwd : string) (closing closing' : option ContextManager.LlmReply) (turns : list Agent.Turn)
    (resolvedModel : option string) (maxSteps : Z)
    (args : Agent.RunArgs) (startup : Agent.Startup)
    (a : nat) (st : Agent.State) (w : Agent.World) :
  Agent.activeAgents w !! Agent.arg_sessionId args = Some a ->
  Agent.objects w !! a = Some st ->
  Agent.stopRequested st = true ->
  Agent.step st < maxSteps ->
  Agent.arg_decision args = None ->
  Agent.arg_message args <> "" ->
  0 < Agent.arg_maxSteps args ->
  let stopped := fst (run_loop closing turns resolvedModel maxSteps a w) in
  let resumed := runAgent cwd args startup closing' [] stopped in
  snd resumed = Agent.AwaitingModel /\
  Agent.sent (fst resumed) = Agent.sent w ++ [Agent.SentFinal "Agent stopped by user."] /\
  Agent.activeAgents (fst resumed) = Agent.activeAgents w /\
  exists st' : Agent.State,
    Agent.objects (fst resumed) !! a = Some st' /\
    Agent.messages st' = Agent.messages st ++ [mkMessage User (Agent.arg_message args)] /\
    Agent.step st' = 0 /\ Agent.stopRequested st' = false /\
    Agent.agentPlus st' = Agent.agentPlus st /\
    Agent.workspaceRoot st' = Agent.workspaceRoot st /\
    Agent.sessionId st' = Agent.sessionId st.
Proof.
  intros Hreg Hobj Hstop Hstep Hdec Hmsg Hmax. cbv zeta.
  rewrite (run_loop_stopped closing turns resolvedModel maxSteps a st w Hobj Hstep Hstop).
  cbn [fst].
  set (w1 := Agent.store a (Agent.set_stopRequested false st)
               (Agent.send (Agent.SentFinal "Agent stopped by user.")
                  (Agent.saveContextCheckpoint st w))).
  assert (Hreg1 : Agent.activeAgents w1 = Agent.activeAgents w).
  { unfold w1, Agent.saveContextCheckpoint.
    destruct (String.eqb (Agent.workspaceRoot st) ""); reflexivity. }
  assert (Hsent1 : Agent.sent w1 = Agent.sent w ++ [Agent.SentFinal "Agent stopped by user."]).
  { unfold w1, Agent.saveContextCheckpoint.
    destruct (String.eqb (Agent.workspaceRoot st) ""); reflexivity. }
  assert (Hobj1 : Agent.objects w1 !! a = Some (Agent.set_stopRequested false st)).
  { unfold w1. cbn. apply lookup_insert_eq. }
  subst runAgent. unfold Agent.runAgent.
  rewrite Hreg1, Hreg, Hobj1, Hdec. cbn [Agent.or_else].
  apply String.eqb_neq in Hmsg. rewrite Hmsg.
  match goal with
  | |- context [Agent.run_loop _ _ _ _ ?c [] ?rm ?ms a ?w3] =>
      set (w3' := w3);
      assert (Hobj3 : exists st', Agent.objects w3' !! a = Some st' /\
                Agent.messages st' = Agent.messages st ++ [mkMessage User (Agent.arg_message args)] /\
                Agent.step st' = 0 /\ Agent.stopRequested st' = false /\
                Agent.consecutiveStepsWithoutAction st' = 0 /\
                Agent.agentPlus st' = Agent.agentPlus st /\
                Agent.workspaceRoot st' = Agent.workspaceRoot st /\
                Agent.sessionId st' = Agent.sessionId st)
  end.
  { unfold w3', Agent.update. cbn [Agent.objects Agent.set_objects].
    rewrite !lookup_alter_eq, Hobj1. cbn [fmap option_fmap option_map].
    eexists. split; [reflexivity|].
    destruct (Agent.or_else (Agent.arg_model args) None); repeat split. }
  destruct Hobj3 as (st' & Hst' & Hm & Hs & Hf & Hc & Hp & Hr & Hi).
  pose proof (run_loop_awaits closing' (Agent.or_else (Agent.arg_model args)
                                           (Agent.or_else (Agent.model (Agent.set_stopRequested false st)) None))
                (Agent.arg_maxSteps args) a st' w3' Hst') as Hrun.
  subst run_loop. cbv zeta in Hrun. rewrite Hrun by (assumption || (unfold Agent.NO_PROGRESS_LIMIT; lia)).
  cbn [fst snd]. split; [reflexivity|].
  split; [unfold w3', Agent.update; cbn; exact Hsent1|].
  split; [unfold w3', Agent.update; cbn; exact Hreg1|].
  exists st'. repeat split; assumption.
Qed.

End FollowUp.

Lemma stopped_run_continues_with_a_follow_up_witness :
  let stopped := fst (Scenario.run_loop [] None 500 0%nat Scenario.stopped_world) in
  let resumed :=
    Agent.runAgent Scenario.CONTEXT_BUDGET Scenario.SWARM_MAX_WORKERS Scenario.runTool
      Scenario.executeToolAction Scenario.cwd Samples.follow_up (Agent.mkStartup "" "") None []
      stopped in
  snd resumed = Agent.AwaitingModel /\
  Agent.sent (fst resumed)
  = Agent.sent Scenario.stopped_world ++ [Agent.SentFinal "Agent stopped by user."] /\
  Agent.activeAgents (fst resumed) = Agent.activeAgents Scenario.stopped_world /\
  exists st' : Agent.State,
    Agent.objects (fst resumed) !! 0%nat = Some st' /\
    Agent.messages st'
    = Agent.messages (Agent.set_stopRequested true Scenario.session)
      ++ [mkMessage User "Now rename bar to baz"] /\
    Agent.step st' = 0 /\ Agent.stopRequested st' = false /\
    Agent.agentPlus st' = false /\
    Agent.workspaceRoot st' = "/home/ws" /\
    Agent.sessionId st' = "s1".
Proof.
  apply (stopped_run_continues_with_a_follow_up
           Scenario.CONTEXT_BUDGET Scenario.SWARM_MAX_WORKERS Scenario.runTool
           Scenario.executeToolAction Scenario.cwd None None [] None 500 Samples.follow_up
           (Agent.mkStartup "" "") 0%nat (Agent.set_stopRequested true Scenario.session)
           Scenario.stopped_world);
    first [reflexivity | (vm_compute; reflexivity) | (vm_compute; discriminate)].
Defined.

(** ** Maintenance of a session between runs *)

Lemma compactConversation_cases
    (msgs : list Message) (llm : option ContextManager.LlmReply) :
  let r := ContextManager.compactConversation msgs llm in
  if Z.of_nat (length msgs) <=? 6 then
    ContextManager.compacted r = false /\ ContextManager.messages r = msgs /\
    ContextManager.removedCount r = None
  else
    ContextManager.compacted r = true /\ length (ContextManager.messages r) = 6%nat /\
    ContextManager.removedCount r = Some (Z.of_nat (length msgs) - 5) /\
    skipn 2 (ContextManager.messages r) = skipn (length msgs - 4) msgs /\
    hd_error (ContextManager.messages r) = hd_error msgs.
Proof.
  cbv zeta. unfold ContextManager.compactConversation.
  destruct (Z.of_nat (length msgs) <=? 3) eqn:E3.
  { apply Z.leb_le in E3. destruct (Z.of_nat (length msgs) <=? 6) eqn:E6;
      [repeat split|apply Z.leb_gt in E6; lia]. }
  apply Z.leb_gt in E3.
  destruct msgs as [|system rest]; [cbn in E3; lia|].
  cbn [length] in *.
  destruct (Z.of_nat (length (firstn (length rest - Nat.min 4 (length rest)) rest)) <? 2) eqn:E2.
  - apply Z.ltb_lt in E2. rewrite length_firstn in E2.
    destruct (Z.of_nat (S (length rest)) <=? 6) eqn:E6; [repeat split|].
    apply Z.leb_gt in E6. lia.
  - apply Z.ltb_ge in E2. rewrite length_firstn in E2.
    destruct (Z.of_nat (S (length rest)) <=? 6) eqn:E6; [apply Z.leb_le in E6; lia|].
    cbn [ContextManager.compacted ContextManager.messages ContextManager.removedCount length].
    rewrite length_skipn, length_firstn.
    split; [reflexivity|]. split; [lia|]. split; [f_equal; lia|].
    split; [|reflexivity].
    cbn [skipn]. replace (Nat.min 4 (length rest)) with 4%nat by lia.
    replace (S (length rest) - 4)%nat with (S (length rest - 4)) by lia. reflexivity.
Qed.

(** [compactSession] leaves a session of at most six messages as it is and
    answers that there is nothing to compact; a longer conversation is
    replaced by six messages, the first and the last four of them as before,
    the conversation and a checkpoint are saved, and the answer reports the
    counts before and after and the number of messages removed.  The count
    of automatic compactions of the session is not touched. *)
Theorem compactSession_outcome
    (llm : option ContextManager.LlmReply) (sid : string) (a : nat) (st : Agent.State)
    (w : Agent.World) :
  Agent.activeAgents w !! sid = Some a ->
  Agent.objects w !! a = Some st ->
  let n := Z.of_nat (length (Agent.messages st)) in
  let w' := fst (Sessions.compactSession llm sid w) in
  if n <=? 6 then
    Sessions.compactSession llm sid w = (w, Sessions.NothingToCompact n n)
  else
    snd (Sessions.compactSession llm sid w) = Sessions.Compacted n 6 (Some (n - 5)) /\
    (exists st' : Agent.State,
       Agent.objects w' !! a = Some st' /\
       length (Agent.messages st') = 6%nat /\
       hd_error (Agent.messages st') = hd_error (Agent.messages st) /\
       skipn 2 (Agent.messages st')
       = skipn (length (Agent.messages st) - 4) (Agent.messages st) /\
       Agent.compactCount st' = Agent.compactCount st) /\
    Agent.effects w'
    = Agent.effects w ++ Agent.SavedConversation sid
        :: (if String.eqb (Agent.workspaceRoot st) "" then []
            else [Agent.SavedCheckpoint (Agent.sessionId st) (Agent.step st)]) /\
    Agent.activeAgents w' = Agent.activeAgents w /\
    Agent.sent w' = Agent.sent w.
Proof.
  intros Hreg Hobj. cbv zeta. unfold Sessions.compactSession, Sessions.lookup.
  rewrite Hreg, Hobj.
  pose proof (compactConversation_cases (Agent.messages st) llm) as Hc. cbv zeta in Hc.
  destruct (Z.of_nat (length (Agent.messages st)) <=? 6).
  - destruct Hc as (-> & _ & _). reflexivity.
  - destruct Hc as (-> & Hlen & Hrem & Htail & Hhd). rewrite Hrem.
    cbn [fst snd Agent.messages Agent.set_messages]. rewrite Hlen.
    split; [reflexivity|].
    unfold Agent.saveContextCheckpoint. cbn [Agent.workspaceRoot Agent.set_messages].
    destruct (String.eqb (Agent.workspaceRoot st) ""); cbn.
    + split; [eexists; split; [apply lookup_insert_eq|]; cbn; repeat split; assumption|].
      repeat split.
    + split; [eexists; split; [apply lookup_insert_eq|]; cbn; repeat split; assumption|].
      rewrite <- app_assoc. repeat split.
Qed.

(** [switchModel] records the new model and resets the count of automatic
    compactions; a conversation of at most six messages is kept as it is, a
    longer one is replaced by its compaction followed by a note about the
    switch, seven messages in all.  Nothing is sent and the registry is not
    changed. *)
Theorem switchModel_outcome
    (llm : option ContextManager.LlmReply) (sid newModel : string) (a : nat) (st : Agent.State)
    (w : Agent.World) :
  Agent.activeAgents w !! sid = Some a ->
  Agent.objects w !! a = Some st ->
  let w' := fst (Sessions.switchModel llm sid newModel w) in
  exists st' : Agent.State,
    Agent.objects w' !! a = Some st' /\
    Agent.model st' = Some newModel /\
    Agent.compactCount st' = 0 /\
    (if Z.of_nat (length (Agent.messages st)) <=? 6
     then Agent.messages st' = Agent.messages st
     else length (Agent.messages st') = 7%nat /\
          firstn 6 (Agent.messages st')
          = ContextManager.messages (ContextManager.compactConversation (Agent.messages st) llm)) /\
    snd (Sessions.switchModel llm sid newModel w)
    = Sessions.Switched (Agent.model st) newModel (Z.of_nat (length (Agent.messages st'))) /\
    Agent.sent w' = Agent.sent w /\
    Agent.activeAgents w' = Agent.activeAgents w.
Proof.
  intros Hreg Hobj. cbv zeta. unfold Sessions.switchModel, Sessions.lookup.
  rewrite Hreg, Hobj. cbn [Agent.messages Agent.set_model Agent.model].
  pose proof (compactConversation_cases (Agent.messages st) llm) as Hc. cbv zeta in Hc.
  destruct (4 <? Z.of_nat (length (Agent.messages st))) eqn:E4.
  - destruct (Z.of_nat (length (Agent.messages st)) <=? 6) eqn:E6.
    + destruct Hc as (-> & _ & _). cbn [fst snd].
      eexists. split; [cbn; apply lookup_insert_eq|]. cbn.
      unfold Agent.saveContextCheckpoint. cbn.
      destruct (String.eqb (Agent.workspaceRoot st) ""); repeat split.
    + destruct Hc as (-> & Hlen & _). cbn [fst snd].
      eexists. split; [cbn; apply lookup_insert_eq|]. cbn.
      rewrite length_app, Hlen. cbn [length].
      unfold Agent.saveContextCheckpoint. cbn.
      assert (Hf : firstn 6
                     (ContextManager.messages (ContextManager.compactConversation (Agent.messages st) llm)
                      ++ [Agent.observation_message
                            ("Model switched from "
                             +:+ match Agent.model st with
                                 | Some m => if String.eqb m "" then "previous" else m
                                 | None => "previous"
                                 end +:+ " to " +:+ newModel +:+ ". Context has been summarized.")])
                   = ContextManager.messages (ContextManager.compactConversation (Agent.messages st) llm)).
      { rewrite firstn_app, Hlen. cbn [Nat.sub firstn]. rewrite app_nil_r.
        apply firstn_all2. lia. }
      destruct (String.eqb (Agent.workspaceRoot st) ""); repeat split; exact Hf.
  - apply Z.ltb_ge in E4.
    destruct (Z.of_nat (length (Agent.messages st)) <=? 6) eqn:E6; [|apply Z.leb_gt in E6; lia].
    cbn [fst snd]. eexists. split; [cbn; apply lookup_insert_eq|]. cbn. repeat split.
Qed.

Lemma compactSession_outcome_witness :
  let w' := fst (Sessions.compactSession None "s1" Samples.long_world) in
  snd (Sessions.compactSession None "s1" Samples.long_world)
  = Sessions.Compacted 8 6 (Some 3) /\
  (exists st' : Agent.State,
     Agent.objects w' !! 0%nat = Some st' /\
     length (Agent.messages st') = 6%nat /\
     hd_error (Agent.messages st') = Some (mkMessage System "You are IsoCode.") /\
     skipn 2 (Agent.messages st') = skipn 4 Scenario.conversation /\
     Agent.compactCount st' = 0) /\
  Agent.effects w' = [Agent.SavedConversation "s1"; Agent.SavedCheckpoint "s1" 0] /\
  Agent.activeAgents w' = Agent.activeAgents Samples.long_world /\
  Agent.sent w' = [].
Proof.
  exact (compactSession_outcome None "s1" 0%nat Samples.long_session Samples.long_world
           eq_refl eq_refl).
Defined.

Lemma switchModel_outcome_witness :
  let w' := fst (Sessions.switchModel None "s1" "llava" Samples.long_world) in
  exists st' : Agent.State,
    Agent.objects w' !! 0%nat = Some st' /\
    Agent.model st' = Some "llava" /\
    Agent.compactCount st' = 0 /\
    (length (Agent.messages st') = 7%nat /\
     firstn 6 (Agent.messages st')
     = ContextManager.messages (ContextManager.compactConversation Scenario.conversation None)) /\
    snd (Sessions.switchModel None "s1" "llava" Samples.long_world)
    = Sessions.Switched None "llava" (Z.of_nat (length (Agent.messages st'))) /\
    Agent.sent w' = [] /\
    Agent.activeAgents w' = Agent.activeAgents Samples.long_world.
Proof.
  exact (switchModel_outcome None "s1" "llava" 0%nat Samples.long_session Samples.long_world
           eq_refl eq_refl).
Defined.

(** ** The tool executor of the engine *)


Section ExecutorFacts.

Variable cwd : string.
Variable createTwoFilesPatch : string -> string -> string -> string.


End ExecutorFacts.


Section ExecutorGap.

Variable cwd : string.
Variable PERMISSIONS : gmap string string.
Variable applyPatch : string -> string -> option string.
Variable other_tool :
  string -> list (string * json) -> Tools.Ctx -> gmap string string -> gmap string string * result json.
Variable createTwoFilesPatch : string -> string -> string -> string.

Let executeToolAction :=
  Executor.executeToolAction cwd (Tools.runTool cwd PERMISSIONS applyPatch other_tool)
    createTwoFilesPatch.

(** The approval of Agent mode covers a [write_file] only when it carries a
    content: without one the action goes to [runTool] in auto mode, and an
    existing file is emptied at once, with nothing left pending. *)
Theorem write_file_without_content_skips_approval
    (args : list (string * json)) (st : Agent.State) (fs : gmap string string)
    (path targetPath old : string) :
  Agent.agentPlus st = false ->
  Json.get "path" args = Some (JStr path) ->
  Executor.present "content" args = None ->
  PERMISSIONS !! "write_file" <> Some "never" ->
  Tools.resolvePath cwd path
    (Tools.getWorkspaceRoot cwd (Tools.mkCtx (Agent.workspaceRoot st) true)) = Ok targetPath ->
  fs !! targetPath = Some old ->
  let out := executeToolAction "write_file" args st fs in
  Executor.files out = <[targetPath := ""]> fs /\
  Executor.flow out = Agent.ToolContinue /\
  Executor.pending out = None.
Proof.
  intros Hmode Hpath Hcontent Hnever Hres Hold. cbv zeta. subst executeToolAction.
  unfold Executor.executeToolAction, Executor.attempt. rewrite Hmode.
  cbn [negb andb String.eqb Ascii.eqb Bool.eqb orb].
  assert (Hp : Executor.present "path" args = Some (JStr path)).
  { unfold Executor.present. rewrite Hpath. reflexivity. }
  rewrite Hp, Hcontent.
  assert (Hcs : Tools.string_arg "content" args = None).
  { unfold Executor.present in Hcontent. unfold Tools.string_arg.
    destruct (Json.get "content" args) as [[]|]; congruence. }
  assert (Hrun : Tools.runTool cwd PERMISSIONS applyPatch other_tool "write_file" args
                   (Tools.mkCtx (Agent.workspaceRoot st) true) fs
                 = (<[targetPath := ""]> fs,
                    Ok (JObj [("ok", JBool true); ("message", JStr ("Wrote " +:+ path))]))).
  { unfold Tools.runTool. cbn [String.eqb Ascii.eqb Bool.eqb].
    unfold Tools.withPermission.
    destruct (PERMISSIONS !! "write_file") as [policy|] eqn:Ep; cbv [default from_option id].
    - destruct (String.eqb policy "never") eqn:En;
        [apply String.eqb_eq in En; subst; contradiction|].
      cbn [Tools.autoMode]. unfold Tools.path_arg, Tools.string_arg at 1. rewrite Hpath, Hres.
      unfold Tools.string_arg. rewrite Hpath.
      change (match Json.get "content" args with Some (JStr v) => Some v | _ => None end)
        with (Tools.string_arg "content" args).
      rewrite Hcs. reflexivity.
    - cbn [String.eqb Ascii.eqb Bool.eqb Tools.autoMode].
      unfold Tools.path_arg, Tools.string_arg at 1. rewrite Hpath, Hres.
      unfold Tools.string_arg. rewrite Hpath.
      change (match Json.get "content" args with Some (JStr v) => Some v | _ => None end)
        with (Tools.string_arg "content" args).
      rewrite Hcs. reflexivity. }
  rewrite Hrun. cbn [Executor.files Executor.flow Executor.pending].
  repeat split.
Qed.

End ExecutorGap.

Lemma write_file_without_content_skips_approval_witness :
  let fs := Agent.fs Scenario.world in
  let out :=
    Executor.executeToolAction Scenario.cwd Scenario.runTool Samples.patch "write_file"
      [("path", JStr "src/a.ts")] Scenario.session fs in
  Executor.files out = <[ "/home/ws/src/a.ts" := "" ]> fs /\
  Executor.flow out = Agent.ToolContinue /\
  Executor.pending out = None.
Proof.
  apply (write_file_without_content_skips_approval
           Scenario.cwd Scenario.PERMISSIONS Scenario.applyPatch Scenario.other_tool Samples.patch
           [("path", JStr "src/a.ts")] Scenario.session (Agent.fs Scenario.world)
           "src/a.ts" "/home/ws/src/a.ts" "function foo() {}");
    first [reflexivity | (vm_compute; reflexivity) | (vm_compute; discriminate)].
Defined.

(** ** The persistent memory *)


Lemma get_app_new (k : string) (v : json) (mem : Memory.Store) :
  Json.get k mem = None -> Json.get k (mem ++ [(k, v)]) = Some v.
Proof.
  induction mem as [|[k' v'] mem IH]; cbn [app Json.get].
  - rewrite String.eqb_refl. reflexivity.
  - destruct (String.eqb k' k); [discriminate|]. exact IH.
Qed.

Lemma get_add_index_new (n : N) (k : string) (v : json) (mem : Memory.Store) :
  Json.get k mem = None -> Json.get k (Memory.add_index n k v mem) = Some v.
Proof.
  induction mem as [|[k' v'] mem IH]; cbn [Memory.add_index Json.get].
  - rewrite String.eqb_refl. reflexivity.
  - destruct (String.eqb k' k) eqn:E; [discriminate|]. intros Hn.
    destruct (Memory.array_index k') as [n'|].
    + destruct (n <? n')%N; cbn [Json.get]; [rewrite String.eqb_refl; reflexivity|].
      rewrite E. exact (IH Hn).
    + cbn [Json.get]. rewrite String.eqb_refl. reflexivity.
Qed.

Lemma get_remove_none (k k' : string) (mem : Memory.Store) :
  Json.get k mem = None -> Json.get k (Memory.remove k' mem) = None.
Proof.
  induction mem as [|[k1 v1] mem IH]; cbn [Memory.remove Json.get]; [reflexivity|].
  destruct (String.eqb k1 k) eqn:E; [discriminate|]. intros Hn.
  destruct (String.eqb k1 k'); [exact Hn|].
  cbn [Json.get]. rewrite E. exact (IH Hn).
Qed.

Lemma get_assign_eq (k : string) (v : json) (mem : Memory.Store) :
  k <> "__proto__" \/ Memory.own "__proto__" mem = true ->
  Json.get k (Memory.assign k v mem) = Some v.
Proof.
  intros Hk. unfold Memory.assign, Memory.own in *.
  destruct (Json.get k mem) as [old|] eqn:Eg.
  - apply get_set_eq.
  - destruct (String.eqb k "__proto__") eqn:Ep.
    + apply String.eqb_eq in Ep. subst k. rewrite Eg in Hk. destruct Hk; [contradiction|discriminate].
    + destruct (Memory.array_index k); [apply get_add_index_new|apply get_app_new]; exact Eg.
Qed.

(** What [memoryWrite] stores under a key is what [memoryRead] returns for
    it: the value as a string, cut to 8000 characters (the empty string for
    [null]).  The one key this fails for is [__proto__], unless the memory
    file already holds it. *)
Theorem memoryWrite_then_memoryRead
    (native_code : string -> string) (key value : json) (mem : Memory.Store) :
  Json.to_string key <> "__proto__" \/ Memory.own "__proto__" mem = true ->
  Memory.memoryRead native_code key (fst (Memory.memoryWrite key value mem))
  = Some (Memory.stored_text value) /\
  Js.len (Memory.stored_text value) <= Memory.MAX_VALUE_LENGTH.
Proof.
  intros Hk. split.
  - unfold Memory.memoryWrite, Memory.memoryRead. cbn [fst].
    set (k := Json.to_string key) in *.
    rewrite get_assign_eq; [reflexivity|].
    destruct Hk as [Hk|Hk]; [left; exact Hk|].
    destruct (String.eqb k "__proto__") eqn:Ep; [|left; apply String.eqb_neq; exact Ep].
    apply String.eqb_eq in Ep. right.
    unfold Memory.has. rewrite Ep, Hk. cbn [orb negb andb]. rewrite andb_false_r. exact Hk.
  - unfold Memory.stored_text, Memory.MAX_VALUE_LENGTH.
    assert (H : forall s, Js.len (Js.slice s 0 8000) <= 8000).
    { intros s. unfold Js.slice. cbv zeta. unfold Js.len at 1. rewrite string_length_take.
      assert (H0 : Js.slice_index (Js.len s) 8000 <= 8000
                   /\ 0 <= Js.slice_index (Js.len s) 0).
      { unfold Js.slice_index. change (8000 <? 0) with false. change (0 <? 0) with false.
        cbv iota. pose proof (len_nonneg s). lia. }
      destruct H0 as [Ha Hb].
      etransitivity; [apply Nat2Z.inj_le, Nat.le_min_l|]. lia. }
    destruct value; first [apply H | (vm_compute; discriminate)].
Qed.

Lemma memoryWrite_then_memoryRead_witness :
  Memory.memoryRead Samples.native_code (JStr "build")
    (fst (Memory.memoryWrite (JStr "build") (JStr "npm run build") [("lang", JStr "ts")]))
  = Some (Memory.stored_text (JStr "npm run build")) /\
  Js.len (Memory.stored_text (JStr "npm run build")) <= Memory.MAX_VALUE_LENGTH.
Proof.
  apply (memoryWrite_then_memoryRead Samples.native_code (JStr "build") (JStr "npm run build")
           [("lang", JStr "ts")]).
  left. vm_compute. discriminate.
Defined.

Lemma length_set (k : string) (v : json) (mem : Memory.Store) :
  Json.get k mem <> None -> length (Json.set k v mem) = length mem.
Proof.
  induction mem as [|[k' v'] mem IH]; cbn [Json.get Json.set]; [congruence|].
  destruct (String.eqb k' k); [reflexivity|]. intros H. cbn [length]. rewrite IH by exact H.
  reflexivity.
Qed.

Lemma keys_set (k : string) (v : json) (mem : Memory.Store) :
  Json.get k mem <> None -> map fst (Json.set k v mem) = map fst mem.
Proof.
  induction mem as [|[k' v'] mem IH]; cbn [Json.get Json.set]; [congruence|].
  destruct (String.eqb k' k) eqn:E.
  - intros _. apply String.eqb_eq in E. subst. reflexivity.
  - intros H. cbn [map fst]. rewrite IH by exact H. reflexivity.
Qed.

Lemma length_add_index (n : N) (k : string) (v : json) (mem : Memory.Store) :
  length (Memory.add_index n k v mem) = S (length mem).
Proof.
  induction mem as [|[k' v'] mem IH]; cbn [Memory.add_index]; [reflexivity|].
  destruct (Memory.array_index k'); [destruct (n <? n0)%N|]; cbn [length]; congruence.
Qed.

Lemma length_assign_new (k : string) (v : json) (mem : Memory.Store) :
  Memory.own k mem = false -> k <> "__proto__" ->
  length (Memory.assign k v mem) = S (length mem).
Proof.
  intros Hown Hk. unfold Memory.assign. rewrite Hown.
  apply String.eqb_neq in Hk. rewrite Hk.
  destruct (Memory.array_index k); [apply length_add_index|].
  rewrite length_app. cbn. lia.
Qed.

Lemma is_inherited_proto (k : string) : Memory.is_inherited k = false -> k <> "__proto__".
Proof. intros H ->. vm_compute in H. discriminate. Qed.

(** The store holds at most 200 keys as long as no key is named like a
    property of [Object.prototype]: overwriting a key keeps the keys and
    their order; a new key is added while there is room, and at 200 keys it
    takes the place of the first key in enumeration order.  A new key named
    like an inherited property ([constructor], [toString], ...) is taken for
    a key the store has: nothing makes room for it, and the store grows
    whatever its size. *)
Theorem memoryWrite_keeps_the_capacity (key value : json) (mem : Memory.Store) :
  let k := Json.to_string key in
  let mem' := fst (Memory.memoryWrite key value mem) in
  (Memory.own k mem = true -> map fst mem' = map fst mem) /\
  (Memory.own k mem = false -> Memory.is_inherited k = false ->
   Z.of_nat (length mem) < Memory.MAX_KEYS ->
   length mem' = S (length mem)) /\
  (Memory.own k mem = false -> Memory.is_inherited k = false ->
   Memory.MAX_KEYS <= Z.of_nat (length mem) ->
   length mem' = length mem /\
   mem' = Memory.assign k (JStr (Memory.stored_text value)) (tl mem)) /\
  (Memory.own k mem = false -> Memory.is_inherited k = true -> k <> "__proto__" ->
   length mem' = S (length mem)).
Proof.
  cbv zeta. unfold Memory.memoryWrite. cbn [fst].
  set (k := Json.to_string key). unfold Memory.has.
  split; [|split; [|split]].
  - intros Hown. rewrite Hown. cbn [orb negb]. rewrite andb_false_r.
    unfold Memory.assign. rewrite Hown. apply keys_set.
    unfold Memory.own in Hown. destruct (Json.get k mem); [discriminate|discriminate].
  - intros Hown Hinh Hroom. rewrite Hown, Hinh. cbn [orb negb]. rewrite andb_true_r.
    destruct (Memory.MAX_KEYS <=? Z.of_nat (length mem)) eqn:E; [apply Z.leb_le in E; lia|].
    apply length_assign_new; [exact Hown|apply is_inherited_proto; exact Hinh].
  - intros Hown Hinh Hfull. rewrite Hown, Hinh. cbn [orb negb]. rewrite andb_true_r.
    apply Z.leb_le in Hfull. rewrite Hfull.
    destruct mem as [|[oldest v0] rest].
    { apply Z.leb_le in Hfull. unfold Memory.MAX_KEYS in Hfull. cbn in Hfull. lia. }
    cbn [Memory.remove tl]. rewrite String.eqb_refl.
    split; [|reflexivity].
    rewrite length_assign_new; [reflexivity| |apply is_inherited_proto; exact Hinh].
    unfold Memory.own in *. cbn [Json.get] in Hown.
    destruct (String.eqb oldest k); [discriminate|exact Hown].
  - intros Hown Hinh Hk. rewrite Hown, Hinh. cbn [orb negb]. rewrite andb_false_r.
    apply length_assign_new; assumption.
Qed.

Lemma memoryWrite_keeps_the_capacity_witness :
  Z.of_nat (length Samples.full_memory) = Memory.MAX_KEYS /\
  length (fst (Memory.memoryWrite (JStr "b") (JStr "x") Samples.full_memory)) = 200%nat /\
  length (fst (Memory.memoryWrite (JStr "toString") (JStr "x") Samples.full_memory)) = 201%nat.
Proof.
  split; [reflexivity|]. split.
  - apply (proj1 (proj1 (proj2 (proj2 (memoryWrite_keeps_the_capacity
                                         (JStr "b") (JStr "x") Samples.full_memory)))
                    eq_refl eq_refl ltac:(vm_compute; discriminate))).
  - apply (proj2 (proj2 (proj2 (memoryWrite_keeps_the_capacity
                                  (JStr "toString") (JStr "x") Samples.full_memory)))
             eq_refl eq_refl ltac:(vm_compute; discriminate)).
Defined.

(** ** The choice of a model *)

Lemma add_inv (x : option string) (acc : list (option string) * gset (option string)) :
  Models.models_inv acc ->
  Models.models_inv (Models.add x acc) /\
  (forall y, y ∈ acc.1 -> y ∈ (Models.add x acc).1) /\
  (Models.truthy x = true -> x ∈ (Models.add x acc).1) /\
  (forall y, y ∈ (Models.add x acc).1 -> y ∈ acc.1 \/ (y = x /\ Models.truthy x = true)) /\
  (exists more, (Models.add x acc).1 = acc.1 ++ more).
Proof.
  intros [Hnd Hseen]. unfold Models.add.
  destruct (Models.truthy x) eqn:Et; cbn [andb].
  - destruct (bool_decide (x ∈ acc.2)) eqn:Es; cbn [negb].
    + apply bool_decide_eq_true in Es.
      split; [split; assumption|]. split; [auto|]. split; [intros _; apply Hseen; exact Es|].
      split; [auto|]. exists []. rewrite app_nil_r. reflexivity.
    + apply bool_decide_eq_false in Es. unfold Models.models_inv. cbn [fst snd].
      split; [split|].
      * apply NoDup_app. split; [exact Hnd|]. split; [|apply NoDup_singleton].
        intros y Hy Hy'. apply list_elem_of_singleton in Hy'. subst y. apply Es, Hseen, Hy.
      * intros y. rewrite elem_of_app, list_elem_of_singleton, <- Hseen.
        rewrite elem_of_union, elem_of_singleton. tauto.
      * split; [intros y Hy; apply elem_of_app; left; exact Hy|].
        split; [intros _; apply elem_of_app; right; apply list_elem_of_singleton; reflexivity|].
        split; [|exists [x]; reflexivity].
        intros y Hy. apply elem_of_app in Hy. destruct Hy as [Hy|Hy]; [left; exact Hy|].
        apply list_elem_of_singleton in Hy. right. split; [exact Hy|reflexivity].
  - split; [split; assumption|]. split; [auto|]. split; [discriminate|].
    split; [auto|]. exists []. rewrite app_nil_r. reflexivity.
Qed.

Lemma truthy_Some_nonempty (s : string) : s <> "" -> Models.truthy (Some s) = true.
Proof.
  intros H. cbn [Models.truthy]. destruct (String.eqb_spec s ""); [contradiction|reflexivity].
Qed.

Lemma add_models_inv (models : list Models.ModelInfo) :
  forall acc : list (option string) * gset (option string),
  Models.models_inv acc ->
  Models.models_inv (Models.add_models models acc) /\
  (forall y, y ∈ acc.1 -> y ∈ (Models.add_models models acc).1) /\
  (forall m, In m models -> Models.model_id m <> "" ->
             Some (Models.model_id m) ∈ (Models.add_models models acc).1) /\
  (forall y, y ∈ (Models.add_models models acc).1 ->
             y ∈ acc.1 \/ exists m, In m models /\ y = Some (Models.model_id m)) /\
  (exists more, (Models.add_models models acc).1 = acc.1 ++ more).
Proof.
  induction models as [|m models IH]; intros acc Hinv;
    unfold Models.add_models; cbn [fold_left].
  - split; [exact Hinv|]. split; [auto|]. split; [intros m []|]. split; [auto|].
    exists []. rewrite app_nil_r. reflexivity.
  - destruct (String.eqb_spec (Models.model_id m) "") as [E|E].
    + fold (Models.add_models models acc).
      destruct (IH acc Hinv) as (H1 & H2 & H3 & H4 & H5).
      split; [exact H1|]. split; [exact H2|].
      split; [intros m' [<-|Hm'] Hne; [contradiction|apply H3; assumption]|].
      split; [|exact H5].
      intros y Hy. destruct (H4 y Hy) as [?|(m' & Hin & ->)]; [left; assumption|].
      right. exists m'. split; [right; exact Hin|reflexivity].
    + fold (Models.add_models models (Models.add (Some (Models.model_id m)) acc)).
      destruct (add_inv (Some (Models.model_id m)) acc Hinv)
        as (A1 & A2 & A3 & A4 & [more1 A5]).
      destruct (IH _ A1) as (H1 & H2 & H3 & H4 & [more2 H5]).
      split; [exact H1|]. split; [intros y Hy; apply H2, A2, Hy|].
      split; [intros m' [<-|Hm'] Hne;
              [apply H2, A3, truthy_Some_nonempty, E|apply H3; assumption]|].
      split.
      * intros y Hy. destruct (H4 y Hy) as [Hy'|(m' & Hin & ->)].
        -- destruct (A4 y Hy') as [?|[-> _]]; [left; assumption|].
           right. exists m. split; [left; reflexivity|reflexivity].
        -- right. exists m'. split; [right; exact Hin|reflexivity].
      * exists (more1 ++ more2). rewrite H5, A5, app_assoc. reflexivity.
Qed.

Section ModelFacts.

Variable vision_task : string -> bool.
Variable coder_task : string -> bool.
Variable VISION_MODEL_PATTERNS : list string.
Variable CODER_MODEL_PATTERNS : list string.
Variable matches : string -> string -> bool.

Let pickBestModelForTask :=
  Models.pickBestModelForTask vision_task coder_task VISION_MODEL_PATTERNS CODER_MODEL_PATTERNS
    matches.
Let getModelsToTryForTask :=
  Models.getModelsToTryForTask vision_task coder_task VISION_MODEL_PATTERNS CODER_MODEL_PATTERNS
    matches.
Let model_score := Models.model_score matches.

Lemma best_of_spec (patterns : list string) (models : list Models.ModelInfo)
    (best : option string) (bestScore : Z) :
  let r := Models.best_of matches patterns models best bestScore in
  (r = best /\ forall m, In m models -> model_score patterns m <= bestScore) \/
  (exists m, In m models /\ r = Some (Models.model_id m) /\
             bestScore < model_score patterns m /\
             forall m', In m' models -> model_score patterns m' <= model_score patterns m).
Proof.
  cbv zeta. subst model_score. revert best bestScore.
  induction models as [|m models IH]; intros best bestScore; cbn [Models.best_of].
  - left. split; [reflexivity|]. intros m [].
  - destruct (bestScore <? Models.model_score matches patterns m) eqn:E.
    + apply Z.ltb_lt in E. right.
      destruct (IH (Some (Models.model_id m)) (Models.model_score matches patterns m))
        as [[-> Hmax]|(m1 & Hin & -> & Hlt & Hmax)].
      * exists m. split; [left; reflexivity|]. split; [reflexivity|]. split; [exact E|].
        intros m' [<-|Hm']; [lia|apply Hmax; exact Hm'].
      * exists m1. split; [right; exact Hin|]. split; [reflexivity|]. split; [lia|].
        intros m' [<-|Hm']; [lia|apply Hmax; exact Hm'].
    + apply Z.ltb_ge in E.
      destruct (IH best bestScore) as [[-> Hmax]|(m1 & Hin & -> & Hlt & Hmax)].
      * left. split; [reflexivity|]. intros m' [<-|Hm']; [exact E|apply Hmax; exact Hm'].
      * right. exists m1. split; [right; exact Hin|]. split; [reflexivity|]. split; [exact Hlt|].
        intros m' [<-|Hm']; [lia|apply Hmax; exact Hm'].
Qed.

Lemma first_non_coder_in (models : list Models.ModelInfo) (x : string) :
  Models.first_non_coder CODER_MODEL_PATTERNS matches models = Some x ->
  exists m, In m models /\ x = Models.model_id m.
Proof.
  induction models as [|m models IH]; cbn [Models.first_non_coder]; [discriminate|].
  destruct (String.eqb (Models.model_id m) "").
  - intros H. destruct (IH H) as (m' & Hin & ->). exists m'. split; [right; exact Hin|reflexivity].
  - destruct (negb _).
    + intros [= <-]. exists m. split; [left; reflexivity|reflexivity].
    + intros H. destruct (IH H) as (m' & Hin & ->). exists m'. split; [right; exact Hin|reflexivity].
Qed.

(** [pickBestModelForTask] never invents a model: it returns the default
    model, the preferred vision model, or the id of an available model; for
    a task that is neither a vision nor a coding task it returns the default
    model; and when a model with an id matches a pattern of the task type,
    the model returned is an available one that no other outscores. *)
Theorem pickBestModelForTask_picks_a_known_model
    (taskText : string) (availableModels : list Models.ModelInfo)
    (defaultModel preferredVisionModel : option string) :
  let picked := pickBestModelForTask taskText availableModels defaultModel preferredVisionModel in
  let type := Models.classifyTaskType vision_task coder_task taskText in
  (picked = defaultModel \/ picked = preferredVisionModel \/
   exists m, In m availableModels /\ picked = Some (Models.model_id m)) /\
  (type = Models.GENERAL -> picked = defaultModel) /\
  (forall patterns,
     (type = Models.VISION /\ patterns = VISION_MODEL_PATTERNS) \/
     (type = Models.CODER /\ patterns = CODER_MODEL_PATTERNS) ->
     Models.truthy (Models.best_of matches patterns availableModels None 0) = true ->
     exists m, In m availableModels /\ picked = Some (Models.model_id m) /\
               0 < model_score patterns m /\
               forall m', In m' availableModels ->
                          model_score patterns m' <= model_score patterns m).
Proof.
  cbv zeta. subst pickBestModelForTask. unfold Models.pickBestModelForTask.
  destruct availableModels as [|m0 models].
  - split; [|split].
    + destruct (Models.classifyTaskType _ _ _); auto.
      destruct (Models.truthy preferredVisionModel && _); auto.
    + intros ->. reflexivity.
    + intros patterns _ H. cbn in H. discriminate.
  - set (all := m0 :: models).
    destruct (Models.classifyTaskType vision_task coder_task taskText) eqn:Et.
    + pose proof (best_of_spec VISION_MODEL_PATTERNS all None 0) as Hb. cbv zeta in Hb.
      destruct (Models.truthy (Models.best_of matches VISION_MODEL_PATTERNS all None 0)) eqn:Eb.
      * destruct Hb as [[Hr _]|(m & Hin & Hr & Hlt & Hmax)]; [rewrite Hr in Eb; discriminate|].
        split; [right; right; exists m; split; assumption|].
        split; [discriminate|].
        intros patterns [[_ ->]|[[=] _]] _. exists m. repeat split; assumption.
      * split; [|split; [discriminate|]].
        -- destruct (Models.isCoderModel _ _ _ _); auto.
           destruct (Models.first_non_coder _ _ _) as [x|] eqn:Ef.
           ++ right. right. destruct (first_non_coder_in all x Ef) as (m & Hin & ->).
              exists m. split; [exact Hin|reflexivity].
           ++ destruct (Models.truthy preferredVisionModel); auto.
        -- intros patterns [[_ ->]|[[=] _]] H. rewrite Eb in H. discriminate.
    + pose proof (best_of_spec CODER_MODEL_PATTERNS all None 0) as Hb. cbv zeta in Hb.
      destruct (Models.truthy (Models.best_of matches CODER_MODEL_PATTERNS all None 0)) eqn:Eb.
      * destruct Hb as [[Hr _]|(m & Hin & Hr & Hlt & Hmax)]; [rewrite Hr in Eb; discriminate|].
        split; [right; right; exists m; split; assumption|].
        split; [discriminate|].
        intros patterns [[[=] _]|[_ ->]] _. exists m. repeat split; assumption.
      * split; [left; reflexivity|]. split; [discriminate|].
        intros patterns [[[=] _]|[_ ->]] H. rewrite Eb in H. discriminate.
    + cbn [Models.truthy]. split; [left; reflexivity|]. split; [reflexivity|].
      intros patterns [[[=] _]|[[=] _]].
Qed.

(** Without an explicit model, [getModelsToTryForTask] lists no model twice;
    the list starts with the model [pickBestModelForTask] chose (the default
    model when it chose none), holds every available model that has an id or
    a display name, the preferred vision model and the default model when
    they are set, and nothing else. *)
Theorem getModelsToTryForTask_lists_each_model_once
    (taskText : string) (availableModels : list Models.ModelInfo)
    (defaultModel preferredVisionModel explicitModel : option string) :
  Models.truthy explicitModel = false ->
  let out :=
    getModelsToTryForTask taskText availableModels defaultModel preferredVisionModel
      explicitModel in
  let primary :=
    Models.or_else
      (pickBestModelForTask taskText availableModels defaultModel preferredVisionModel)
      defaultModel in
  NoDup out /\
  hd_error out = Some primary /\
  (forall m, In m availableModels -> Models.model_id m <> "" ->
             Some (Models.model_id m) ∈ out) /\
  (Models.truthy preferredVisionModel = true -> preferredVisionModel ∈ out) /\
  (Models.truthy defaultModel = true -> defaultModel ∈ out) /\
  (forall y, y ∈ out ->
     y = primary \/ y = preferredVisionModel \/ y = defaultModel \/
     exists m, In m availableModels /\ y = Some (Models.model_id m)).
Proof.
  intros Hex. cbv zeta. subst getModelsToTryForTask pickBestModelForTask.
  unfold Models.getModelsToTryForTask. rewrite Hex.
  set (primary := Models.or_else _ defaultModel).
  assert (Hinv0 : Models.models_inv ([primary], ({[ primary ]} : gset (option string)))).
  { split; cbn [fst snd]; [apply NoDup_singleton|].
    intros x. rewrite elem_of_singleton, list_elem_of_singleton. tauto. }
  destruct (add_models_inv availableModels _ Hinv0) as (H1 & H2 & H3 & H4 & [more1 H5]).
  destruct (add_inv preferredVisionModel _ H1) as (P1 & P2 & P3 & P4 & [more2 P5]).
  destruct (add_inv defaultModel _ P1) as (D1 & D2 & D3 & D4 & [more3 D5]).
  split; [exact (proj1 D1)|].
  split; [rewrite D5, P5, H5; reflexivity|].
  split; [intros m Hin Hne; apply D2, P2, H3; assumption|].
  split; [intros Ht; apply D2, P3, Ht|].
  split; [exact D3|].
  intros y Hy. destruct (D4 y Hy) as [Hy1|[-> _]]; [|auto].
  destruct (P4 y Hy1) as [Hy2|[-> _]]; [|auto].
  destruct (H4 y Hy2) as [Hy3|Hm]; [|auto].
  cbn [fst] in Hy3. apply list_elem_of_singleton in Hy3. auto.
Qed.

End ModelFacts.

Lemma pickBestModelForTask_picks_a_known_model_witness :
  let picked :=
    Models.pickBestModelForTask Samples.vision_task Samples.coder_task
      Samples.VISION_MODEL_PATTERNS Samples.CODER_MODEL_PATTERNS Samples.matches
      "take a screenshot of the page" Samples.models (Some "qwen-coder") None in
  exists m, In m Samples.models /\ picked = Some (Models.model_id m) /\
            0 < Models.model_score Samples.matches Samples.VISION_MODEL_PATTERNS m /\
            forall m', In m' Samples.models ->
                       Models.model_score Samples.matches Samples.VISION_MODEL_PATTERNS m'
                       <= Models.model_score Samples.matches Samples.VISION_MODEL_PATTERNS m.
Proof.
  apply (proj2 (proj2 (pickBestModelForTask_picks_a_known_model
                         Samples.vision_task Samples.coder_task Samples.VISION_MODEL_PATTERNS
                         Samples.CODER_MODEL_PATTERNS Samples.matches
                         "take a screenshot of the page" Samples.models (Some "qwen-coder") None))
           Samples.VISION_MODEL_PATTERNS).
  - left. split; reflexivity.
  - reflexivity.
Defined.

Lemma getModelsToTryForTask_lists_each_model_once_witness :
  let out :=
    Models.getModelsToTryForTask Samples.vision_task Samples.coder_task
      Samples.VISION_MODEL_PATTERNS Samples.CODER_MODEL_PATTERNS Samples.matches
      "take a screenshot of the page" Samples.models (Some "qwen-coder") (Some "llava") None in
  let primary :=
    Models.or_else
      (Models.pickBestModelForTask Samples.vision_task Samples.coder_task
         Samples.VISION_MODEL_PATTERNS Samples.CODER_MODEL_PATTERNS Samples.matches
         "take a screenshot of the page" Samples.models (Some "qwen-coder") (Some "llava"))
      (Some "qwen-coder") in
  NoDup out /\
  hd_error out = Some primary /\
  (forall m, In m Samples.models -> Models.model_id m <> "" ->
             Some (Models.model_id m) ∈ out) /\
  (Models.truthy (Some "llava") = true -> Some "llava" ∈ out) /\
  (Models.truthy (Some "qwen-coder") = true -> Some "qwen-coder" ∈ out) /\
  (forall y, y ∈ out ->
     y = primary \/ y = Some "llava" \/ y = Some "qwen-coder" \/
     exists m, In m Samples.models /\ y = Some (Models.model_id m)).
Proof.
  apply (getModelsToTryForTask_lists_each_model_once
           Samples.vision_task Samples.coder_task Samples.VISION_MODEL_PATTERNS
           Samples.CODER_MODEL_PATTERNS Samples.matches
           "take a screenshot of the page" Samples.models (Some "qwen-coder") (Some "llava") None).
  reflexivity.
Defined.
